(** * The person_course assembly pipeline of edx2bigquery

    A shallow embedding of [edx2bigquery/make_person_course.py] (class
    [PersonCourse], function [make_person_course]) and of the
    [person_course] branch of [edx2bigquery/main.py], followed by the
    properties of the pipeline that were checked against it.

    The program is Python 2.  Its records are dictionaries from field names
    to dynamically typed scalars, its record store is an [OrderedDict] of
    such records, it mutates records in place, and every step may raise.
    The embedding keeps these as they are: dictionaries are association
    lists in insertion order, the object [self] and the outside world
    (remote tables, files, standard output) form an explicit state, and a
    computation is a function from a state to a result-or-exception paired
    with the state it leaves behind, so that what was mutated before an
    exception stays mutated. *)

From Stdlib Require Import ZArith List String Ascii Bool Lia DecimalString.
From Stdlib Require Import Reals Lra.
Import ListNotations.

Open Scope string_scope.
Open Scope list_scope.

(* ------------------------------------------------------------------ *)
(** ** Python values *)

(** The scalars that occur in the rows this program handles.  JSON text is
    [PUni] (a Python 2 [unicode]); [PStr] is a byte string ([str]), which
    the program produces with [str(...)] and [.encode('utf8')].  A
    character of a [PUni] is its code point, so code points above U+00FF
    are not represented; floats, lists and nested objects do not occur in
    the fields the pipeline reads and are left out. *)
Inductive pyval : Type :=
| PNone
| PBool (b : bool)
| PInt (z : Z)
| PUni (u : string)
| PStr (s : string).

(** The exceptions the modelled code can raise. *)
Inductive exn : Type :=
| KeyError (k : string)
| ValueError (msg : string)
| TypeError (msg : string)
| AttributeError (name : string)
| NameError (name : string)
| IOError (fn : string)
| SystemExit (code : Z)
| OverflowError
| UnicodeEncodeError
| UnicodeDecodeError
| RaisedException (msg : string).

Definition is_ascii_char (c : ascii) : bool := (nat_of_ascii c <? 128)%nat.

Fixpoint is_ascii (s : string) : bool :=
  match s with
  | EmptyString => true
  | String c r => is_ascii_char c && is_ascii r
  end.

(** [a == b] on Python 2 scalars: [True == 1], [False == 0], and a byte
    string equals a unicode string when it is ASCII and has the same
    characters. *)
Definition py_eqb (a b : pyval) : bool :=
  match a, b with
  | PNone, PNone => true
  | PBool x, PBool y => Bool.eqb x y
  | PInt x, PInt y => (x =? y)%Z
  | PBool x, PInt y | PInt y, PBool x => ((if x then 1 else 0) =? y)%Z
  | PUni x, PUni y => String.eqb x y
  | PStr x, PStr y => String.eqb x y
  | PUni x, PStr y | PStr y, PUni x => is_ascii y && String.eqb x y
  | _, _ => false
  end.

(** Truth value of a scalar, as tested by [if le:]. *)
Definition py_truthy (v : pyval) : bool :=
  match v with
  | PNone => false
  | PBool b => b
  | PInt z => negb (z =? 0)%Z
  | PUni s | PStr s => negb (String.eqb s "")
  end.

(** *** Decimal numerals *)

(** The decimal numeral of an integer, with a minus sign when negative. *)
Definition str_of_Z (z : Z) : string := NilZero.string_of_int (Z.to_int z).

Definition is_digit (c : ascii) : bool :=
  let n := nat_of_ascii c in ((48 <=? n) && (n <=? 57))%nat.

Definition is_space (c : ascii) : bool :=
  let n := nat_of_ascii c in ((n =? 32) || ((9 <=? n) && (n <=? 13)))%nat.

Fixpoint digits_val (s : string) (acc : Z) : option Z :=
  match s with
  | EmptyString => Some acc
  | String c r =>
      if is_digit c
      then digits_val r (10 * acc + (Z.of_nat (nat_of_ascii c) - 48))%Z
      else None
  end.

Fixpoint lstrip (s : string) : string :=
  match s with
  | String c r => if is_space c then lstrip r else s
  | EmptyString => s
  end.

Fixpoint rstrip (s : string) : string :=
  match s with
  | EmptyString => EmptyString
  | String c r =>
      match rstrip r with
      | EmptyString => if is_space c then EmptyString else String c EmptyString
      | r' => String c r'
      end
  end.

Definition unsigned_val (s : string) : option Z :=
  match s with
  | EmptyString => None
  | _ => digits_val s 0
  end.

(** [int(s)] for a string: surrounding white space, an optional sign, and
    at least one decimal digit. *)
Definition int_of_text (s : string) : option Z :=
  match rstrip (lstrip s) with
  | String "-" r => option_map Z.opp (unsigned_val r)
  | String "+" r => unsigned_val r
  | r => unsigned_val r
  end.

(** [int(v)]. *)
Definition py_int (v : pyval) : exn + Z :=
  match v with
  | PNone => inl (TypeError "int() argument must be a string or a number")
  | PBool b => inr (if b then 1 else 0)%Z
  | PInt z => inr z
  | PUni s | PStr s =>
      match int_of_text s with
      | Some z => inr z
      | None => inl (ValueError "invalid literal for int()")
      end
  end.

(** [str(v)]: a unicode value is encoded with the ASCII codec. *)
Definition py_str (v : pyval) : exn + string :=
  match v with
  | PNone => inr "None"
  | PBool true => inr "True"
  | PBool false => inr "False"
  | PInt z => inr (str_of_Z z)
  | PStr s => inr s
  | PUni u => if is_ascii u then inr u else inl UnicodeEncodeError
  end.

(** UTF-8 encoding of a code point below 256. *)
Definition utf8_of_char (c : ascii) : string :=
  let n := N_of_ascii c in
  if (n <? 128)%N then String c EmptyString
  else String (ascii_of_N (N.lor 192 (N.shiftr n 6)))
         (String (ascii_of_N (N.lor 128 (N.land n 63))) EmptyString).

Fixpoint utf8_of_text (u : string) : string :=
  match u with
  | EmptyString => EmptyString
  | String c r => utf8_of_char c ++ utf8_of_text r
  end.

(** [v.encode('utf8')]: a byte string is first decoded with the ASCII
    codec; the other scalars have no such method. *)
Definition py_encode_utf8 (v : pyval) : exn + pyval :=
  match v with
  | PUni u => inr (PStr (utf8_of_text u))
  | PStr s => if is_ascii s then inr (PStr s) else inl UnicodeDecodeError
  | _ => inl (AttributeError "encode")
  end.

(* ------------------------------------------------------------------ *)
(** ** Dictionaries *)

Section Dict.

Context {K V : Type}.
Variable eqb : K -> K -> bool.

(** [d.get(k)] *)
Fixpoint od_get (k : K) (d : list (K * V)) : option V :=
  match d with
  | [] => None
  | (k', v) :: rest => if eqb k' k then Some v else od_get k rest
  end.

(** [k in d] *)
Definition od_mem (k : K) (d : list (K * V)) : bool :=
  match od_get k d with Some _ => true | None => false end.

(** [d[k] = v]: an existing key keeps its place (and its key object), a new
    one goes to the end. *)
Fixpoint od_set (k : K) (v : V) (d : list (K * V)) : list (K * V) :=
  match d with
  | [] => [(k, v)]
  | (k', v') :: rest =>
      if eqb k' k then (k', v) :: rest else (k', v') :: od_set k v rest
  end.

Definition od_keys (d : list (K * V)) : list K := map fst d.

End Dict.

(** A record: field name to scalar.  Field names are compared as strings. *)
Definition record := list (string * pyval).

(** A keyed table (the record store, [data_by_key] of a remote result):
    key to record, keys compared with [==]. *)
Definition table := list (pyval * record).

Definition rget (f : string) (r : record) : option pyval := od_get String.eqb f r.
Definition rmem (f : string) (r : record) : bool := od_mem String.eqb f r.
Definition rset (f : string) (v : pyval) (r : record) : record := od_set String.eqb f v r.

Definition tget (k : pyval) (t : table) : option record := od_get py_eqb k t.
Definition tmem (k : pyval) (t : table) : bool := od_mem py_eqb k t.
Definition tset (k : pyval) (r : record) (t : table) : table := od_set py_eqb k r t.

(* ------------------------------------------------------------------ *)
(** ** The remote engine, the course directory and the object state *)

(** A query text after the parameters of [self.sql_parameters] have been
    substituted: the template it was made from and the parameters that
    template mentions.  What the
    remote engine computes for a text is not part of this program. *)
Inductive Sql : Type :=
| SqlNChapters (dataset : string)
| SqlForum (dataset : string)
| SqlDayTotals (course_id dataset start_date end_date : string)
| SqlLastEvent (dataset start_date end_date : string)
| SqlNEvents (dataset start_date end_date : string)
| SqlModalIp (dataset start_date end_date : string)
| SqlGeoip (dataset : string).

(** An entry of [self.logmsg].  A message that formats a value or a whole
    row is kept as its arguments, and the time of day that ends a
    [LogStarted] message is left out. *)
Inductive logent : Type :=
| LogText (s : string)
| LogStarted (s : string)
| LogBadLastEvent (le username : pyval)
| LogCsvError (row : record).

(** What the program asks of the remote engine, in order. *)
Inductive bq_op : Type :=
| CallGetTables (dataset : string)
| CallGetBqTable (dataset tablename : string) (sql : Sql) (key : string)
    (force_query : option bool)
| QuerySubmitted (dataset tablename : string) (sql : Sql)
| TableReused (dataset tablename : string)
| CallGsutilCp (src_dir fn dst : string)
| CallLoadDataToTable (dataset tableid gsfn : string)
| CallAddDescription (dataset tableid : string) (description : list logent).

(** A file of the course directory, as the program reads or writes it: the
    lines of a line-delimited JSON file ([None] for a line [json.loads]
    rejects), the entries of a course structure document, or the rows of a
    delimited text file. *)
Inductive file : Type :=
| JsonLinesFile (lines : list (option record))
| StructureFile (entries : list (string * record))
| CsvFile (rows : list (list string)).

(** A line on standard output.  The text of a message that formats a whole
    row is kept as its arguments, and the time of day that ends a
    [PrintedStarted] line is left out. *)
Inductive out_line : Type :=
| Printed (s : string)
| PrintedStarted (s : string)
| PrintedLog (msg : logent)
| PrintedError (e : exn)
| PrintedMissingKey (key fn : string) (row : Z) (jd : record).

Record World : Type := mkWorld {
  bq_datasets : list (string * list (string * table));
  bq_engine : Sql -> exn + table;
  bq_trace : list bq_op;
  directories : list string;
  files : list ((string * string) * file);
  schema_file : exn + list (string * (string * string));
  stdout : list out_line
}.

(** Field type and mode of a schema entry, by field name, in the order of
    the schema document. *)
Definition schema := list (string * (string * string)).

(** The attributes of a [PersonCourse] object.  The aggregate tables are
    attached with [setattr(self, tablename, ...)], hence [attrs]. *)
Record Self : Type := mkSelf {
  course_id : string;
  course_dir : string;
  verbose : bool;
  force_recompute_from_logs : bool;
  gspath : string;
  dataset : string;
  end_date : string;
  start_date : string;
  the_dict_schema : schema;
  pctab : table;
  logmsg : list logent;
  uicdat : option table;
  nchapters : option Z;
  tables : option (list string);
  attrs : list (string * table)
}.

Definition St : Type := Self * World.

(** A computation over a state [S]: result or exception, and the state
    left behind. *)
Definition Comp (S A : Type) : Type := S -> (exn + A) * S.

Definition ret {S A} (a : A) : Comp S A := fun st => (inr a, st).
Definition raise {S A} (e : exn) : Comp S A := fun st => (inl e, st).
Definition bind {S A B} (m : Comp S A) (k : A -> Comp S B) : Comp S B :=
  fun st =>
    match m st with
    | (inl e, st') => (inl e, st')
    | (inr a, st') => k a st'
    end.
Definition lift {S A} (r : exn + A) : Comp S A := fun st => (r, st).
Definition get_state {S} : Comp S S := fun st => (inr st, st).
Definition modify {S} (f : S -> S) : Comp S unit := fun st => (inr tt, f st).

Notation "x <- m ;; k" := (bind m (fun x => k))
  (at level 61, m at next level, right associativity).
Notation "m ;;; k" := (bind m (fun _ => k))
  (at level 61, right associativity).

(** Computations of the methods of [PersonCourse]. *)
Definition M (A : Type) : Type := Comp St A.

Definition get_self : M Self := fun st => (inr (fst st), st).
Definition get_world : M World := fun st => (inr (snd st), st).
Definition modify_self (f : Self -> Self) : M unit :=
  fun st => (inr tt, (f (fst st), snd st)).
Definition modify_world (f : World -> World) : M unit :=
  fun st => (inr tt, (fst st, f (snd st))).

Definition set_the_dict_schema (d : schema) (s : Self) : Self :=
  mkSelf (course_id s) (course_dir s) (verbose s) (force_recompute_from_logs s)
    (gspath s) (dataset s) (end_date s) (start_date s) d
    (pctab s) (logmsg s) (uicdat s) (nchapters s) (tables s) (attrs s).

Definition set_pctab (t : table) (s : Self) : Self :=
  mkSelf (course_id s) (course_dir s) (verbose s) (force_recompute_from_logs s)
    (gspath s) (dataset s) (end_date s) (start_date s) (the_dict_schema s)
    t (logmsg s) (uicdat s) (nchapters s) (tables s) (attrs s).

Definition set_logmsg (l : list logent) (s : Self) : Self :=
  mkSelf (course_id s) (course_dir s) (verbose s) (force_recompute_from_logs s)
    (gspath s) (dataset s) (end_date s) (start_date s) (the_dict_schema s)
    (pctab s) l (uicdat s) (nchapters s) (tables s) (attrs s).

Definition set_uicdat (t : table) (s : Self) : Self :=
  mkSelf (course_id s) (course_dir s) (verbose s) (force_recompute_from_logs s)
    (gspath s) (dataset s) (end_date s) (start_date s) (the_dict_schema s)
    (pctab s) (logmsg s) (Some t) (nchapters s) (tables s) (attrs s).

Definition set_nchapters (n : Z) (s : Self) : Self :=
  mkSelf (course_id s) (course_dir s) (verbose s) (force_recompute_from_logs s)
    (gspath s) (dataset s) (end_date s) (start_date s) (the_dict_schema s)
    (pctab s) (logmsg s) (uicdat s) (Some n) (tables s) (attrs s).

Definition set_tables (l : list string) (s : Self) : Self :=
  mkSelf (course_id s) (course_dir s) (verbose s) (force_recompute_from_logs s)
    (gspath s) (dataset s) (end_date s) (start_date s) (the_dict_schema s)
    (pctab s) (logmsg s) (uicdat s) (nchapters s) (Some l) (attrs s).

Definition set_attrs (a : list (string * table)) (s : Self) : Self :=
  mkSelf (course_id s) (course_dir s) (verbose s) (force_recompute_from_logs s)
    (gspath s) (dataset s) (end_date s) (start_date s) (the_dict_schema s)
    (pctab s) (logmsg s) (uicdat s) (nchapters s) (tables s) a.

Definition set_bq (d : list (string * list (string * table))) (w : World) : World :=
  mkWorld d (bq_engine w) (bq_trace w) (directories w) (files w) (schema_file w)
    (stdout w).

Definition add_trace (op : bq_op) (w : World) : World :=
  mkWorld (bq_datasets w) (bq_engine w) (bq_trace w ++ [op]) (directories w)
    (files w) (schema_file w) (stdout w).

Definition set_files (f : list ((string * string) * file)) (w : World) : World :=
  mkWorld (bq_datasets w) (bq_engine w) (bq_trace w) (directories w) f
    (schema_file w) (stdout w).

Definition add_stdout (l : out_line) (w : World) : World :=
  mkWorld (bq_datasets w) (bq_engine w) (bq_trace w) (directories w) (files w)
    (schema_file w) (stdout w ++ [l]).

(** [self.log(msg)] *)
Definition log (msg : logent) : M unit :=
  modify_self (fun s => set_logmsg (logmsg s ++ [msg]) s) ;;;
  self <- get_self ;;
  if verbose self
  then modify_world (add_stdout (PrintedLog msg))
  else ret tt.

(* ------------------------------------------------------------------ *)
(** ** Reading the course directory *)

Fixpoint str_repeat (c : string) (n : nat) : string :=
  match n with
  | O => ""
  | S k => c ++ str_repeat c k
  end.

(** [self.openfile(fn)] for reading; the file must exist. *)
Definition path_eqb (a b : string * string) : bool :=
  String.eqb (fst a) (fst b) && String.eqb (snd a) (snd b).

Definition openfile (fn : string) : M file :=
  self <- get_self ;;
  w <- get_world ;;
  match od_get path_eqb (course_dir self, fn) (files w) with
  | Some f => ret f
  | None => raise (IOError fn)
  end.

(** Writing a file of the course directory: created if new, replaced if
    not. *)
Definition write_file (fn : string) (f : file) : M unit :=
  self <- get_self ;;
  modify_world (fun w => set_files (od_set path_eqb (course_dir self, fn) f (files w)) w).

(** The loop of [load_json]: [cnt] and [data] are its two local variables. *)
Fixpoint load_json_loop (fn key : string) (lines : list (option record))
  (cnt : Z) (data : table) : M table :=
  match lines with
  | [] => ret data
  | line :: rest =>
      let cnt := (cnt + 1)%Z in
      match line with
      | None => raise (ValueError "No JSON object could be decoded")
      | Some jd =>
          match rget key jd with
          | Some the_id => load_json_loop fn key rest cnt (tset the_id jd data)
          | None =>
              modify_world (add_stdout (PrintedMissingKey key fn cnt jd)) ;;;
              load_json_loop fn key rest cnt data
          end
      end
  end.

Definition load_json (fn key : string) : M table :=
  f <- openfile fn ;;
  match f with
  | JsonLinesFile lines => load_json_loop fn key lines 0 []
  | _ => raise (ValueError "No JSON object could be decoded")
  end.

(** The value of an entry of the [fields] argument of [copy_fields]: one
    source field, or a list of candidates. *)
Inductive field_source : Type :=
| OneOf (candidates : list string)
| Field (name : string).

Fixpoint first_present (src : record) (candidates : list string) : option pyval :=
  match candidates with
  | [] => None
  | valent :: rest =>
      match rget valent src with
      | Some v => Some v
      | None => first_present src rest
      end
  end.

Definition copy_field (src : record) (dst : record) (ent : string * field_source) : record :=
  let (key, val) := ent in
  match val with
  | OneOf l =>
      match first_present src l with
      | Some v => rset key v dst
      | None => dst
      end
  | Field f =>
      match rget f src with
      | Some v => rset key v dst
      | None => dst
      end
  end.

Definition copy_fields (src dst : record) (fields : list (string * field_source)) : record :=
  fold_left (copy_field src) fields dst.

(** The table of fields that the first phase copies.  It is a dictionary
    literal in the source, and is walked here in the order it is written. *)
Definition first_phase_fields : list (string * field_source) :=
  [ ("course_id", OneOf ["enrollment_course_id"; "certificate_course_id"]);
    ("user_id", Field "user_id");
    ("username", Field "username");
    ("gender", Field "profile_gender");
    ("LoE", Field "profile_level_of_education");
    ("YoB", Field "profile_year_of_birth");
    ("grade", Field "certificate_grade");
    ("start_time", Field "enrollment_created");
    ("mode", Field "enrollment_mode") ].

(** [v in l] for a list of scalars. *)
Definition py_in (v : pyval) (l : list pyval) : bool := existsb (py_eqb v) l.

(** The body of the loop of [compute_first_phase]: the record made for one
    row of user_info_combo. *)
Definition first_phase_record (uicent : record) : record :=
  let pcent := copy_fields uicent [] first_phase_fields in
  let pcent := rset "registered" (PBool true) pcent in
  let status := match rget "certificate_status" uicent with
                | Some v => v
                | None => PStr ""
                end in
  if py_in status [PStr "downloadable"; PStr "unavailable"]
  then rset "certified" (PBool true) pcent
  else rset "certified" (PBool false) pcent.

Definition first_phase_loop (uicdat : table) (tab : table) : table :=
  fold_left (fun t ent => tset (fst ent) (first_phase_record (snd ent)) t) uicdat tab.

Definition compute_first_phase : M unit :=
  log (LogText (str_repeat "-" 20)) ;;;
  log (LogText "Computing first phase based on user_info_combo") ;;;
  uic <- load_json "user_info_combo.json.gz" "username" ;;
  modify_self (set_uicdat uic) ;;;
  modify_self (fun s => set_pctab (first_phase_loop uic (pctab s)) s).

(** [getonefile] of [get_nchapters_from_course_structure]. *)
Fixpoint getonefile (fns : list string) : M string :=
  match fns with
  | [] => raise (RaisedException "Cannot find required file")
  | fn :: rest =>
      self <- get_self ;;
      w <- get_world ;;
      if od_mem path_eqb (course_dir self, fn) (files w) then ret fn else getonefile rest
  end.

Fixpoint count_chapters (entries : list (string * record)) (n : Z) : exn + Z :=
  match entries with
  | [] => inr n
  | (_, ent) :: rest =>
      match rget "category" ent with
      | None => inl (KeyError "category")
      | Some c =>
          if py_eqb c (PStr "chapter")
          then count_chapters rest (n + 1)%Z
          else count_chapters rest n
      end
  end.

Definition get_nchapters_from_course_structure : M Z :=
  csfn <- getonefile ["course_structure-prod-analytics.json.gz"; "course_structure.json"] ;;
  f <- openfile csfn ;;
  match f with
  | StructureFile entries =>
      n <- lift (count_chapters entries 0) ;;
      self <- get_self ;;
      log (LogText ("course " ++ course_id self ++ " has " ++ str_of_Z n
                    ++ " chapters, based on " ++ csfn)) ;;;
      modify_self (set_nchapters n) ;;;
      ret n
  | _ => raise (ValueError "No JSON object could be decoded")
  end.

(** One line of [reload_table]: the two text fields are re-encoded. *)
Definition reload_encode (f : string) (dline : record) : exn + record :=
  match rget f dline with
  | Some v =>
      match py_encode_utf8 v with
      | inr v' => inr (rset f v' dline)
      | inl e => inl e
      end
  | None => inr dline
  end.

Fixpoint reload_loop (lines : list (option record)) (data : table) : exn + table :=
  match lines with
  | [] => inr data
  | None :: _ => inl (ValueError "No JSON object could be decoded")
  | Some dline :: rest =>
      match rget "username" dline with
      | None => inl (KeyError "username")
      | Some key =>
          match reload_encode "city" dline with
          | inl e => inl e
          | inr dline =>
              match reload_encode "countryLabel" dline with
              | inl e => inl e
              | inr dline => reload_loop rest (tset key dline data)
              end
          end
      end
  end.

(** [data] is a plain dictionary in the source; the order in which it is
    later walked is taken to be the order of insertion. *)
Definition reload_table : M unit :=
  f <- openfile "person_course.json.gz" ;;
  match f with
  | JsonLinesFile lines =>
      data <- lift (reload_loop lines []) ;;
      modify_self (set_pctab data) ;;;
      log (LogText ("Loaded " ++ str_of_Z (Z.of_nat (List.length data))
                    ++ " lines from person_course.json.gz"))
  | _ => raise (ValueError "No JSON object could be decoded")
  end.

(* ------------------------------------------------------------------ *)
(** ** The remote aggregate loader *)

Definition stored_table (ds tablename : string) (w : World) : option table :=
  match od_get String.eqb ds (bq_datasets w) with
  | Some tabs => od_get String.eqb tablename tabs
  | None => None
  end.

Definition store_table (ds tablename : string) (t : table) (w : World) : World :=
  let tabs := match od_get String.eqb ds (bq_datasets w) with
              | Some tabs => tabs
              | None => []
              end in
  set_bq (od_set String.eqb ds (od_set String.eqb tablename t tabs) (bq_datasets w)) w.

(** Modelled from the spec: [bqutil.get_bq_table], which is not among the
    sources.  "If a materialized table named tableName already exists in
    the target remote dataset and forceRecompute is false, the loader
    returns its contents directly (skip execution).  If it does not exist,
    or forceRecompute is true, the loader submits queryTemplate as a new
    remote query, persists the result as a new materialized table
    tableName, and returns it keyed by keyField"; forceRecompute is false
    when the caller does not pass it.  The value returned here is the
    ['data_by_key'] of the result.  Every call is recorded in the trace with
    the arguments it was given. *)
Definition get_bq_table (ds tablename : string) (sql : Sql) (key : string)
  (force_query : option bool) : M table :=
  modify_world (add_trace (CallGetBqTable ds tablename sql key force_query)) ;;;
  w <- get_world ;;
  let force := match force_query with Some b => b | None => false end in
  match (if force then None else stored_table ds tablename w) with
  | Some t =>
      modify_world (add_trace (TableReused ds tablename)) ;;;
      ret t
  | None =>
      modify_world (add_trace (QuerySubmitted ds tablename sql)) ;;;
      t <- lift (bq_engine w sql) ;;
      modify_world (store_table ds tablename t) ;;;
      ret t
  end.

(** Modelled from the spec: [bqutil.get_tables], which is not among the
    sources: the ids of the tables materialized in a dataset. *)
Definition get_tables (ds : string) : M (list string) :=
  modify_world (add_trace (CallGetTables ds)) ;;;
  w <- get_world ;;
  match od_get String.eqb ds (bq_datasets w) with
  | Some tabs => ret (map fst tabs)
  | None => ret []
  end.

(** [setattr(self, tablename, value)] *)
Definition setattr (tablename : string) (t : table) : M unit :=
  modify_self (fun s => set_attrs (od_set String.eqb tablename t (attrs s)) s).

(** [self.<tablename>] *)
Definition getattr (tablename : string) : M table :=
  self <- get_self ;;
  match od_get String.eqb tablename (attrs self) with
  | Some t => ret t
  | None => raise (AttributeError tablename)
  end.

Definition log_loading (tablename : string) : M unit :=
  log (LogText ("Loading " ++ tablename ++ " from BigQuery")).

(** [load_nchapters] calls the loader without [force_query]. *)
Definition load_nchapters : M unit :=
  self <- get_self ;;
  let the_sql := SqlNChapters (dataset self) in
  let tablename := "pc_nchapters" in
  log_loading tablename ;;;
  t <- get_bq_table (dataset self) tablename the_sql "user_id" None ;;
  setattr tablename t.

Definition load_pc_day_totals : M unit :=
  self <- get_self ;;
  let the_sql := SqlDayTotals (course_id self) (dataset self) (start_date self) (end_date self) in
  let tablename := "pc_day_totals" in
  log_loading tablename ;;;
  t <- get_bq_table (dataset self) tablename the_sql "username"
         (Some (force_recompute_from_logs self)) ;;
  setattr tablename t.

Definition load_pc_forum : M unit :=
  self <- get_self ;;
  let the_sql := SqlForum (dataset self) in
  let tablename := "pc_forum" in
  log_loading tablename ;;;
  t <- get_bq_table (dataset self) tablename the_sql "user_id"
         (Some (force_recompute_from_logs self)) ;;
  setattr tablename t.

Definition load_last_event : M unit :=
  self <- get_self ;;
  let the_sql := SqlLastEvent (dataset self) (start_date self) (end_date self) in
  let tablename := "pc_last_event" in
  log_loading tablename ;;;
  t <- get_bq_table (dataset self) tablename the_sql "username"
         (Some (force_recompute_from_logs self)) ;;
  setattr tablename t.

Definition load_nevents : M unit :=
  self <- get_self ;;
  let the_sql := SqlNEvents (dataset self) (start_date self) (end_date self) in
  let tablename := "pc_nevents" in
  log_loading tablename ;;;
  t <- get_bq_table (dataset self) tablename the_sql "username"
         (Some (force_recompute_from_logs self)) ;;
  setattr tablename t.

Definition load_modal_ip : M unit :=
  self <- get_self ;;
  let the_sql := SqlModalIp (dataset self) (start_date self) (end_date self) in
  let tablename := "pc_modal_ip" in
  log_loading tablename ;;;
  t <- get_bq_table (dataset self) tablename the_sql "username"
         (Some (force_recompute_from_logs self)) ;;
  setattr tablename t.

Definition load_pc_geoip : M unit :=
  self <- get_self ;;
  let the_sql := SqlGeoip (dataset self) in
  let tablename := "pc_geoip" in
  log_loading tablename ;;;
  t <- get_bq_table (dataset self) tablename the_sql "username"
         (Some (force_recompute_from_logs self)) ;;
  setattr tablename t.

(* ------------------------------------------------------------------ *)
(** ** Calendar dates and the check of the daily tables *)

Open Scope Z_scope.

Definition is_leap (y : Z) : bool :=
  (y mod 4 =? 0) && (negb (y mod 100 =? 0) || (y mod 400 =? 0)).

Definition days_in_month (y m : Z) : Z :=
  if m =? 2 then (if is_leap y then 29 else 28)
  else if (m =? 4) || (m =? 6) || (m =? 9) || (m =? 11) then 30
  else 31.

(** Days before the first of month [m] in a year that is not a leap year. *)
Definition days_before_month_table (m : Z) : Z :=
  nth (Z.to_nat m) [0; 0; 31; 59; 90; 120; 151; 181; 212; 243; 273; 304; 334] 0.

Definition days_before_year (y : Z) : Z :=
  let y := y - 1 in y * 365 + y / 4 - y / 100 + y / 400.

Definition days_before_month (y m : Z) : Z :=
  days_before_month_table m + (if (2 <? m) && is_leap y then 1 else 0).

(** A [datetime] at midnight is its proleptic Gregorian ordinal. *)
Definition ymd2ord (y m d : Z) : Z :=
  days_before_year y + days_before_month y m + d.

Definition ord2ymd (n : Z) : Z * Z * Z :=
  let n := n - 1 in
  let n400 := n / 146097 in
  let n := n mod 146097 in
  let year := n400 * 400 + 1 in
  let n100 := n / 36524 in
  let n := n mod 36524 in
  let n4 := n / 1461 in
  let n := n mod 1461 in
  let n1 := n / 365 in
  let n := n mod 365 in
  let year := year + n100 * 100 + n4 * 4 + n1 in
  if (n1 =? 4) || (n100 =? 4) then (year - 1, 12, 31)
  else
    let leapyear := (n1 =? 3) && (negb (n4 =? 24) || (n100 =? 3)) in
    let month := Z.shiftr (n + 50) 5 in
    let preceding := days_before_month_table month
                     + (if (2 <? month) && leapyear then 1 else 0) in
    if n <? preceding
    then
      let month := month - 1 in
      let preceding := preceding
                       - (nth (Z.to_nat month) [0; 31; 28; 31; 30; 31; 30; 31; 31; 30; 31; 30; 31] 0
                          + (if (month =? 2) && leapyear then 1 else 0)) in
      (year, month, n - preceding + 1)
    else (year, month, n - preceding + 1).

Definition max_ordinal : Z := 3652059.

Definition digit_of (c : ascii) : option Z :=
  if is_digit c then Some (Z.of_nat (nat_of_ascii c) - 48) else None.

(** The month field of [%m]: one or two digits, 1 to 12. *)
Definition parse_month (s : string) : option Z :=
  match s with
  | String a EmptyString =>
      match digit_of a with
      | Some x => if 1 <=? x then Some x else None
      | None => None
      end
  | String a (String b EmptyString) =>
      match digit_of a, digit_of b with
      | Some x, Some y =>
          let v := 10 * x + y in
          if (1 <=? v) && (v <=? 12) then Some v else None
      | _, _ => None
      end
  | _ => None
  end.

(** The day field of [%d]: one or two digits, 1 to 31, or a space and one
    digit. *)
Definition parse_day (s : string) : option Z :=
  match s with
  | String a EmptyString =>
      match digit_of a with
      | Some x => if 1 <=? x then Some x else None
      | None => None
      end
  | String a (String b EmptyString) =>
      match digit_of b with
      | Some y =>
          if Ascii.eqb a " " then (if 1 <=? y then Some y else None)
          else match digit_of a with
               | Some x =>
                   let v := 10 * x + y in
                   if (1 <=? v) && (v <=? 31) then Some v else None
               | None => None
               end
      | None => None
      end
  | _ => None
  end.

(** Splits at the first ["-"]. *)
Fixpoint split_dash (s : string) : option (string * string) :=
  match s with
  | EmptyString => None
  | String c r =>
      if Ascii.eqb c "-" then Some (EmptyString, r)
      else match split_dash r with
           | Some (a, b) => Some (String c a, b)
           | None => None
           end
  end.

Definition parse_year (s : string) : option Z :=
  match s with
  | String a (String b (String c (String d EmptyString))) => digits_val s 0
  | _ => None
  end.

(** [d2dt]: [datetime.datetime.strptime(date, '%Y-%m-%d')]. *)
Definition d2dt (date : string) : exn + Z :=
  match split_dash date with
  | Some (ys, rest) =>
      match split_dash rest with
      | Some (ms, ds) =>
          match parse_year ys, parse_month ms, parse_day ds with
          | Some y, Some m, Some d =>
              if (1 <=? y) && (d <=? days_in_month y m)
              then inr (ymd2ord y m d)
              else inl (ValueError "day is out of range for month")
          | _, _, _ => inl (ValueError "time data does not match format")
          end
      | None => inl (ValueError "time data does not match format")
      end
  | None => inl (ValueError "time data does not match format")
  end.

Definition zero_pad (width : nat) (s : string) : string :=
  (str_repeat "0" (width - String.length s) ++ s)%string.

(** ['%04d%02d%02d' % (k.year, k.month, k.day)] *)
Definition ymd_string (k : Z) : string :=
  let '(y, m, d) := ord2ymd k in
  zero_pad 4 (str_of_Z y) ++ zero_pad 2 (str_of_Z m) ++ zero_pad 2 (str_of_Z d).

(** The [while] loop of [daterange]; [None] when the fuel runs out. *)
Fixpoint daterange_loop (fuel : nat) (k e : Z) (dates : list string)
  : option (exn + list string) :=
  match fuel with
  | O => None
  | S f =>
      if k <=? e
      then
        let dates := dates ++ [ymd_string k] in
        if max_ordinal <? k + 1 then Some (inl OverflowError)
        else daterange_loop f (k + 1) e dates
      else Some (inr dates)
  end.

(** One more unit of fuel than there are days from [s] to [e]. *)
Definition daterange (s e : Z) : exn + list string :=
  match daterange_loop (S (Z.to_nat (e - s + 1))) s e [] with
  | Some r => r
  | None => inr []
  end.

Close Scope Z_scope.

Definition str_in (s : string) (l : list string) : bool := existsb (String.eqb s) l.

Fixpoint ensure_loop (ds tprefix : string) (tabs : list string) (dates : list string)
  : M unit :=
  match dates with
  | [] => ret tt
  | k :: rest =>
      let tname := (tprefix ++ "_" ++ k)%string in
      if str_in tname tabs then ensure_loop ds tprefix tabs rest
      else
        let msg := ("Oops, missing needed table " ++ tname ++ " from database " ++ ds)%string in
        log (LogText msg) ;;;
        modify_self (set_tables tabs) ;;;
        raise (RaisedException msg)
  end.

Definition ensure_all_daily_tables_loaded (dsuffix tprefix : string) : M unit :=
  self <- get_self ;;
  let ds := (dataset self ++ "_" ++ dsuffix)%string in
  tabs <- get_tables ds ;;
  s <- lift (d2dt (start_date self)) ;;
  e <- lift (d2dt (end_date self)) ;;
  dates <- lift (daterange s e) ;;
  ensure_loop ds tprefix tabs dates.

Definition ensure_all_daily_tracking_logs_loaded : M unit :=
  ensure_all_daily_tables_loaded "logs" "tracklog".

Definition ensure_all_pc_day_tables_loaded : M unit :=
  ensure_all_daily_tables_loaded "pcday" "pcday".


(* ------------------------------------------------------------------ *)
(** ** Enriching one record *)

(** [pcent[f]] *)
Definition rec_index (f : string) : Comp record pyval :=
  fun r =>
    match rget f r with
    | Some v => (inr v, r)
    | None => (inl (KeyError f), r)
    end.

(** [pcent[f] = v] *)
Definition rec_set (f : string) (v : pyval) : Comp record unit := modify (rset f v).

Fixpoint for_each {S A} (l : list A) (body : A -> Comp S unit) : Comp S unit :=
  match l with
  | [] => ret tt
  | a :: rest => body a ;;; for_each rest body
  end.

(** The [field] argument of [copy_from_bq_table]: a name, or a two-element
    list of a name and the name to store it under. *)
Inductive field_arg : Type :=
| Plain (field : string)
| Renamed (field new_field : string).

Definition is_none (v : pyval) : bool :=
  match v with PNone => true | _ => false end.

(** [src['data_by_key'].get(username, {}).get(field, None)] *)
Definition bq_datum (src : table) (username : pyval) (field : string) : pyval :=
  match tget username src with
  | Some row =>
      match rget field row with
      | Some v => v
      | None => PNone
      end
  | None => PNone
  end.

Definition copy_from_bq_table (src : table) (username : pyval) (field : field_arg)
  (new_field : option string) (mkutf : bool) : Comp record unit :=
  let '(field, new_field) :=
    match field with
    | Renamed f nf => (f, Some nf)
    | Plain f => (f, new_field)
    end in
  let datum := bq_datum src username field in
  if is_none datum then ret tt
  else
    match new_field with
    | Some nf => rec_set nf datum
    | None => rec_set field datum
    end ;;;
    if mkutf
    then
      v <- rec_index field ;;
      v' <- lift (py_encode_utf8 v) ;;
      rec_set field v'
    else ret tt.

Definition forum_fields : list field_arg :=
  [ Renamed "nforum" "nforum_posts";
    Renamed "nvotes" "nforum_votes";
    Renamed "nendorsed" "nforum_endorsed";
    Renamed "nthread" "nforum_threads";
    Renamed "ncomment" "nforum_comments";
    Renamed "npinned" "nforum_pinned" ].

(** [row[f]] for a row of an aggregate. *)
Definition row_index {S} (f : string) (row : record) : Comp S pyval :=
  match rget f row with
  | Some v => ret v
  | None => raise (KeyError f)
  end.

(** The body of the loop of [compute_second_phase].  The source evaluates
    [int(...['nchapters'])] twice, with the same outcome both times; the
    quotient [nchapters/2] is that of two Python 2 integers. *)
Definition second_phase_body (pc_nchapters pc_forum : table) (nchapters : Z)
  : Comp record unit :=
  v <- rec_index "user_id" ;;
  uid <- lift (py_str v) ;;
  let uid := PStr uid in
  match tget uid pc_nchapters with
  | Some row =>
      rec_set "viewed" (PBool true) ;;;
      nv <- row_index "nchapters" row ;;
      n <- lift (py_int nv) ;;
      rec_set "nchapters" (PInt n) ;;;
      if (n >=? nchapters / 2)%Z
      then rec_set "explored" (PBool true)
      else rec_set "explored" (PBool false)
  | None => rec_set "viewed" (PBool false)
  end ;;;
  for_each forum_fields (fun field => copy_from_bq_table pc_forum uid field None false).

Definition pcd_fields_3 : list field_arg :=
  [ Plain "nevents"; Plain "ndays_act"; Plain "nprogcheck"; Plain "nshow_answer";
    Plain "nvideo"; Plain "nproblem_check";
    Renamed "nforum" "nforum_events"; Plain "ntranscript"; Plain "nseq_goto";
    Renamed "nvideo" "nplay_video";
    Plain "nseek_video"; Plain "npause_video"; Plain "avg_dt"; Plain "sdv_dt";
    Plain "max_dt"; Plain "n_dt"; Plain "sum_dt" ].

Definition pcd_fields_4 : list field_arg :=
  [ Renamed "country" "cc_by_ip"; Plain "latitude"; Plain "longitude" ].

(** The body of the loop of [compute_fourth_phase]. *)
Definition fourth_phase_body (pc_geoip : table) : Comp record unit :=
  username <- rec_index "username" ;;
  for_each pcd_fields_4 (fun pcdf => copy_from_bq_table pc_geoip username pcdf None false) ;;;
  copy_from_bq_table pc_geoip username (Plain "countryLabel") None true ;;;
  copy_from_bq_table pc_geoip username (Plain "city") None true.

(** A computation on the record in hand, and one on the object, inside a
    loop over the record store. *)
Definition on_record {A} (c : Comp record A) : Comp (record * St) A :=
  fun rs => let (res, r') := c (fst rs) in (res, (r', snd rs)).

Definition on_self {A} (c : M A) : Comp (record * St) A :=
  fun rs => let (res, st') := c (snd rs) in (res, (fst rs, st')).

Fixpoint update_nth {A} (i : nat) (a : A) (l : list A) : list A :=
  match l, i with
  | [], _ => []
  | _ :: rest, O => a :: rest
  | x :: rest, S j => x :: update_nth j a rest
  end.

(** [for key, pcent in self.pctab.iteritems(): body], from the entry at
    position [i] on.  [pcent] is the record object the store holds, so what
    the body did to it shows in the store, also when the body raises half
    way: the record is put back at its position.  The body is given the
    position, for the loop that counts its rounds. *)
Fixpoint for_pctab (body : nat -> Comp (record * St) unit) (i : nat) (todo : table)
  : M unit :=
  fun st =>
    match todo with
    | [] => (inr tt, st)
    | (key, pcent) :: rest =>
        let '(res, (pcent', st')) := body i (pcent, st) in
        let st'' := (set_pctab (update_nth i (key, pcent') (pctab (fst st'))) (fst st'),
                     snd st') in
        match res with
        | inl e => (inl e, st'')
        | inr _ => for_pctab body (S i) rest st''
        end
    end.

Definition for_each_pcent (body : nat -> Comp (record * St) unit) : M unit :=
  self <- get_self ;;
  for_pctab body 0 (pctab self).

(* ------------------------------------------------------------------ *)
(** ** The phases, the publisher and the entry points *)

Section Pipeline.

(** What the pipeline takes from outside this file.
    - [utc_time_string le] is
      [str(datetime.datetime.utcfromtimestamp(float(le)))], [None] when
      that raises (it goes through floating point).
    - [utf8_decodable s] tells whether [json.dumps] can decode the byte
      string [s].
    - [check_schema] (of [check_schema_tracking_log]) is called with
      [coerce=True] and changes the record in place.
    - [find_course_sql_dir], [gs_path_from_course_id] and
      [course_id2dataset] belong to [load_course_sql], [gsutil] and
      [bqutil]. *)
Variable utc_time_string : pyval -> option string.
Variable utf8_decodable : string -> bool.
Variable check_schema : Z -> schema -> Comp record unit.
Variable find_course_sql_dir : string -> option string -> option string -> string.
Variable gs_path_from_course_id : string -> string -> string.
Variable course_id2dataset : string -> string.

Definition compute_second_phase : M unit :=
  log (LogText (str_repeat "-" 20)) ;;;
  log (LogText "Computing second phase based on SQL table queries done in BigQuery") ;;;
  load_nchapters ;;;
  load_pc_forum ;;;
  nchapters <- get_nchapters_from_course_structure ;;
  pc_nchapters <- getattr "pc_nchapters" ;;
  pc_forum <- getattr "pc_forum" ;;
  for_each_pcent (fun _ => on_record (second_phase_body pc_nchapters pc_forum nchapters)).

(** The body of the loop of [compute_third_phase]. *)
Definition third_phase_body (pc_last_event pc_modal_ip pc_day_totals : table)
  : Comp (record * St) unit :=
  username <- on_record (rec_index "username") ;;
  let le := bq_datum pc_last_event username "last_event" in
  (if negb (is_none le) && py_truthy le
   then
     le' <- match utc_time_string le with
            | Some s => ret (PStr s)
            | None => on_self (log (LogBadLastEvent le username)) ;;; ret le
            end ;;
     on_record (rec_set "last_event" le')
   else ret tt) ;;;
  on_record (copy_from_bq_table pc_modal_ip username (Plain "modal_ip") (Some "ip") false) ;;;
  on_record (for_each pcd_fields_3
               (fun pcdf => copy_from_bq_table pc_day_totals username pcdf None false)).

Definition compute_third_phase : M unit :=
  log (LogText (str_repeat "-" 20)) ;;;
  log (LogText "Computing third phase based on tracking log table queries done in BigQuery") ;;;
  load_last_event ;;;
  load_pc_day_totals ;;;
  load_modal_ip ;;;
  pc_last_event <- getattr "pc_last_event" ;;
  pc_modal_ip <- getattr "pc_modal_ip" ;;
  pc_day_totals <- getattr "pc_day_totals" ;;
  for_each_pcent (fun _ => third_phase_body pc_last_event pc_modal_ip pc_day_totals).

Definition compute_fourth_phase : M unit :=
  log (LogText (str_repeat "-" 20)) ;;;
  log (LogText "Computing fourth phase based on modal_ip and geoip join in BigQuery") ;;;
  load_pc_geoip ;;;
  pc_geoip <- getattr "pc_geoip" ;;
  for_each_pcent (fun _ => on_record (fourth_phase_body pc_geoip)).

(** [json.dumps(pcent)]: the line written is the record, field by field;
    a byte string in it has to decode as UTF-8. *)
Definition json_dumps (pcent : record) : exn + record :=
  if forallb (fun ent => match snd ent with
                         | PStr s => utf8_decodable s
                         | _ => true
                         end) pcent
  then inr pcent
  else inl UnicodeDecodeError.

(** A cell of a delimited row: nothing for [None], [str(v)] otherwise. *)
Definition csv_cell (v : option pyval) : exn + string :=
  match v with
  | None | Some PNone => inr ""
  | Some v => py_str v
  end.

Fixpoint csv_cells (fieldnames : list string) (rowdict : record) : exn + list string :=
  match fieldnames with
  | [] => inr []
  | f :: rest =>
      match csv_cell (rget f rowdict) with
      | inl e => inl e
      | inr c =>
          match csv_cells rest rowdict with
          | inl e => inl e
          | inr cs => inr (c :: cs)
          end
      end
  end.

(** [csv.DictWriter.writerow] of a writer made with [fieldnames] alone:
    [extrasaction] is ['raise'] and [restval] is the empty string. *)
Definition dictwriter_row (fieldnames : list string) (rowdict : record)
  : exn + list string :=
  if forallb (fun ent => str_in (fst ent) fieldnames) rowdict
  then csv_cells fieldnames rowdict
  else inl (ValueError "dict contains fields not in fieldnames").

Definition append_json_line (fn : string) (line : record) : M unit :=
  f <- openfile fn ;;
  match f with
  | JsonLinesFile ls => write_file fn (JsonLinesFile (ls ++ [Some line]))
  | _ => raise (IOError fn)
  end.

Definition append_csv_row (fn : string) (row : list string) : M unit :=
  f <- openfile fn ;;
  match f with
  | CsvFile rows => write_file fn (CsvFile (rows ++ [row]))
  | _ => raise (IOError fn)
  end.

(** The body of the first loop of [output_table]; [cnt] is one more than
    the position of the record. *)
Definition output_json_body (ofnj : string) (ds : schema) (i : nat)
  : Comp (record * St) unit :=
  let cnt := (Z.of_nat i + 1)%Z in
  on_record (check_schema cnt ds) ;;;
  pcent <- on_record get_state ;;
  line <- lift (json_dumps pcent) ;;
  on_self (append_json_line ofnj line).

(** The second loop of [output_table]. *)
Fixpoint output_csv_loop (ofn : string) (fieldnames : list string) (todo : table) : M unit :=
  match todo with
  | [] => ret tt
  | (key, pcent) :: rest =>
      match dictwriter_row fieldnames pcent with
      | inl e => log (LogCsvError pcent) ;;; raise e
      | inr row =>
          append_csv_row ofn row ;;;
          output_csv_loop ofn fieldnames rest
      end
  end.

Definition output_table : M unit :=
  self <- get_self ;;
  let fieldnames := map fst (the_dict_schema self) in
  let ofn := "person_course.csv.gz" in
  let ofnj := "person_course.json.gz" in
  write_file ofnj (JsonLinesFile []) ;;;
  write_file ofn (CsvFile []) ;;;
  append_csv_row ofn fieldnames ;;;
  log (LogText ("Writing output to " ++ ofn ++ " and " ++ ofnj)) ;;;
  for_each_pcent (output_json_body ofnj (the_dict_schema self)) ;;;
  self <- get_self ;;
  output_csv_loop ofn fieldnames (pctab self).

(** [upload_to_gs] of [upload_to_bigquery] *)
Definition upload_to_gs (fn : string) : M string :=
  self <- get_self ;;
  let gsfn := (gspath self ++ "/")%string in
  log (LogText ("Uploading to gse using gsutil cp " ++ course_dir self ++ "/" ++ fn
                ++ " " ++ gsfn)) ;;;
  modify_world (add_trace (CallGsutilCp (course_dir self) fn gsfn)) ;;;
  ret (gsfn ++ fn)%string.

Definition upload_to_bigquery : M unit :=
  gsfnp <- upload_to_gs "person_course.json.gz" ;;
  upload_to_gs "person_course.csv.gz" ;;;
  self <- get_self ;;
  let tableid := "person_course" in
  modify_world (add_trace (CallLoadDataToTable (dataset self) tableid gsfnp)) ;;;
  match nchapters self with
  | None => raise (AttributeError "nchapters")
  | Some n =>
      let description :=
        logmsg self ++
        [ LogText ("Person course for " ++ course_id self ++ " with nchapters=" ++ str_of_Z n
                   ++ ", start=" ++ start_date self ++ ", end=" ++ end_date self);
          LogText ("course SQL directory = " ++ course_dir self);
          LogStarted (str_repeat "=" 100 ++ "Done at") ] in
      modify_world (add_trace (CallAddDescription (dataset self) tableid description))
  end.

(** [load_csv] reads the global name [openfile], which the module does not
    define, before it looks at any row. *)
Definition load_csv (fn key : string) : M table := raise (NameError "openfile").

Definition make_all : M unit :=
  compute_first_phase ;;;
  compute_second_phase ;;;
  compute_third_phase ;;;
  compute_fourth_phase ;;;
  output_table ;;;
  upload_to_bigquery.

Definition redo_second_phase : M unit :=
  log (LogText "PersonCourse just re-doing second phase") ;;;
  reload_table ;;;
  compute_second_phase ;;;
  output_table ;;;
  upload_to_bigquery.

(** Runs a method on an object, in a world. *)
Definition with_self {A} (self : Self) (c : M A) : Comp World (A * Self) :=
  fun w =>
    match c (self, w) with
    | (inl e, (_, w')) => (inl e, w')
    | (inr a, (self', w')) => (inr (a, self'), w')
    end.

Definition print (l : out_line) : Comp World unit := modify (add_stdout l).

(** [PersonCourse.__init__], with the arguments [make_person_course] gives
    it.  The schema document is held as the dictionary [schema2dict] makes
    of its [person_course] section. *)
Definition PersonCourse_init (course_id : string)
  (course_dir_root course_dir_date : option string) (gsbucket : string)
  (force_recompute_from_logs : bool) (start_date end_date : string)
  : Comp World Self :=
  let course_dir := find_course_sql_dir course_id course_dir_root course_dir_date in
  w <- get_state ;;
  if negb (str_in course_dir (directories w))
  then
    print (Printed ("Oops: missing directory " ++ course_dir ++ "!")) ;;;
    raise (SystemExit (-1))
  else
    let dataset := course_id2dataset course_id in
    let self := mkSelf course_id course_dir true force_recompute_from_logs
                  (gs_path_from_course_id course_id gsbucket) dataset
                  end_date start_date [] [] [] None None None [] in
    r <- with_self self
           (log (LogText ("dataset=" ++ dataset)) ;;;
            w <- get_world ;;
            match schema_file w with
            | inl e =>
                modify_world (add_stdout
                  (Printed "Oops!  Failed to load schema file for person course.")) ;;;
                raise e
            | inr the_schema =>
                modify_self (set_the_dict_schema the_schema) ;;;
                log (LogText (str_repeat "=" 100)) ;;;
                log (LogStarted ("Person Course initialized, course_dir=" ++ course_dir
                                 ++ ", dataset=" ++ dataset)) ;;;
                log (LogText (str_repeat "=" 100))
            end) ;;
    ret (snd r).

Fixpoint is_prefix (p s : string) : bool :=
  match p, s with
  | EmptyString, _ => true
  | String a p', String b s' => Ascii.eqb a b && is_prefix p' s'
  | _, _ => false
  end.

(** [p in s] for two strings. *)
Fixpoint is_substring (p s : string) : bool :=
  is_prefix p s ||
  match s with
  | EmptyString => false
  | String _ s' => is_substring p s'
  end.

Definition default_start : string := "2012-09-05".
Definition default_end : string := "2013-09-21".

(** [make_person_course].  [start] and [end] are keyword parameters with
    defaults; [None] stands for a call that leaves the parameter out.  The
    source returns nothing; the object is returned here so that a statement
    can speak of the object the pipeline ran on. *)
Definition make_person_course (course_id : string) (basedir datedir : option string)
  (options : string) (gsbucket : string) (start end_ : option string)
  (force_recompute : bool) : Comp World Self :=
  let start := match start with Some s => s | None => default_start end in
  let end_ := match end_ with Some s => s | None => default_end end in
  print (Printed (str_repeat "-" 77)) ;;;
  print (PrintedStarted ("Processing person course for " ++ course_id)) ;;;
  let force_recompute := force_recompute || is_substring "force_recompute" options in
  (if force_recompute
   then print (Printed "--> Note: Forcing re-querying of person_day results from tracking logs!!! Can be $$$ expensive!!!")
   else ret tt) ;;;
  pc <- PersonCourse_init course_id basedir datedir gsbucket force_recompute start end_ ;;
  let redo2 := is_substring "redo2" options in
  r <- with_self pc (if redo2 then redo_second_phase else make_all) ;;
  print (PrintedStarted ("Done processing person course for " ++ course_id)) ;;;
  print (Printed (str_repeat "-" 77)) ;;;
  ret (snd r).

(** The command line options read by the [person_course] command, and the
    settings of [edx2bigquery_config]. *)
Record Args : Type := mkArgs {
  command : string;
  course_base_dir : option string;
  course_date_dir : option string;
  arg_start_date : option string;
  arg_end_date : option string;
  year2 : bool;
  force_recompute : bool;
  courses : list string
}.

Record Config : Type := mkConfig {
  GS_BUCKET : string;
  COURSE_SQL_BASE_DIR : option string;
  COURSE_SQL_DATE_DIR : option string;
  course_id_list : list string
}.

Definition get_course_ids (cfg : Config) (args : Args) : list string :=
  if year2 args then course_id_list cfg else courses args.

(** [a or b] for an option that is a string or [None]. *)
Definition opt_truthy (a : option string) : bool :=
  match a with
  | Some s => negb (String.eqb s "")
  | None => false
  end.

Definition or_default (a : option string) (d : string) : string :=
  match a with
  | Some s => if opt_truthy a then s else d
  | None => d
  end.

Definition or_else (a b : option string) : option string :=
  if opt_truthy a then a else b.

(** The call that the [person_course] branch of [CommandLine] makes for one
    course. *)
Definition person_course_call (cfg : Config) (args : Args) (course_id : string)
  : Comp World Self :=
  make_person_course course_id
    (or_else (course_base_dir args) (COURSE_SQL_BASE_DIR cfg))
    (or_else (course_date_dir args) (COURSE_SQL_DATE_DIR cfg))
    ""
    (GS_BUCKET cfg)
    (Some (or_default (arg_start_date args) "2012-09-05"))
    (Some (or_default (arg_end_date args) "2014-09-21"))
    (force_recompute args).

(** The loop of the branch; [SystemExit] is not an [Exception], so it is
    not caught. *)
Fixpoint person_course_loop (cfg : Config) (args : Args) (ids : list string)
  : Comp World unit :=
  match ids with
  | [] => ret tt
  | course_id :: rest =>
      fun w =>
        match person_course_call cfg args course_id w with
        | (inl (SystemExit c), w') => (inl (SystemExit c), w')
        | (inl err, w') => (inl err, add_stdout (PrintedError err) w')
        | (inr _, w') => person_course_loop cfg args rest w'
        end
  end.

Definition person_course_command (cfg : Config) (args : Args) : Comp World unit :=
  person_course_loop cfg args (get_course_ids cfg args).

End Pipeline.

(* ------------------------------------------------------------------ *)
(** ** The select list of [pc_day_totals] *)






(* ------------------------------------------------------------------ *)
(** ** Readings of the loops used in the statements *)

(** A loop over the record store whose body only works on the record in
    hand, read as a function on the list of entries: the entries after
    the loop, and how it ended. *)
Fixpoint run_records (b : Comp record unit) (todo : table) : (exn + unit) * table :=
  match todo with
  | [] => (inr tt, [])
  | (key, pcent) :: rest =>
      match b pcent with
      | (inl e, pcent') => (inl e, (key, pcent') :: rest)
      | (inr _, pcent') =>
          let (res, rest') := run_records b rest in
          (res, (key, pcent') :: rest')
      end
  end.

(** The statements of [compute_second_phase] that come before its loop:
    they yield the two aggregates and the chapter count. *)
Definition second_phase_inputs : M (table * table * Z) :=
  log (LogText (str_repeat "-" 20)) ;;;
  log (LogText "Computing second phase based on SQL table queries done in BigQuery") ;;;
  load_nchapters ;;;
  load_pc_forum ;;;
  nchapters <- get_nchapters_from_course_structure ;;
  pc_nchapters <- getattr "pc_nchapters" ;;
  pc_forum <- getattr "pc_forum" ;;
  ret (pc_nchapters, pc_forum, nchapters).

(** No two keys of a table are equal. *)
Fixpoint distinct_keys (t : table) : Prop :=
  match t with
  | [] => True
  | (k, _) :: rest => tget k rest = None /\ distinct_keys rest
  end.

(** What [load_json] keeps of the rows of a source, and what it prints
    for the others; [cnt] is the number of rows read before. *)
Fixpoint keyed_rows (key : string) (rows : list record) (data : table) : table :=
  match rows with
  | [] => data
  | jd :: rest =>
      match rget key jd with
      | Some the_id => keyed_rows key rest (tset the_id jd data)
      | None => keyed_rows key rest data
      end
  end.

Fixpoint missing_key_lines (fn key : string) (rows : list record) (cnt : Z) : list out_line :=
  match rows with
  | [] => []
  | jd :: rest =>
      match rget key jd with
      | Some _ => missing_key_lines fn key rest (cnt + 1)
      | None => PrintedMissingKey key fn (cnt + 1) jd :: missing_key_lines fn key rest (cnt + 1)
      end
  end.

(** The record store after the first loop of [output_table] has run
    [check_schema] on the records from position [i] on. *)
Fixpoint coerce_from (check_schema : Z -> schema -> Comp record unit) (ds : schema)
  (i : nat) (todo : table) : table :=
  match todo with
  | [] => []
  | (key, pcent) :: rest =>
      (key, snd (check_schema (Z.of_nat i + 1)%Z ds pcent))
      :: coerce_from check_schema ds (S i) rest
  end.

(** While [output_table] runs: the directory of the course, the record
    store, the lines of the structured file and the rows of the flattened
    file. *)
Definition out_state (dir : string) (tab : table) (jl : list (option record))
  (rows : list (list string)) (st : St) : Prop :=
  course_dir (fst st) = dir /\
  pctab (fst st) = tab /\
  od_get path_eqb (dir, "person_course.json.gz") (files (snd st)) = Some (JsonLinesFile jl) /\
  od_get path_eqb (dir, "person_course.csv.gz") (files (snd st)) = Some (CsvFile rows).

(** What publishing comes to for a store whose record at position [i]
    has the field [f], with value [v], outside the schema [ds]; [res] is
    the outcome of [output_table], [dir] the course directory and [n] the
    number of records.  The publisher raises.  The structured file has one
    line per record, and line [i] has [f] with value [v].  The flattened
    file starts with the field names of the schema, its other rows have one
    cell per field name, and there are at most [i] of them: none for the
    record at position [i]. *)
Definition undeclared_field_outcome (res : (exn + unit) * St) (dir : string) (ds : schema)
  (n i : nat) (f : string) (v : pyval) : Prop :=
  (exists e, fst res = inl e) /\
  (exists lines line,
      od_get path_eqb (dir, "person_course.json.gz") (files (snd (snd res)))
      = Some (JsonLinesFile lines) /\
      List.length lines = n /\
      nth_error lines i = Some (Some line) /\
      rget f line = Some v) /\
  (exists rows,
      od_get path_eqb (dir, "person_course.csv.gz") (files (snd (snd res)))
      = Some (CsvFile (map fst ds :: rows)) /\
      Forall (fun row => List.length row = List.length ds) rows /\
      (List.length rows <= i)%nat).

(** The ids of the tables of a dataset. *)
Definition table_ids (ds : string) (w : World) : list string :=
  match od_get String.eqb ds (bq_datasets w) with
  | Some tabs => map fst tabs
  | None => []
  end.

(** The message of the exception of the check of the daily tables. *)
Definition missing_table_message (ds tname : string) : string :=
  "Oops, missing needed table " ++ tname ++ " from database " ++ ds.

(** The [n] days from day [k] on. *)
Fixpoint days_from (k : Z) (n : nat) : list Z :=
  match n with
  | O => []
  | S m => k :: days_from (k + 1)%Z m
  end.

(** The first thing a computation asks of the remote engine. *)
Definition first_call (c : M unit) (st : St) : option bq_op :=
  nth_error (bq_trace (snd (snd (c st)))) (List.length (bq_trace (snd st))).


Definition is_get_tables (op : bq_op) : bool :=
  match op with CallGetTables _ => true | _ => false end.


(* ------------------------------------------------------------------ *)
(** ** Relations between states and outcomes used in the statements *)

(** A key is the same for a table when its normal form is. *)
Definition key_norm (v : pyval) : pyval :=
  match v with
  | PBool b => PInt (if b then 1 else 0)
  | PStr s => if is_ascii s then PUni s else PStr s
  | _ => v
  end.

(** [steps R c]: running [c] takes a state to one related to it by [R],
    whether [c] returns or raises. *)
Definition steps {A} (R : St -> St -> Prop) (c : M A) : Prop :=
  forall st, R st (snd (c st)).

(** The record store is the same. *)
Definition same_pctab (st st' : St) : Prop := pctab (fst st') = pctab (fst st).

(** The remote engine was asked nothing but loads: no listing of the tables
    of a dataset. *)
Definition no_table_listing (st st' : St) : Prop :=
  exists new,
    bq_trace (snd st') = bq_trace (snd st) ++ new /\
    forallb (fun op => negb (is_get_tables op)) new = true.

(** The keys of the record store are the same, in the same order. *)
Definition same_keys (st st' : St) : Prop :=
  od_keys (pctab (fst st')) = od_keys (pctab (fst st)).

(** [body_steps R c]: the body of a loop takes the state of the object and
    the world to one related to it by [R]. *)
Definition body_steps {A} (R : St -> St -> Prop) (c : Comp (record * St) A) : Prop :=
  forall rs, R (snd rs) (snd (snd (c rs))).

(** The name a field of an aggregate is stored under. *)
Definition stored_name (fa : field_arg) : string :=
  match fa with
  | Plain f => f
  | Renamed _ nf => nf
  end.

(** What the second phase makes of one record, given the aggregate of
    viewed chapters and the number of chapters of the course. *)
Definition second_phase_record_outcome (agg : table) (total : Z) (old new : record) : Prop :=
  exists v uid,
    rget "user_id" old = Some v /\ py_str v = inr uid /\
    match tget (PStr uid) agg with
    | Some row =>
        exists cnt k,
          rget "nchapters" row = Some cnt /\ py_int cnt = inr k /\
          rget "viewed" new = Some (PBool true) /\
          rget "nchapters" new = Some (PInt k) /\
          rget "explored" new = Some (PBool (k >=? total / 2)%Z)
    | None =>
        rget "viewed" new = Some (PBool false) /\
        rget "explored" new = rget "explored" old
    end.

(** What the second phase makes of the record store. *)
Definition second_phase_outcome (st st' : St) : Prop :=
  exists agg total,
    od_get String.eqb "pc_nchapters" (attrs (fst st')) = Some agg /\
    nchapters (fst st') = Some total /\
    Forall2 (fun old new =>
               fst new = fst old /\
               second_phase_record_outcome agg total (snd old) (snd new))
      (pctab (fst st)) (pctab (fst st')).

(** The source of a copied field is absent from a row. *)
Definition source_absent (src : record) (fs : field_source) : Prop :=
  match fs with
  | OneOf l => first_present src l = None
  | Field f => rget f src = None
  end.


Definition add_stdout_lines (ls : list out_line) (w : World) : World :=
  fold_left (fun w l => add_stdout l w) ls w.

(** The date bounds of the object are the same. *)
Definition same_dates (st st' : St) : Prop :=
  start_date (fst st') = start_date (fst st) /\ end_date (fst st') = end_date (fst st).

(* ------------------------------------------------------------------ *)
(** ** Sample inputs *)

Definition ex_alice : record :=
  [ ("username", PUni "alice"); ("user_id", PInt 1);
    ("certificate_status", PUni "downloadable");
    ("certificate_course_id", PUni "X") ].

Definition ex_bob : record :=
  [ ("username", PUni "bob"); ("enrollment_mode", PUni "honor") ].

Definition ex_nameless : record := [ ("user_id", PInt 3) ].

Definition ex_schema : schema :=
  [ ("course_id", ("STRING", "NULLABLE"));
    ("user_id", ("INTEGER", "NULLABLE"));
    ("username", ("STRING", "NULLABLE"));
    ("registered", ("BOOLEAN", "NULLABLE"));
    ("viewed", ("BOOLEAN", "NULLABLE"));
    ("explored", ("BOOLEAN", "NULLABLE"));
    ("certified", ("BOOLEAN", "NULLABLE"));
    ("nchapters", ("INTEGER", "NULLABLE")) ].

Definition ex_engine (sql : Sql) : exn + table :=
  match sql with
  | SqlNChapters _ =>
      inr [ (PUni "1", [("user_id", PUni "1"); ("nchapters", PUni "6")]) ]
  | SqlForum _ =>
      inr [ (PUni "1", [("user_id", PUni "1"); ("nforum", PUni "3")]) ]
  | SqlLastEvent _ _ _ =>
      inr [ (PUni "alice", [("username", PUni "alice"); ("last_event", PUni "1.35E9")]) ]
  | SqlModalIp _ _ _ =>
      inr [ (PUni "alice", [("username", PUni "alice"); ("modal_ip", PUni "18.0.0.1")]) ]
  | _ => inr []
  end.

Definition ex_structure : list (string * record) :=
  map (fun n => (n, [("category", PUni "chapter")]))
    ["c0"; "c1"; "c2"; "c3"; "c4"; "c5"; "c6"; "c7"; "c8"; "c9"]
  ++ [ ("v0", [("category", PUni "video")]) ].

(** A course directory with three rows of user_info_combo (the last one has
    no username), a remote dataset where the daily log table of
    2012-09-06 is missing, and no aggregate table yet. *)
Definition ex_world : World :=
  mkWorld
    [ ("ds", []);
      ("ds_logs", [("tracklog_20120905", []); ("tracklog_20120907", [])]) ]
    ex_engine
    []
    ["dir"]
    [ (("dir", "user_info_combo.json.gz"),
       JsonLinesFile [Some ex_alice; Some ex_bob; Some ex_nameless]);
      (("dir", "course_structure.json"), StructureFile ex_structure) ]
    (inr ex_schema)
    [].

Definition ex_self : Self :=
  mkSelf "MITx/6.SFMx/1T2014" "dir" true false "gs://x-data/6.SFMx" "ds"
    "2012-09-07" "2012-09-05" ex_schema [] [] None None None [].

Definition ex_st : St := (ex_self, ex_world).

(** The same object after its first phase. *)
Definition ex_st1 : St := snd (compute_first_phase ex_st).

(** A store with one record that has a user_id. *)
Definition ex_st_alice : St :=
  (set_pctab [(PUni "alice", first_phase_record ex_alice)] ex_self, ex_world).

(** A world where [pc_nchapters] and [pc_forum] are materialized, and an
    object that was told to recompute. *)
Definition ex_world_stored : World :=
  set_bq [ ("ds", [ ("pc_nchapters", [(PUni "9", [("nchapters", PUni "1")])]);
                    ("pc_forum", [(PUni "9", [("nforum", PUni "1")])]) ]) ] ex_world.

Definition ex_self_force : Self :=
  mkSelf "MITx/6.SFMx/1T2014" "dir" true true "gs://x-data/6.SFMx" "ds"
    "2012-09-07" "2012-09-05" ex_schema [] [] None None None [].

Definition ex_utc (le : pyval) : option string := Some "2012-10-11 21:20:00".
Definition ex_utf8 (s : string) : bool := true.

(** Modelled from the spec: [check_schema] of [check_schema_tracking_log],
    which is not among the sources, in its least form: it returns on every
    record and changes nothing, so that "fields present in record but NOT
    declared in schema are passed through unchanged". *)
Definition ex_check_schema (cnt : Z) (ds : schema) : Comp record unit := ret tt.

Definition ex_find_dir (c : string) (root date : option string) : string := "dir".
Definition ex_gs_path (c bucket : string) : string := (bucket ++ "/6.SFMx")%string.
Definition ex_dataset (c : string) : string := "ds".

Definition ex_args : Args :=
  mkArgs "person_course" None None None None false false ["MITx/6.SFMx/1T2014"].

Definition ex_config : Config := mkConfig "gs://x-data" None None [].


(** A course directory whose one row is complete, and a remote engine
    whose aggregates are all empty: the whole pipeline runs on it. *)
Definition ex_world_plain : World :=
  mkWorld
    [ ("ds", []) ]
    (fun _ => inr [])
    []
    ["dir"]
    [ (("dir", "user_info_combo.json.gz"), JsonLinesFile [Some ex_alice]);
      (("dir", "course_structure.json"), StructureFile ex_structure) ]
    (inr ex_schema)
    [].

(** A store with one record that has a field the schema does not declare. *)
Definition ex_st_extra : St :=
  (set_pctab [ (PUni "alice", [("username", PUni "alice"); ("zip", PUni "02139")]) ] ex_self,
   ex_world).

(* ------------------------------------------------------------------ *)
(** ** The other entry points of the module *)

Section EntryPoints.

Variable utc_time_string : pyval -> option string.
Variable utf8_decodable : string -> bool.
Variable check_schema : Z -> schema -> Comp record unit.
Variable find_course_sql_dir : string -> option string -> option string -> string.
Variable gs_path_from_course_id : string -> string -> string.
Variable course_id2dataset : string -> string.

(** [make_pc3(course_id, cdir)].  [cdir] is bound to the parameter
    [course_dir] of [__init__], which [__init__] never reads; the other
    parameters take their defaults. *)
Definition make_pc3 (course_id cdir : string) : Comp World Self :=
  pc <- PersonCourse_init find_course_sql_dir gs_path_from_course_id course_id2dataset
          course_id (Some "") (Some "") "gs://x-data" false "2012-01-01" "2014-09-21" ;;
  r <- with_self pc
         (reload_table ;;;
          compute_third_phase utc_time_string ;;;
          output_table utf8_decodable check_schema ;;;
          upload_to_bigquery) ;;
  ret (snd r).

(** [load_cwsm] calls the global name [load_csv], which the module does not
    define ([load_csv] is a method). *)
Definition load_cwsm : M unit := raise (NameError "load_csv").

End EntryPoints.

(* ------------------------------------------------------------------ *)
(** ** The commands of [main.py] that drive the other modules *)

(** A call to a function of a module that is not part of this development,
    with the arguments the command line gives it: [process_file] of
    [make_user_info_combo], [load_sql_for_course] of [load_course_sql]
    (always with [do_gs_copy=True]), [rephrase_forum_json_for_course] of
    [rephrase_forum_data], [do_file] of [split_and_rephrase], [process_dir]
    of [transfer_logs_to_gs], [load_all_daily_logs_for_course] of
    [load_daily_tracking_logs] and [process_course] of
    [make_person_course_day]. *)
Inductive call : Type :=
| ProcessFile (course_id : string) (basedir datedir : option string)
| LoadSqlForCourse (course_id gsbucket : string) (basedir datedir : option string)
| RephraseForumJsonForCourse (course_id gsbucket : string) (basedir datedir : option string)
| DoFile (tlfn logs_dir : string)
| ProcessDir (course_id gsbucket logs_dir : string) (verbose : bool)
| LoadAllDailyLogsForCourse (course_id gsbucket : string) (verbose : bool)
| ProcessCourse (course_id : string) (force_recompute : bool).

(** What these commands leave behind: the calls made, in order, and the
    lines printed. *)
Record Shell : Type := mkShell {
  calls : list call;
  shell_stdout : list out_line
}.

(** The options read by the tracking log commands. *)
Record LogArgs : Type := mkLogArgs {
  tlfn : option string;
  logs_dir : option string
}.

(** The [steps] argument of [daily_logs]: the command, or a list of
    commands. *)
Inductive steps_arg : Type :=
| StepsStr (s : string)
| StepsList (l : list string).

(** [x in steps]: a substring test on a string, membership in a list. *)
Definition in_steps (x : string) (steps : steps_arg) : bool :=
  match steps with
  | StepsStr s => is_substring x s
  | StepsList l => str_in x l
  end.

Section Commands.

(** [outcome before c] is the exception that the call [c] raises when the
    calls [before] were made before it, [None] when it returns. *)
Variable outcome : list call -> call -> option exn.

Variable cfg : Config.
(** [edx2bigquery_config.TRACKING_LOGS_DIRECTORY], when the configuration
    has it. *)
Variable TRACKING_LOGS_DIRECTORY : option string.
Variable args : Args.
Variable largs : LogArgs.

Definition do_call (c : call) : Comp Shell unit :=
  fun sh =>
    (match outcome (calls sh) c with
     | Some e => inl e
     | None => inr tt
     end,
     mkShell (calls sh ++ [c]) (shell_stdout sh)).

Definition shell_print (l : out_line) : Comp Shell unit :=
  modify (fun sh => mkShell (calls sh) (shell_stdout sh ++ [l])).

(** [try: body] followed by [except Exception as err: print err].
    [SystemExit] is not an [Exception]. *)
Definition try_print (body : Comp Shell unit) : Comp Shell unit :=
  fun sh =>
    match body sh with
    | (inl (SystemExit c), sh') => (inl (SystemExit c), sh')
    | (inl err, sh') => shell_print (PrintedError err) sh'
    | (inr _, sh') => (inr tt, sh')
    end.

Definition basedir_arg : option string :=
  or_else (course_base_dir args) (COURSE_SQL_BASE_DIR cfg).

Definition datedir_arg : option string :=
  or_else (course_date_dir args) (COURSE_SQL_DATE_DIR cfg).

(** [setup_sql] for one course.  The loop of the last step rebinds
    [course_id] and goes through all the courses of the command. *)
Definition setup_sql_course (steps : string) (course_id : string) : Comp Shell unit :=
  let doall := String.eqb steps "setup_sql" in
  (if doall || is_substring "make_uic" steps
   then do_call (ProcessFile course_id basedir_arg datedir_arg)
   else ret tt) ;;;
  (if doall || is_substring "sql2bq" steps
   then try_print (do_call (LoadSqlForCourse course_id (GS_BUCKET cfg) basedir_arg datedir_arg))
   else ret tt) ;;;
  (if doall || is_substring "load_forum" steps
   then for_each (get_course_ids cfg args)
          (fun course_id =>
             try_print (do_call (RephraseForumJsonForCourse course_id (GS_BUCKET cfg)
                                   basedir_arg datedir_arg)))
   else ret tt).

(** [setup_sql(args, steps, course_id)]; without a course it calls itself
    for each course of the command. *)
Definition setup_sql (steps : string) (course_id : option string) : Comp Shell unit :=
  match course_id with
  | None => for_each (get_course_ids cfg args) (setup_sql_course steps)
  | Some c => setup_sql_course steps c
  end.

(** [args.logs_dir or edx2bigquery_config.TRACKING_LOGS_DIRECTORY] *)
Definition logs_dir_arg : Comp Shell string :=
  if opt_truthy (logs_dir largs)
  then match logs_dir largs with Some d => ret d | None => ret "" end
  else match TRACKING_LOGS_DIRECTORY with
       | Some d => ret d
       | None => raise (AttributeError "TRACKING_LOGS_DIRECTORY")
       end.

(** The part of [daily_logs] that works on one [course_id], which for the
    step [split] is the name of a tracking log file. *)
Definition daily_logs_course (steps : steps_arg) (course_id : string) (verbose : bool)
  : Comp Shell unit :=
  (if in_steps "split" steps
   then d <- logs_dir_arg ;; do_call (DoFile course_id d)
   else ret tt) ;;;
  (if in_steps "logs2gs" steps
   then try_print (d <- logs_dir_arg ;;
                   do_call (ProcessDir course_id (GS_BUCKET cfg) d verbose))
   else ret tt) ;;;
  (if in_steps "logs2bq" steps
   then try_print (do_call (LoadAllDailyLogsForCourse course_id (GS_BUCKET cfg) verbose))
   else ret tt).

(** [daily_logs] for steps other than [daily_logs]: without a course it
    calls itself for each course of the command, with [verbose] at its
    default. *)
Definition daily_logs_steps (steps : steps_arg) (course_id : option string) (verbose : bool)
  : Comp Shell unit :=
  match course_id with
  | None => for_each (get_course_ids cfg args) (fun c => daily_logs_course steps c true)
  | Some c => daily_logs_course steps c verbose
  end.

Definition is_daily_logs (steps : steps_arg) : bool :=
  match steps with
  | StepsStr s => String.eqb s "daily_logs"
  | StepsList _ => false
  end.

(** [daily_logs(args, steps, course_id, verbose)].  The two calls it makes
    to itself for the command [daily_logs] have other steps. *)
Definition daily_logs (steps : steps_arg) (course_id : option string) (verbose : bool)
  : Comp Shell unit :=
  if is_daily_logs steps
  then
    daily_logs_steps (StepsStr "split") (tlfn largs) true ;;;
    for_each (get_course_ids cfg args)
      (fun c => daily_logs_steps (StepsList ["logs2gs"; "logs2bq"]) (Some c) false)
  else daily_logs_steps steps course_id verbose.

(** The branch of the command [person_day]. *)
Definition person_day_command : Comp Shell unit :=
  for_each (get_course_ids cfg args)
    (fun course_id => try_print (do_call (ProcessCourse course_id (force_recompute args)))).

End Commands.

(** ** Readings of the command runs *)

Definition is_exit (o : option exn) : bool :=
  match o with
  | Some (SystemExit _) => true
  | _ => false
  end.

(** The lines that the calls [cs], each one guarded by a handler that
    prints, leave on standard output when made after [before]. *)
Fixpoint printed_errors (outcome : list call -> call -> option exn) (before : list call)
  (cs : list call) : list out_line :=
  match cs with
  | [] => []
  | c :: rest =>
      match outcome before c with
      | Some e => [PrintedError e]
      | None => []
      end ++ printed_errors outcome (before ++ [c]) rest
  end.

(** Three courses, and other modules of which [load_sql_for_course] fails
    on every course and [process_file] on course B. *)
Definition ex_outcome (before : list call) (c : call) : option exn :=
  match c with
  | LoadSqlForCourse _ _ _ _ => Some (IOError "sql")
  | ProcessFile c _ _ => if String.eqb c "B" then Some (IOError "B") else None
  | ProcessCourse c _ => if String.eqb c "A" then Some (ValueError "A") else None
  | _ => None
  end.

Definition ex_args3 : Args :=
  mkArgs "setup_sql" None None None None false false ["A"; "B"; "C"].

Definition ex_largs : LogArgs := mkLogArgs None None.

(** ** Readings of the local loads *)

(** What an entry of the [fields] argument of [copy_fields] takes from
    [src]: the first candidate that [src] has, or the one field. *)
Definition source_value (src : record) (fs : field_source) : option pyval :=
  match fs with
  | OneOf l => first_present src l
  | Field f => rget f src
  end.

(** The last of [rows] whose [key] field equals [k], if any. *)
Fixpoint last_keyed (key : string) (k : pyval) (rows : list record) : option record :=
  match rows with
  | [] => None
  | jd :: rest =>
      match last_keyed key k rest with
      | Some r => Some r
      | None =>
          match rget key jd with
          | Some the_id => if py_eqb the_id k then Some jd else None
          | None => None
          end
      end
  end.


(** The sample with an empty course directory. *)
Definition ex_st_nofiles : St := (ex_self, set_files [] ex_world).

(** A record whose city and countryLabel, when present, are byte
    strings. *)
Definition text_fields_are_bytes (r : record) : Prop :=
  forall f v, In f ["city"; "countryLabel"] -> rget f r = Some v -> exists s, v = PStr s.

(** An entry of the store that holds a record under its username. *)
Definition reloaded_entry (ent : pyval * record) : Prop :=
  (exists u, rget "username" (snd ent) = Some u /\ py_eqb (fst ent) u = true) /\
  text_fields_are_bytes (snd ent).

(** A line of person_course.json.gz that [reload_table] cannot take: it has
    no username, or a city or countryLabel that has no UTF-8 encoding to
    offer (null, a number, a truth value). *)
Definition unloadable_line (dline : record) : Prop :=
  rget "username" dline = None \/
  exists f v e,
    In f ["city"; "countryLabel"] /\ rget f dline = Some v /\ py_encode_utf8 v = inl e.

Definition is_chapter (ent : string * record) : bool :=
  match rget "category" (snd ent) with
  | Some c => py_eqb c (PStr "chapter")
  | None => false
  end.

(** The sample with a person_course.json.gz of two lines, the second with
    a null city. *)
Definition ex_st_reload : St :=
  (ex_self,
   set_files [ (("dir", "person_course.json.gz"),
                JsonLinesFile [ Some [("username", PUni "alice"); ("city", PUni "Oslo")];
                                Some [("username", PUni "bob"); ("city", PNone)] ]) ]
     ex_world).

(** The same with the city of the second line in place. *)
Definition ex_st_reload_ok : St :=
  (ex_self,
   set_files [ (("dir", "person_course.json.gz"),
                JsonLinesFile [ Some [("username", PUni "alice"); ("city", PUni "Oslo")];
                                Some [("username", PUni "bob"); ("city", PUni "Rome")] ]) ]
     ex_world).

(** ** Readings of the enrichment of a record *)

(** The field of the aggregate that a [field] argument names. *)
Definition source_name (fa : field_arg) : string :=
  match fa with
  | Plain f => f
  | Renamed f _ => f
  end.

(** A field after a copy from an aggregate: the datum, or what the field
    was when the aggregate has no datum. *)
Definition merged (datum : pyval) (old : option pyval) : option pyval :=
  if is_none datum then old else Some datum.

(** The last_event written by the third phase for a datum of the
    aggregate: its time as text, or the datum itself when it cannot be
    converted. *)
Definition last_event_value (utc : pyval -> option string) (le : pyval) : pyval :=
  match utc le with
  | Some s => PStr s
  | None => le
  end.


(** A text field after a copy that encodes: the encoded datum, what the
    field was when the aggregate has no datum, or the exception of the
    encoding. *)
Definition encoded (datum : pyval) (old : option pyval) : exn + option pyval :=
  if is_none datum then inr old
  else match py_encode_utf8 datum with
       | inr v => inr (Some v)
       | inl e => inl e
       end.

(** A geoip aggregate for alice, whose city has a letter outside ASCII
    (u with two dots, U+00FC). *)
Definition ex_geoip : table :=
  [ (PUni "alice",
     [ ("username", PUni "alice"); ("country", PUni "CH");
       ("city", PUni ("Z" ++ String (ascii_of_nat 252) "rich"));
       ("countryLabel", PUni "Switzerland"); ("latitude", PUni "47.37") ]) ].

(** The sample after its first phase, with alice alone in user_info_combo. *)
Definition ex_st_plain1 : St := snd (compute_first_phase (ex_self, ex_world_plain)).

(** ** Relations between the state before and after a method *)

Definition same_nchapters (st st' : St) : Prop := nchapters (fst st') = nchapters (fst st).

(** Nothing was asked of the remote engine, and its datasets are as they
    were. *)
Definition same_remote (st st' : St) : Prop :=
  bq_trace (snd st') = bq_trace (snd st) /\ bq_datasets (snd st') = bq_datasets (snd st).

Definition same_files (st st' : St) : Prop := files (snd st') = files (snd st).

(** The queries whose text ranges over the daily tables of the tracking
    logs ([{dataset}_logs.tracklog_]) or over the daily person-course
    tables made from them ([{dataset}_pcday.pcday_]). *)
Definition sql_reads_logs (sql : Sql) : bool :=
  match sql with
  | SqlDayTotals _ _ _ _ | SqlLastEvent _ _ _ | SqlNEvents _ _ _ | SqlModalIp _ _ _ => true
  | SqlNChapters _ | SqlForum _ | SqlGeoip _ => false
  end.

Definition is_log_query (op : bq_op) : bool :=
  match op with
  | CallGetBqTable _ _ sql _ _ | QuerySubmitted _ _ sql => sql_reads_logs sql
  | _ => false
  end.

(** What was asked of the remote engine in between holds no query over the
    tracking logs. *)
Definition no_log_query (st st' : St) : Prop :=
  exists new,
    bq_trace (snd st') = bq_trace (snd st) ++ new /\
    forallb (fun op => negb (is_log_query op)) new = true.

(** ** Readings of the upload *)

(** The message that [upload_to_gs] logs for a file. *)
Definition upload_message (s : Self) (fn : string) : logent :=
  LogText ("Uploading to gse using gsutil cp " ++ course_dir s ++ "/" ++ fn
           ++ " " ++ (gspath s ++ "/")).

(** The three calls that [upload_to_bigquery] makes before it writes the
    description: the copies of the two files, and the load of the table
    from the copy of the structured file. *)
Definition upload_calls (s : Self) : list bq_op :=
  [ CallGsutilCp (course_dir s) "person_course.json.gz" (gspath s ++ "/");
    CallGsutilCp (course_dir s) "person_course.csv.gz" (gspath s ++ "/");
    CallLoadDataToTable (dataset s) "person_course"
      ((gspath s ++ "/") ++ "person_course.json.gz") ].

(** The sample with a person_course.json.gz of one line. *)
Definition ex_world_reload : World :=
  set_files [ (("dir", "person_course.json.gz"),
               JsonLinesFile [ Some [("username", PUni "alice")] ]) ] ex_world.

(** The settings an object is made with. *)
Definition same_settings (st st' : St) : Prop :=
  course_id (fst st') = course_id (fst st) /\
  course_dir (fst st') = course_dir (fst st) /\
  verbose (fst st') = verbose (fst st) /\
  force_recompute_from_logs (fst st') = force_recompute_from_logs (fst st) /\
  gspath (fst st') = gspath (fst st) /\
  dataset (fst st') = dataset (fst st) /\
  end_date (fst st') = end_date (fst st) /\
  start_date (fst st') = start_date (fst st) /\
  the_dict_schema (fst st') = the_dict_schema (fst st).

(** The sample with a person_course.json.gz of one line and a remote
    engine with no rows. *)
Definition ex_world_pc3 : World :=
  set_files [ (("dir", "person_course.json.gz"),
               JsonLinesFile [ Some [("username", PUni "alice")] ]) ] ex_world_plain.

(** The sample command for two courses. *)
Definition ex_args2 : Args :=
  mkArgs "person_course" None None (Some "2013-01-01") (Some "") false false
    ["MITx/6.SFMx/1T2014"; "MITx/8.01x/2T2014"].

(** A course directory finder that knows the first course only. *)
Definition ex_find_first (c : string) (root date : option string) : string :=
  if String.eqb c "MITx/6.SFMx/1T2014" then "dir" else "nowhere".

(** ** Readings of the check of the daily tables *)

(** The state after the listing of the tables of [ds] was asked for. *)
Definition listed (ds : string) (st : St) : St :=
  (fst st, add_trace (CallGetTables ds) (snd st)).

(** The sample object with its two dates exchanged, and with a start date
    that is not a date. *)
Definition ex_st_inverted : St :=
  (mkSelf "MITx/6.SFMx/1T2014" "dir" true false "gs://x-data/6.SFMx" "ds"
     "2012-09-05" "2012-09-07" ex_schema [] [] None None None [], ex_world).

Definition ex_st_baddate : St :=
  (mkSelf "MITx/6.SFMx/1T2014" "dir" true false "gs://x-data/6.SFMx" "ds"
     "2012-09-07" "2012-02-30" ex_schema [] [] None None None [], ex_world).

(** ** Readings of the dates *)

(** The year, month and day written in a date of the form
    year-month-day. *)
Definition parse_ymd (date : string) : option (Z * Z * Z) :=
  match split_dash date with
  | Some (ys, rest) =>
      match split_dash rest with
      | Some (ms, ds) =>
          match parse_year ys, parse_month ms, parse_day ds with
          | Some y, Some m, Some d => Some (y, m, d)
          | _, _, _ => None
          end
      | None => None
      end
  | None => None
  end.

(** Whether the ordinal of the day [d] of month [m] of year [y] converts
    back to that year, month and day; days past the end of the month are
    passed over. *)
Definition round_trip_ok (y m d : Z) : bool :=
  if (d <=? days_in_month y m)%Z
  then
    let '(y', m', d') := ord2ymd (ymd2ord y m d) in
    ((y' =? y) && (m' =? m) && (d' =? d))%Z
  else true.

Definition month_ok (y m : nat) : bool :=
  forallb (fun d => round_trip_ok (Z.of_nat y) (Z.of_nat m) (Z.of_nat d)) (seq 1 31).

Definition year_ok (y : nat) : bool := forallb (month_ok y) (seq 1 12).

(* ------------------------------------------------------------------ *)
(** * Properties *)

(** ** Dictionaries *)

Section DictFacts.

Context {K V : Type}.
Variable eqb : K -> K -> bool.
Hypothesis eqb_refl : forall k, eqb k k = true.
Hypothesis eqb_sym : forall a b, eqb a b = eqb b a.
Hypothesis eqb_trans : forall a b c, eqb a b = true -> eqb b c = true -> eqb a c = true.

Lemma od_get_set_same (k k' : K) (v : V) (d : list (K * V)) :
  eqb k k' = true -> od_get eqb k' (od_set eqb k v d) = Some v.
Proof.
  intros Hk. induction d as [|[k0 v0] rest IH]; simpl.
  - now rewrite Hk.
  - destruct (eqb k0 k) eqn:E0; simpl.
    + now rewrite (eqb_trans k0 k k' E0 Hk).
    + destruct (eqb k0 k') eqn:E1; [|exact IH].
      rewrite eqb_sym in Hk. rewrite (eqb_trans k0 k' k E1 Hk) in E0. discriminate.
Qed.

Lemma od_get_set_other (k k' : K) (v : V) (d : list (K * V)) :
  eqb k k' = false -> od_get eqb k' (od_set eqb k v d) = od_get eqb k' d.
Proof.
  intros Hk. induction d as [|[k0 v0] rest IH]; simpl.
  - now rewrite Hk.
  - destruct (eqb k0 k) eqn:E0; simpl.
    + destruct (eqb k0 k') eqn:E1; [|reflexivity].
      rewrite eqb_sym in E0. rewrite (eqb_trans k k0 k' E0 E1) in Hk. discriminate.
    + now rewrite IH.
Qed.

Lemma od_get_congr (k k' : K) (d : list (K * V)) :
  eqb k k' = true -> od_get eqb k d = od_get eqb k' d.
Proof.
  intros Hk. induction d as [|[k0 v0] rest IH]; simpl; [reflexivity|].
  destruct (eqb k0 k) eqn:E0.
  - now rewrite (eqb_trans k0 k k' E0 Hk).
  - destruct (eqb k0 k') eqn:E1; [|exact IH].
    rewrite eqb_sym in Hk. rewrite (eqb_trans k0 k' k E1 Hk) in E0. discriminate.
Qed.

End DictFacts.

Lemma py_eqb_norm (a b : pyval) : py_eqb a b = true <-> key_norm a = key_norm b.
Proof.
  destruct a as [|[]|x|x|x], b as [|[]|y|y|y]; cbv [py_eqb key_norm Bool.eqb];
    repeat match goal with
           | |- context [is_ascii ?s] => destruct (is_ascii s) eqn:?
           end; cbv [andb];
    rewrite ?Z.eqb_eq, ?String.eqb_eq; split; congruence.
Qed.

Lemma py_eqb_refl (a : pyval) : py_eqb a a = true.
Proof. now apply py_eqb_norm. Qed.

Lemma py_eqb_sym (a b : pyval) : py_eqb a b = py_eqb b a.
Proof.
  destruct (py_eqb a b) eqn:E1, (py_eqb b a) eqn:E2; try reflexivity.
  - apply py_eqb_norm in E1. symmetry in E1. apply py_eqb_norm in E1. congruence.
  - apply py_eqb_norm in E2. symmetry in E2. apply py_eqb_norm in E2. congruence.
Qed.

Lemma py_eqb_trans (a b c : pyval) :
  py_eqb a b = true -> py_eqb b c = true -> py_eqb a c = true.
Proof. rewrite !py_eqb_norm. congruence. Qed.

Lemma tget_tset_same (k k' : pyval) (r : record) (t : table) :
  py_eqb k k' = true -> tget k' (tset k r t) = Some r.
Proof. apply od_get_set_same; [apply py_eqb_sym | apply py_eqb_trans]. Qed.

Lemma tget_tset_other (k k' : pyval) (r : record) (t : table) :
  py_eqb k k' = false -> tget k' (tset k r t) = tget k' t.
Proof. apply od_get_set_other; [apply py_eqb_sym | apply py_eqb_trans]. Qed.

Lemma str_eqb_sym (a b : string) : String.eqb a b = String.eqb b a.
Proof. apply String.eqb_sym. Qed.

Lemma str_eqb_trans (a b c : string) :
  String.eqb a b = true -> String.eqb b c = true -> String.eqb a c = true.
Proof. rewrite !String.eqb_eq. congruence. Qed.

Lemma rget_rset_same (f : string) (v : pyval) (r : record) :
  rget f (rset f v r) = Some v.
Proof.
  apply od_get_set_same; [apply str_eqb_sym | apply str_eqb_trans | apply String.eqb_refl].
Qed.

Lemma rget_rset_other (f g : string) (v : pyval) (r : record) :
  String.eqb f g = false -> rget g (rset f v r) = rget g r.
Proof. apply od_get_set_other; [apply str_eqb_sym | apply str_eqb_trans]. Qed.

(** ** Computations *)

Lemma bind_inr {S A B} (m : Comp S A) (k : A -> Comp S B) (st st' : S) (b : B) :
  bind m k st = (inr b, st') ->
  exists a st1, m st = (inr a, st1) /\ k a st1 = (inr b, st').
Proof.
  unfold bind. destruct (m st) as [[e|a] st1]; [discriminate|].
  intros H. now exists a, st1.
Qed.

Lemma bind_inl {S A B} (m : Comp S A) (k : A -> Comp S B) (st st1 : S) (e : exn) :
  m st = (inl e, st1) -> bind m k st = (inl e, st1).
Proof. unfold bind. now intros ->. Qed.

Lemma bind_step {S A B} (m : Comp S A) (k : A -> Comp S B) (st st1 : S) (a : A) :
  m st = (inr a, st1) -> bind m k st = k a st1.
Proof. unfold bind. now intros ->. Qed.

Lemma set_pctab_same (s : Self) : set_pctab (pctab s) s = s.
Proof. now destruct s. Qed.

Lemma log_run (msg : logent) (st : St) :
  log msg st =
  (inr tt,
   (set_logmsg (logmsg (fst st) ++ [msg]) (fst st),
    if verbose (fst st) then add_stdout (PrintedLog msg) (snd st) else snd st)).
Proof.
  destruct st as [s w]. unfold log, bind, modify_self, get_self, modify_world, ret. simpl.
  now destruct (verbose s).
Qed.

Lemma log_trace (msg : logent) (st : St) :
  bq_trace (snd (snd (log msg st))) = bq_trace (snd st).
Proof. rewrite log_run. simpl. now destruct (verbose (fst st)). Qed.

(** *** What a computation leaves alone *)

Section Frame.

Variable R : St -> St -> Prop.
Context {R_pre : RelationClasses.PreOrder R}.

Lemma steps_ret {A} (a : A) : steps R (ret a).
Proof. intros st. reflexivity. Qed.

Lemma steps_raise {A} (e : exn) : steps R (@raise St A e).
Proof. intros st. reflexivity. Qed.

Lemma steps_lift {A} (r : exn + A) : steps R (lift r).
Proof. intros st. reflexivity. Qed.

Lemma steps_get_self : steps R get_self.
Proof. intros st. reflexivity. Qed.

Lemma steps_get_world : steps R get_world.
Proof. intros st. reflexivity. Qed.

Lemma steps_bind {A B} (m : M A) (k : A -> M B) :
  steps R m -> (forall a, steps R (k a)) -> steps R (bind m k).
Proof.
  intros Hm Hk st. unfold bind. specialize (Hm st).
  destruct (m st) as [[e|a] st1]; simpl in *; [exact Hm|].
  etransitivity; [exact Hm | apply Hk].
Qed.

Lemma steps_modify_self (f : Self -> Self) :
  (forall s w, R (s, w) (f s, w)) -> steps R (modify_self f).
Proof. intros H [s w]. apply H. Qed.

Lemma steps_modify_world (f : World -> World) :
  (forall s w, R (s, w) (s, f w)) -> steps R (modify_world f).
Proof. intros H [s w]. apply H. Qed.

(** A loop over the record store, for a relation that does not look at the
    records. *)
Lemma steps_for_pctab (body : nat -> Comp (record * St) unit) :
  (forall i r st, R st (snd (snd (body i (r, st))))) ->
  (forall st t, R st (set_pctab t (fst st), snd st)) ->
  forall todo i, steps R (for_pctab body i todo).
Proof.
  intros Hbody Hset todo. induction todo as [|[key pcent] rest IH]; intros i st; simpl.
  - reflexivity.
  - specialize (Hbody i pcent st).
    destruct (body i (pcent, st)) as [res [pcent' st']]. simpl in Hbody.
    assert (Hst : R st (set_pctab (update_nth i (key, pcent') (pctab (fst st'))) (fst st'),
                        snd st')).
    { etransitivity; [exact Hbody | apply Hset]. }
    destruct res as [e|[]]; simpl; [exact Hst|].
    etransitivity; [exact Hst | apply IH].
Qed.

End Frame.

Create HintDb frames.

(** Splits a goal about a computation along its [bind]s and case
    distinctions; [prim] closes what is asked of the state changes. *)
Ltac steps_tac prim :=
  repeat
    lazymatch goal with
    | |- steps ?R (ret _) => apply (steps_ret R)
    | |- steps ?R (raise _) => apply (steps_raise R)
    | |- steps ?R (lift _) => apply (steps_lift R)
    | |- steps ?R get_self => apply (steps_get_self R)
    | |- steps ?R get_world => apply (steps_get_world R)
    | |- steps ?R (bind _ _) => apply (steps_bind R); [ | intro ]
    | |- steps ?R (modify_self _) => apply (steps_modify_self R); solve [prim]
    | |- steps ?R (modify_world _) => apply (steps_modify_world R); solve [prim]
    | |- steps _ (match ?x with _ => _ end) => destruct x
    | |- steps _ (if ?x then _ else _) => destruct x
    | |- steps _ _ => solve [auto with frames]
    end.

#[global] Instance same_pctab_pre : RelationClasses.PreOrder same_pctab.
Proof.
  split; unfold same_pctab.
  - intros st. reflexivity.
  - intros a b c H1 H2. congruence.
Qed.

#[global] Instance no_table_listing_pre : RelationClasses.PreOrder no_table_listing.
Proof.
  split; unfold no_table_listing.
  - intros st. exists []. now rewrite app_nil_r.
  - intros a b c [n1 [H1 F1]] [n2 [H2 F2]]. exists (n1 ++ n2). split.
    + now rewrite H2, H1, app_assoc.
    + now rewrite forallb_app, F1, F2.
Qed.

Ltac same_pctab_prim := intros; reflexivity.

Ltac no_listing_prim :=
  intros; unfold no_table_listing; simpl;
  first [ exists []; now rewrite app_nil_r
        | eexists; split; [reflexivity | reflexivity] ].

Lemma log_same_pctab (msg : logent) : steps same_pctab (log msg).
Proof. unfold log. steps_tac ltac:(same_pctab_prim). Qed.

Lemma log_no_listing (msg : logent) : steps no_table_listing (log msg).
Proof. unfold log. steps_tac ltac:(no_listing_prim). Qed.

Lemma get_bq_table_same_pctab ds tn sql key force :
  steps same_pctab (get_bq_table ds tn sql key force).
Proof. unfold get_bq_table. steps_tac ltac:(same_pctab_prim). Qed.

Lemma get_bq_table_no_listing ds tn sql key force :
  steps no_table_listing (get_bq_table ds tn sql key force).
Proof. unfold get_bq_table. steps_tac ltac:(no_listing_prim). Qed.

Lemma getattr_same_pctab tn : steps same_pctab (getattr tn).
Proof. unfold getattr. steps_tac ltac:(same_pctab_prim). Qed.

Lemma getattr_no_listing tn : steps no_table_listing (getattr tn).
Proof. unfold getattr. steps_tac ltac:(no_listing_prim). Qed.

Lemma setattr_same_pctab tn t : steps same_pctab (setattr tn t).
Proof. unfold setattr. steps_tac ltac:(same_pctab_prim). Qed.

Lemma setattr_no_listing tn t : steps no_table_listing (setattr tn t).
Proof. unfold setattr. steps_tac ltac:(no_listing_prim). Qed.

#[global] Hint Resolve log_same_pctab log_no_listing get_bq_table_same_pctab
  get_bq_table_no_listing getattr_same_pctab getattr_no_listing
  setattr_same_pctab setattr_no_listing : frames.

Lemma load_nchapters_same_pctab : steps same_pctab load_nchapters.
Proof. unfold load_nchapters, log_loading. steps_tac ltac:(same_pctab_prim). Qed.

Lemma load_pc_forum_same_pctab : steps same_pctab load_pc_forum.
Proof. unfold load_pc_forum, log_loading. steps_tac ltac:(same_pctab_prim). Qed.

Lemma load_last_event_same_pctab : steps same_pctab load_last_event.
Proof. unfold load_last_event, log_loading. steps_tac ltac:(same_pctab_prim). Qed.

Lemma load_pc_day_totals_same_pctab : steps same_pctab load_pc_day_totals.
Proof. unfold load_pc_day_totals, log_loading. steps_tac ltac:(same_pctab_prim). Qed.

Lemma load_modal_ip_same_pctab : steps same_pctab load_modal_ip.
Proof. unfold load_modal_ip, log_loading. steps_tac ltac:(same_pctab_prim). Qed.

Lemma load_pc_geoip_same_pctab : steps same_pctab load_pc_geoip.
Proof. unfold load_pc_geoip, log_loading. steps_tac ltac:(same_pctab_prim). Qed.

Lemma load_last_event_no_listing : steps no_table_listing load_last_event.
Proof. unfold load_last_event, log_loading. steps_tac ltac:(no_listing_prim). Qed.

Lemma load_pc_day_totals_no_listing : steps no_table_listing load_pc_day_totals.
Proof. unfold load_pc_day_totals, log_loading. steps_tac ltac:(no_listing_prim). Qed.

Lemma load_modal_ip_no_listing : steps no_table_listing load_modal_ip.
Proof. unfold load_modal_ip, log_loading. steps_tac ltac:(no_listing_prim). Qed.

Lemma getonefile_same_pctab fns : steps same_pctab (getonefile fns).
Proof.
  induction fns as [|fn rest IH]; simpl; steps_tac ltac:(same_pctab_prim).
Qed.

Lemma openfile_same_pctab fn : steps same_pctab (openfile fn).
Proof. unfold openfile. steps_tac ltac:(same_pctab_prim). Qed.

#[global] Hint Resolve load_nchapters_same_pctab load_pc_forum_same_pctab
  load_last_event_same_pctab load_pc_day_totals_same_pctab load_modal_ip_same_pctab
  load_pc_geoip_same_pctab load_last_event_no_listing load_pc_day_totals_no_listing
  load_modal_ip_no_listing getonefile_same_pctab openfile_same_pctab : frames.

Lemma get_nchapters_same_pctab : steps same_pctab get_nchapters_from_course_structure.
Proof. unfold get_nchapters_from_course_structure. steps_tac ltac:(same_pctab_prim). Qed.

#[global] Hint Resolve get_nchapters_same_pctab : frames.

(** ** Loops over the record store *)

Lemma update_nth_app {A} (done : list A) (x a : A) (rest : list A) :
  update_nth (List.length done) a (done ++ x :: rest) = done ++ a :: rest.
Proof. induction done as [|d done IH]; simpl; [reflexivity | now rewrite IH]. Qed.

Lemma set_pctab_twice (t t' : table) (s : Self) :
  set_pctab t (set_pctab t' s) = set_pctab t s.
Proof. reflexivity. Qed.

Lemma length_snoc {A} (l : list A) (a : A) : List.length (l ++ [a]) = S (List.length l).
Proof. rewrite length_app. simpl. lia. Qed.

(** A loop whose body only works on the record in hand is [run_records]. *)
Lemma for_pctab_on_record (b : Comp record unit) (todo done : table) (st : St) :
  pctab (fst st) = done ++ todo ->
  for_pctab (fun _ => on_record b) (List.length done) todo st =
  (fst (run_records b todo),
   (set_pctab (done ++ snd (run_records b todo)) (fst st), snd st)).
Proof.
  revert done st. induction todo as [|[key pcent] rest IH]; intros done st Hst; simpl.
  - rewrite <- Hst, set_pctab_same. now destruct st.
  - unfold on_record at 1. simpl.
    destruct (b pcent) as [[e|[]] pcent']; simpl; rewrite Hst, update_nth_app;
      [reflexivity|].
    rewrite <- (length_snoc done (key, pcent')).
    rewrite IH by (simpl; now rewrite <- app_assoc).
    destruct (run_records b rest) as [res rest']. simpl.
    now rewrite <- app_assoc.
Qed.

Lemma for_each_pcent_on_record (b : Comp record unit) (st : St) :
  for_each_pcent (fun _ => on_record b) st =
  (fst (run_records b (pctab (fst st))),
   (set_pctab (snd (run_records b (pctab (fst st)))) (fst st), snd st)).
Proof.
  unfold for_each_pcent, bind, get_self.
  exact (for_pctab_on_record b (pctab (fst st)) [] st eq_refl).
Qed.

Lemma run_records_keys (b : Comp record unit) (todo : table) :
  od_keys (snd (run_records b todo)) = od_keys todo.
Proof.
  induction todo as [|[key pcent] rest IH]; simpl; [reflexivity|].
  destruct (b pcent) as [[e|[]] pcent']; simpl; [reflexivity|].
  destruct (run_records b rest) as [res rest']. simpl in *. now rewrite IH.
Qed.

(** When the loop returns, every record went through the body, in place. *)
Lemma run_records_ok (b : Comp record unit) (todo : table) :
  fst (run_records b todo) = inr tt ->
  Forall2 (fun old new => fst new = fst old /\ b (snd old) = (inr tt, snd new))
    todo (snd (run_records b todo)).
Proof.
  induction todo as [|[key pcent] rest IH]; simpl; [constructor|].
  destruct (b pcent) as [[e|[]] pcent'] eqn:Eb; simpl; [discriminate|].
  destruct (run_records b rest) as [res rest']. simpl in *.
  intros ->. constructor; [now split | now apply IH].
Qed.

(** The loop stops at the first record on which the body raises; the
    records before it are changed, the ones after it are not. *)
Lemma run_records_raise (b : Comp record unit) (done : table) key pcent pcent' e rest :
  Forall (fun ent => fst (b (snd ent)) = inr tt) done ->
  b pcent = (inl e, pcent') ->
  run_records b (done ++ (key, pcent) :: rest) =
  (inl e, map (fun ent => (fst ent, snd (b (snd ent)))) done ++ (key, pcent') :: rest).
Proof.
  intros Hdone Hb. induction Hdone as [|[k r] done Hr Hdone IH]; simpl.
  - now rewrite Hb.
  - simpl in Hr. destruct (b r) as [[e0|[]] r']; [discriminate|].
    rewrite IH. reflexivity.
Qed.

Lemma run_records_raises (b : Comp record unit) (todo : table) key pcent e :
  In (key, pcent) todo -> fst (b pcent) = inl e ->
  exists e', fst (run_records b todo) = inl e'.
Proof.
  intros Hin Hb. induction todo as [|[k r] rest IH]; [contradiction|]. simpl.
  destruct (b r) as [[e0|[]] r'] eqn:Er; simpl; [now exists e0|].
  destruct Hin as [Heq|Hin].
  - injection Heq as -> ->. rewrite Er in Hb. discriminate.
  - destruct (IH Hin) as [e' He']. destruct (run_records b rest) as [res rest'].
    simpl in *. now exists e'.
Qed.

#[global] Instance same_keys_pre : RelationClasses.PreOrder same_keys.
Proof.
  split; unfold same_keys.
  - intros st. reflexivity.
  - intros a b c H1 H2. congruence.
Qed.

Lemma same_pctab_keys {A} (c : M A) : steps same_pctab c -> steps same_keys c.
Proof. intros H st. unfold same_keys. now rewrite (H st). Qed.

(** A loop over the record store keeps the keys when its body leaves the
    store itself alone. *)
Lemma for_pctab_keys (body : nat -> Comp (record * St) unit) :
  (forall i r (st : St), same_pctab st (snd (snd (body i (r, st))))) ->
  forall todo done (st : St),
    pctab (fst st) = done ++ todo ->
    od_keys (pctab (fst (snd (for_pctab body (List.length done) todo st)))) =
    od_keys (done ++ todo).
Proof.
  intros Hbody todo. induction todo as [|[key pcent] rest IH]; intros done st Hst; simpl.
  - now rewrite Hst.
  - specialize (Hbody (List.length done) pcent st). unfold same_pctab in Hbody.
    destruct (body (List.length done) (pcent, st)) as [res [pcent' st']] eqn:Eb.
    simpl in Hbody. rewrite Hbody, Hst, update_nth_app.
    destruct res as [e|[]]; simpl.
    + unfold od_keys. now rewrite !map_app.
    + rewrite <- (length_snoc done (key, pcent')).
      rewrite IH by (simpl; now rewrite <- app_assoc).
      unfold od_keys. now rewrite !map_app, <- app_assoc.
Qed.

Lemma for_each_pcent_keys (body : nat -> Comp (record * St) unit) :
  (forall i r (st : St), same_pctab st (snd (snd (body i (r, st))))) ->
  steps same_keys (for_each_pcent body).
Proof.
  intros Hbody st. unfold for_each_pcent, bind, get_self, same_keys.
  exact (for_pctab_keys body Hbody (pctab (fst st)) [] st eq_refl).
Qed.

Section BodyFrame.

Variable R : St -> St -> Prop.
Context {R_pre : RelationClasses.PreOrder R}.

Lemma body_steps_ret {A} (a : A) : body_steps R (ret a).
Proof. intros rs. reflexivity. Qed.

Lemma body_steps_bind {A B} (m : Comp (record * St) A) (k : A -> Comp (record * St) B) :
  body_steps R m -> (forall a, body_steps R (k a)) -> body_steps R (bind m k).
Proof.
  intros Hm Hk rs. unfold bind. specialize (Hm rs).
  destruct (m rs) as [[e|a] rs1]; simpl in *; [exact Hm|].
  etransitivity; [exact Hm | apply Hk].
Qed.

Lemma body_steps_on_record {A} (c : Comp record A) : body_steps R (on_record c).
Proof. intros [r st]. unfold on_record. simpl. destruct (c r). reflexivity. Qed.

Lemma body_steps_on_self {A} (c : M A) : steps R c -> body_steps R (on_self c).
Proof.
  intros H [r st]. unfold on_self. simpl. specialize (H st). now destruct (c st).
Qed.

End BodyFrame.

Ltac body_steps_tac :=
  repeat
    lazymatch goal with
    | |- body_steps ?R (ret _) => apply (body_steps_ret R)
    | |- body_steps ?R (bind _ _) => apply (body_steps_bind R); [ | intro ]
    | |- body_steps ?R (on_record _) => apply (body_steps_on_record R)
    | |- body_steps ?R (on_self _) => apply (body_steps_on_self R); solve [auto with frames]
    | |- body_steps _ (match ?x with _ => _ end) => destruct x
    | |- body_steps _ (if ?x then _ else _) => destruct x
    end.

Lemma third_phase_body_same_pctab utc a b c :
  body_steps same_pctab (third_phase_body utc a b c).
Proof. unfold third_phase_body. body_steps_tac. Qed.

Lemma third_phase_body_no_listing utc a b c :
  body_steps no_table_listing (third_phase_body utc a b c).
Proof. unfold third_phase_body. body_steps_tac. Qed.

Lemma on_record_same_pctab {A} (c : Comp record A) :
  body_steps same_pctab (on_record c).
Proof. apply (body_steps_on_record same_pctab). Qed.

#[global] Hint Resolve same_pctab_keys : frames.

Lemma second_phase_loop_keys a f n :
  steps same_keys (for_each_pcent (fun _ => on_record (second_phase_body a f n))).
Proof.
  apply for_each_pcent_keys. intros i r st.
  apply (on_record_same_pctab (second_phase_body a f n) (r, st)).
Qed.

Lemma third_phase_loop_keys utc a b c :
  steps same_keys (for_each_pcent (fun _ => third_phase_body utc a b c)).
Proof.
  apply for_each_pcent_keys. intros i r st.
  apply (third_phase_body_same_pctab utc a b c (r, st)).
Qed.

Lemma fourth_phase_loop_keys g :
  steps same_keys (for_each_pcent (fun _ => on_record (fourth_phase_body g))).
Proof.
  apply for_each_pcent_keys. intros i r st.
  apply (on_record_same_pctab (fourth_phase_body g) (r, st)).
Qed.

#[global] Hint Resolve second_phase_loop_keys third_phase_loop_keys
  fourth_phase_loop_keys : frames.

Ltac same_keys_prim := intros; reflexivity.

Lemma compute_second_phase_keys : steps same_keys compute_second_phase.
Proof. unfold compute_second_phase. steps_tac ltac:(same_keys_prim). Qed.

Lemma compute_third_phase_keys utc : steps same_keys (compute_third_phase utc).
Proof. unfold compute_third_phase. steps_tac ltac:(same_keys_prim). Qed.

Lemma compute_fourth_phase_keys : steps same_keys compute_fourth_phase.
Proof. unfold compute_fourth_phase. steps_tac ltac:(same_keys_prim). Qed.

(** C8.  Each of the second, third and fourth phase leaves the keys of the
    record store as they were, in the same order, from every state and
    whether the phase returns or raises: no key is added for a user that
    only an aggregate knows, none is removed for a user an aggregate does
    not know.  [utc] is the conversion of a time stamp to text that the
    third phase uses. *)
Theorem phases_keep_the_keys (utc : pyval -> option string) (st : St) :
  od_keys (pctab (fst (snd (compute_second_phase st)))) = od_keys (pctab (fst st)) /\
  od_keys (pctab (fst (snd (compute_third_phase utc st)))) = od_keys (pctab (fst st)) /\
  od_keys (pctab (fst (snd (compute_fourth_phase st)))) = od_keys (pctab (fst st)).
Proof.
  split; [|split].
  - apply compute_second_phase_keys.
  - apply compute_third_phase_keys.
  - apply compute_fourth_phase_keys.
Qed.

(** ** The second phase *)

Lemma bind_assoc {S A B C} (m : Comp S A) (k1 : A -> Comp S B) (k2 : B -> Comp S C)
  (st : S) :
  bind (bind m k1) k2 st = bind m (fun a => bind (k1 a) k2) st.
Proof. unfold bind. now destruct (m st) as [[e|a] st1]. Qed.

Lemma bind_ext {S A B} (m : Comp S A) (k k' : A -> Comp S B) (st : S) :
  (forall a st1, k a st1 = k' a st1) -> bind m k st = bind m k' st.
Proof. intros H. unfold bind. destruct (m st) as [[e|a] st1]; [reflexivity | apply H]. Qed.

(** The second phase is its first statements followed by its loop. *)
Lemma compute_second_phase_eq (st : St) :
  compute_second_phase st =
  bind second_phase_inputs
    (fun x => let '(a, f, n) := x in
              for_each_pcent (fun _ => on_record (second_phase_body a f n))) st.
Proof.
  unfold compute_second_phase, second_phase_inputs.
  repeat (rewrite bind_assoc; apply bind_ext; intros).
  reflexivity.
Qed.

Lemma second_phase_inputs_same_pctab : steps same_pctab second_phase_inputs.
Proof. unfold second_phase_inputs. steps_tac ltac:(same_pctab_prim). Qed.

Lemma getattr_inv (tn : string) (st st' : St) (t : table) :
  getattr tn st = (inr t, st') ->
  st' = st /\ od_get String.eqb tn (attrs (fst st)) = Some t.
Proof.
  unfold getattr, bind, get_self, ret, raise.
  destruct (od_get String.eqb tn (attrs (fst st))) as [t0|]; [|discriminate].
  intros H. injection H as -> ->. now split.
Qed.

Lemma log_keeps (msg : logent) (st : St) :
  fst (log msg st) = inr tt /\
  nchapters (fst (snd (log msg st))) = nchapters (fst st) /\
  attrs (fst (snd (log msg st))) = attrs (fst st).
Proof.
  unfold log, bind, modify_self, get_self, modify_world, ret. simpl.
  destruct (verbose (fst st)); simpl; auto.
Qed.

Lemma get_nchapters_inv (st st' : St) (n : Z) :
  get_nchapters_from_course_structure st = (inr n, st') ->
  nchapters (fst st') = Some n.
Proof.
  unfold get_nchapters_from_course_structure. intros H.
  apply bind_inr in H. destruct H as [csfn [st1 [_ H]]].
  apply bind_inr in H. destruct H as [f [st2 [_ H]]].
  destruct f as [ls|entries|rows]; try discriminate.
  apply bind_inr in H. destruct H as [n' [st3 [_ H]]].
  apply bind_inr in H. destruct H as [self [st4 [_ H]]].
  apply bind_inr in H. destruct H as [[] [st5 [_ H]]].
  apply bind_inr in H. destruct H as [[] [st6 [H6 H]]].
  unfold ret in H. injection H as -> ->.
  unfold modify_self in H6. injection H6 as <-. reflexivity.
Qed.

Lemma second_phase_inputs_inv (st st1 : St) (a f : table) (n : Z) :
  second_phase_inputs st = (inr (a, f, n), st1) ->
  pctab (fst st1) = pctab (fst st) /\
  od_get String.eqb "pc_nchapters" (attrs (fst st1)) = Some a /\
  od_get String.eqb "pc_forum" (attrs (fst st1)) = Some f /\
  nchapters (fst st1) = Some n.
Proof.
  intros H. split.
  - pose proof (second_phase_inputs_same_pctab st) as Hp. now rewrite H in Hp.
  - unfold second_phase_inputs in H.
    apply bind_inr in H. destruct H as [[] [s1 [_ H]]].
    apply bind_inr in H. destruct H as [[] [s2 [_ H]]].
    apply bind_inr in H. destruct H as [[] [s3 [_ H]]].
    apply bind_inr in H. destruct H as [[] [s4 [_ H]]].
    apply bind_inr in H. destruct H as [n' [s5 [Hn H]]].
    apply bind_inr in H. destruct H as [a' [s6 [Ha H]]].
    apply bind_inr in H. destruct H as [f' [s7 [Hf H]]].
    unfold ret in H. injection H as -> -> -> ->.
    apply getattr_inv in Ha. destruct Ha as [-> Ha].
    apply getattr_inv in Hf. destruct Hf as [-> Hf].
    apply get_nchapters_inv in Hn. auto.
Qed.

(** Copying a field without re-encoding never raises, and touches one
    field of the record at most. *)
Lemma copy_from_bq_table_frame src u fa (r : record) (g : string) :
  String.eqb (stored_name fa) g = false ->
  fst (copy_from_bq_table src u fa None false r) = inr tt /\
  rget g (snd (copy_from_bq_table src u fa None false r)) = rget g r.
Proof.
  intros Hg. unfold copy_from_bq_table.
  destruct fa as [f|f nf]; simpl in *.
  - destruct (is_none (bq_datum src u f)); simpl; [now split|].
    split; [reflexivity | now apply rget_rset_other].
  - destruct (is_none (bq_datum src u f)); simpl; [now split|].
    split; [reflexivity | now apply rget_rset_other].
Qed.

Lemma for_each_copy_frame src u (fields : list field_arg) (g : string) :
  Forall (fun fa => String.eqb (stored_name fa) g = false) fields ->
  forall r : record,
    fst (for_each fields (fun fa => copy_from_bq_table src u fa None false) r) = inr tt /\
    rget g (snd (for_each fields (fun fa => copy_from_bq_table src u fa None false) r))
    = rget g r.
Proof.
  induction 1 as [|fa fields Hfa _ IH]; intros r; simpl; [now split|].
  unfold bind.
  destruct (copy_from_bq_table_frame src u fa r g Hfa) as [H1 H2].
  destruct (copy_from_bq_table src u fa None false r) as [[e|[]] r1]; simpl in *;
    [discriminate|].
  destruct (IH r1) as [H3 H4]. split; [exact H3 | now rewrite H4].
Qed.

Lemma forum_fields_frame (g : string) :
  In g ["viewed"; "nchapters"; "explored"; "user_id"] ->
  Forall (fun fa => String.eqb (stored_name fa) g = false) forum_fields.
Proof.
  simpl. intros [<-|[<-|[<-|[<-|[]]]]]; repeat constructor.
Qed.

Lemma rec_index_inv (f : string) (r r' : record) (v : pyval) :
  rec_index f r = (inr v, r') -> r' = r /\ rget f r = Some v.
Proof.
  unfold rec_index. destruct (rget f r) as [v0|]; [|discriminate].
  intros H. injection H as -> ->. now split.
Qed.

Lemma lift_inv {S A} (x : exn + A) (a : A) (st st' : S) :
  lift x st = (inr a, st') -> x = inr a /\ st' = st.
Proof. unfold lift. intros H. injection H as -> ->. now split. Qed.

Lemma second_phase_body_ok (a f : table) (n : Z) (r r' : record) :
  second_phase_body a f n r = (inr tt, r') -> second_phase_record_outcome a n r r'.
Proof.
  unfold second_phase_body. intros H.
  apply bind_inr in H. destruct H as [v [r1 [Hv H]]].
  apply rec_index_inv in Hv. destruct Hv as [-> Hv].
  apply bind_inr in H. destruct H as [uid [r1 [Hu H]]].
  apply lift_inv in Hu. destruct Hu as [Hu ->].
  apply bind_inr in H. destruct H as [[] [r2 [H2 H]]].
  exists v, uid. split; [exact Hv|]. split; [exact Hu|].
  assert (Hfr : forall g, In g ["viewed"; "nchapters"; "explored"; "user_id"] ->
                          rget g r' = rget g r2).
  { intros g Hg.
    destruct (for_each_copy_frame f (PStr uid) forum_fields g (forum_fields_frame g Hg) r2)
      as [_ Hf].
    now rewrite H in Hf. }
  destruct (tget (PStr uid) a) as [row|].
  - apply bind_inr in H2. destruct H2 as [[] [r3 [H3 H2]]].
    unfold rec_set, modify in H3. injection H3 as <-.
    apply bind_inr in H2. destruct H2 as [cnt [r4 [H4 H2]]].
    unfold row_index in H4. destruct (rget "nchapters" row) as [cnt0|] eqn:Ecnt;
      [|discriminate].
    unfold ret in H4. injection H4 as -> <-.
    apply bind_inr in H2. destruct H2 as [k [r5 [H5 H2]]].
    apply lift_inv in H5. destruct H5 as [Hk ->].
    apply bind_inr in H2. destruct H2 as [[] [r6 [H6 H2]]].
    unfold rec_set, modify in H6. injection H6 as <-.
    exists cnt, k. split; [reflexivity|]. split; [exact Hk|].
    rewrite !Hfr by (simpl; auto).
    destruct (k >=? n / 2)%Z; unfold rec_set, modify in H2; injection H2 as <-;
      rewrite rget_rset_same;
      rewrite !rget_rset_other by reflexivity;
      rewrite rget_rset_same;
      rewrite !rget_rset_other by reflexivity;
      rewrite rget_rset_same; auto.
  - unfold rec_set, modify in H2. injection H2 as <-.
    rewrite !Hfr by (simpl; auto).
    rewrite rget_rset_same. rewrite rget_rset_other by reflexivity. auto.
Qed.

(** C5.  When the second phase returns, every record of the store has
    been treated as follows, with [agg] the pc_nchapters aggregate and
    [total] the number of chapters of the course: if the text of its
    user_id is a key of [agg], viewed is true, nchapters is the count of
    the aggregate as an integer, and explored tells whether that count is
    at least [total / 2], the quotient rounded down; if it is not a key,
    viewed is false and explored is what it was before (absent if it was
    absent).  With ten chapters, five viewed chapters give explored true
    and four give explored false. *)
Theorem second_phase_viewed_explored (st st' : St) :
  compute_second_phase st = (inr tt, st') ->
  second_phase_outcome st st' /\
  rget "explored"
    (snd (second_phase_body [(PUni "7", [("nchapters", PUni "5")])] [] 10
            [("user_id", PInt 7)])) = Some (PBool true) /\
  rget "explored"
    (snd (second_phase_body [(PUni "7", [("nchapters", PUni "4")])] [] 10
            [("user_id", PInt 7)])) = Some (PBool false) /\
  rget "explored"
    (snd (second_phase_body [(PUni "8", [("nchapters", PUni "9")])] [] 10
            [("user_id", PInt 7)])) = None.
Proof.
  intros H. split; [|repeat split; reflexivity].
  rewrite compute_second_phase_eq in H.
  apply bind_inr in H. destruct H as [[[a f] n] [st1 [Hin H]]].
  apply second_phase_inputs_inv in Hin. destruct Hin as [Hp [Ha [_ Hn]]].
  rewrite for_each_pcent_on_record in H.
  injection H as Hres <-. simpl.
  exists a, n. split; [exact Ha|]. split; [exact Hn|].
  rewrite <- Hp.
  apply run_records_ok in Hres.
  eapply Forall2_impl; [|exact Hres].
  intros old new [Hk Hb]. split; [exact Hk|].
  now apply (second_phase_body_ok a f n).
Qed.

(** The same, run on a store holding the record of one user who viewed six
    chapters of ten. *)
Lemma second_phase_viewed_explored_witness :
  second_phase_outcome ex_st_alice (snd (compute_second_phase ex_st_alice)).
Proof.
  apply (second_phase_viewed_explored ex_st_alice (snd (compute_second_phase ex_st_alice))).
  vm_compute. reflexivity.
Defined.

(** ** The first phase *)

Lemma copy_field_other (src dst : record) (ent : string * field_source) (g : string) :
  (String.eqb (fst ent) g = true -> source_absent src (snd ent)) ->
  rget g (copy_field src dst ent) = rget g dst.
Proof.
  destruct ent as [key [l|f]]; simpl; intros H.
  - destruct (first_present src l) as [v|] eqn:E; [|reflexivity].
    destruct (String.eqb key g) eqn:Ek; [now discriminate (H eq_refl)|].
    now apply rget_rset_other.
  - destruct (rget f src) as [v|] eqn:E; [|reflexivity].
    destruct (String.eqb key g) eqn:Ek; [now discriminate (H eq_refl)|].
    now apply rget_rset_other.
Qed.

Lemma copy_fields_other (src : record) (fields : list (string * field_source)) (g : string) :
  Forall (fun ent => String.eqb (fst ent) g = true -> source_absent src (snd ent)) fields ->
  forall dst, rget g (copy_fields src dst fields) = rget g dst.
Proof.
  unfold copy_fields. induction 1 as [|ent fields Hent _ IH]; intros dst; simpl;
    [reflexivity|].
  rewrite IH. now apply copy_field_other.
Qed.

(** A row without user_id gives a record without user_id. *)
Lemma first_phase_record_no_user_id (uicent : record) :
  rget "user_id" uicent = None -> rget "user_id" (first_phase_record uicent) = None.
Proof.
  intros H. unfold first_phase_record.
  assert (Hc : rget "user_id" (copy_fields uicent [] first_phase_fields) = None).
  { rewrite copy_fields_other; [reflexivity|].
    unfold first_phase_fields.
    repeat constructor; simpl; intros E; try discriminate E; exact H. }
  destruct (py_in _ _); rewrite !rget_rset_other by reflexivity; exact Hc.
Qed.


Lemma tset_distinct (k : pyval) (r : record) (t : table) :
  distinct_keys t -> distinct_keys (tset k r t).
Proof.
  induction t as [|[k0 v0] rest IH]; simpl.
  - auto.
  - intros [H0 Hd]. unfold tset in *. simpl.
    destruct (py_eqb k0 k) eqn:E; simpl.
    + now split.
    + split; [|now apply IH].
      fold (tset k r rest). rewrite tget_tset_other; [exact H0|].
      now rewrite py_eqb_sym.
Qed.







(** ** A record without user_id *)

Lemma second_phase_body_no_user_id (a f : table) (n : Z) (r : record) :
  rget "user_id" r = None ->
  second_phase_body a f n r = (inl (KeyError "user_id"), r).
Proof.
  intros H. unfold second_phase_body, bind, rec_index. now rewrite H.
Qed.

(** C10.  Take a record store with a record that has no user_id.  The
    second phase does not return from it: it raises.  When its first
    statements went through and the loop got past the records before that
    one, the exception is the KeyError of the lookup of user_id, the records
    before are enriched, and that record and the ones after it are as they
    were.  The first phase makes such a record from any row without
    user_id. *)
Theorem second_phase_needs_user_id (st : St) (done : table) (key : pyval) (r : record)
  (rest : table) :
  pctab (fst st) = done ++ (key, r) :: rest ->
  rget "user_id" r = None ->
  (exists e, fst (compute_second_phase st) = inl e) /\
  (forall st1 a f n,
     second_phase_inputs st = (inr (a, f, n), st1) ->
     Forall (fun ent => fst (second_phase_body a f n (snd ent)) = inr tt) done ->
     compute_second_phase st =
     (inl (KeyError "user_id"),
      (set_pctab
         (map (fun ent => (fst ent, snd (second_phase_body a f n (snd ent)))) done
          ++ (key, r) :: rest) (fst st1),
       snd st1))) /\
  (forall uicent,
     rget "user_id" uicent = None ->
     rget "user_id" (first_phase_record uicent) = None).
Proof.
  intros Hst Hr. split; [|split].
  - rewrite compute_second_phase_eq. unfold bind.
    destruct (second_phase_inputs st) as [[e|[[a f] n]] st1] eqn:Ein; [now exists e|].
    apply second_phase_inputs_inv in Ein. destruct Ein as [Hp _].
    rewrite for_each_pcent_on_record. simpl. rewrite Hp, Hst.
    apply (run_records_raises _ _ key r (KeyError "user_id")).
    + apply in_or_app. right. now left.
    + now rewrite second_phase_body_no_user_id.
  - intros st1 a f n Hin Hdone.
    rewrite compute_second_phase_eq. unfold bind. rewrite Hin.
    apply second_phase_inputs_inv in Hin. destruct Hin as [Hp _].
    rewrite for_each_pcent_on_record, Hp, Hst.
    rewrite (run_records_raise _ done key r r (KeyError "user_id") rest Hdone
               (second_phase_body_no_user_id a f n r Hr)).
    reflexivity.
  - apply first_phase_record_no_user_id.
Qed.

(** The same, on the store the first phase makes of the sample rows: the
    second of its two records has no user_id, and the first one is enriched
    when the exception is raised. *)
Lemma second_phase_needs_user_id_witness :
  fst (compute_second_phase ex_st1) = inl (KeyError "user_id") /\
  option_map (rget "viewed") (tget (PUni "alice") (pctab (fst (snd (compute_second_phase ex_st1)))))
  = Some (Some (PBool true)) /\
  tget (PUni "bob") (pctab (fst (snd (compute_second_phase ex_st1))))
  = Some (first_phase_record ex_bob).
Proof.
  destruct (second_phase_needs_user_id ex_st1
              [(PUni "alice", first_phase_record ex_alice)]
              (PUni "bob") (first_phase_record ex_bob) [] eq_refl eq_refl) as [_ [H _]].
  specialize (H (snd (second_phase_inputs ex_st1))
                [(PUni "1", [("user_id", PUni "1"); ("nchapters", PUni "6")])]
                [(PUni "1", [("user_id", PUni "1"); ("nforum", PUni "3")])]
                10%Z).
  rewrite H.
  - repeat split; vm_compute; reflexivity.
  - vm_compute. reflexivity.
  - repeat constructor.
Defined.

(** ** The check of the daily tables *)

(** The loop of [daterange] ends before its fuel does. *)
Lemma daterange_loop_fuel (fuel : nat) :
  forall k e dates,
    (0 < fuel)%nat -> (e - k + 1 < Z.of_nat fuel)%Z ->
    exists r, daterange_loop fuel k e dates = Some r.
Proof.
  induction fuel as [|fuel IH]; intros k e dates Hpos Hf; [lia|]. simpl.
  destruct (k <=? e)%Z eqn:Ek; [|eauto].
  destruct (max_ordinal <? k + 1)%Z; [eauto|].
  apply Z.leb_le in Ek. apply IH; lia.
Qed.

Lemma daterange_total (s e : Z) :
  exists r, daterange_loop (S (Z.to_nat (e - s + 1))) s e [] = Some r.
Proof. apply daterange_loop_fuel; lia. Qed.

Lemma for_each_pcent_no_listing (body : nat -> Comp (record * St) unit) :
  (forall i, body_steps no_table_listing (body i)) ->
  steps no_table_listing (for_each_pcent body).
Proof.
  intros Hbody. unfold for_each_pcent.
  apply (steps_bind no_table_listing); [apply (steps_get_self no_table_listing)|].
  intros self. apply (steps_for_pctab no_table_listing).
  - intros i r st. apply (Hbody i (r, st)).
  - intros st t. exists []. simpl. now rewrite app_nil_r.
Qed.

Lemma third_phase_loop_no_listing utc a b c :
  steps no_table_listing (for_each_pcent (fun _ => third_phase_body utc a b c)).
Proof. apply for_each_pcent_no_listing. intros i. apply third_phase_body_no_listing. Qed.

#[global] Hint Resolve third_phase_loop_no_listing : frames.

(** The third phase never asks which tables a dataset has. *)
Lemma compute_third_phase_no_listing utc : steps no_table_listing (compute_third_phase utc).
Proof. unfold compute_third_phase. steps_tac ltac:(no_listing_prim). Qed.

Lemma nth_error_app_here {A} (l : list A) (a : A) (rest : list A) :
  nth_error (l ++ a :: rest) (List.length l) = Some a.
Proof. induction l as [|x l IH]; simpl; [reflexivity | exact IH]. Qed.

Lemma get_bq_table_trace ds tn sql key force (st : St) :
  exists rest,
    bq_trace (snd (snd (get_bq_table ds tn sql key force st))) =
    bq_trace (snd st) ++ CallGetBqTable ds tn sql key force :: rest.
Proof.
  destruct st as [s w].
  unfold get_bq_table, bind, modify_world, get_world, lift, ret. simpl.
  destruct (if match force with Some b => b | None => false end
            then None else stored_table ds tn (add_trace (CallGetBqTable ds tn sql key force) w))
    as [t|]; simpl.
  - eexists. rewrite <- app_assoc. reflexivity.
  - destruct (bq_engine w sql) as [e|t]; simpl;
      eexists; rewrite <- app_assoc; reflexivity.
Qed.

(** A load logs, calls the loader and attaches the result. *)
Lemma load_first_call tn (sql : Self -> Sql) key (force : Self -> option bool) (st : St) :
  first_call
    (self <- get_self ;;
     log_loading tn ;;;
     t <- get_bq_table (dataset self) tn (sql self) key (force self) ;;
     setattr tn t) st =
  Some (CallGetBqTable (dataset (fst st)) tn (sql (fst st)) key (force (fst st))).
Proof.
  unfold first_call, bind at 1, get_self.
  unfold bind at 1, log_loading. rewrite log_run.
  set (st1 := (set_logmsg _ (fst st), _)).
  assert (Ht : bq_trace (snd st1) = bq_trace (snd st)).
  { unfold st1. simpl. now destruct (verbose (fst st)). }
  unfold bind.
  destruct (get_bq_table_trace (dataset (fst st)) tn (sql (fst st)) key (force (fst st)) st1)
    as [rest Hr].
  destruct (get_bq_table (dataset (fst st)) tn (sql (fst st)) key (force (fst st)) st1)
    as [[e|t] st2]; simpl in *; rewrite Hr, Ht; apply nth_error_app_here.
Qed.

Lemma load_nchapters_first_call (st : St) :
  first_call load_nchapters st =
  Some (CallGetBqTable (dataset (fst st)) "pc_nchapters" (SqlNChapters (dataset (fst st)))
          "user_id" None).
Proof. unfold load_nchapters. apply (load_first_call _ (fun self => _) _ (fun self => _)). Qed.

Lemma load_pc_forum_first_call (st : St) :
  first_call load_pc_forum st =
  Some (CallGetBqTable (dataset (fst st)) "pc_forum" (SqlForum (dataset (fst st)))
          "user_id" (Some (force_recompute_from_logs (fst st)))).
Proof. unfold load_pc_forum. apply (load_first_call _ (fun self => _) _ (fun self => _)). Qed.

Lemma load_pc_day_totals_first_call (st : St) :
  first_call load_pc_day_totals st =
  Some (CallGetBqTable (dataset (fst st)) "pc_day_totals"
          (SqlDayTotals (course_id (fst st)) (dataset (fst st)) (start_date (fst st))
             (end_date (fst st)))
          "username" (Some (force_recompute_from_logs (fst st)))).
Proof. unfold load_pc_day_totals. apply (load_first_call _ (fun self => _) _ (fun self => _)). Qed.

Lemma load_last_event_first_call (st : St) :
  first_call load_last_event st =
  Some (CallGetBqTable (dataset (fst st)) "pc_last_event"
          (SqlLastEvent (dataset (fst st)) (start_date (fst st)) (end_date (fst st)))
          "username" (Some (force_recompute_from_logs (fst st)))).
Proof. unfold load_last_event. apply (load_first_call _ (fun self => _) _ (fun self => _)). Qed.

Lemma load_modal_ip_first_call (st : St) :
  first_call load_modal_ip st =
  Some (CallGetBqTable (dataset (fst st)) "pc_modal_ip"
          (SqlModalIp (dataset (fst st)) (start_date (fst st)) (end_date (fst st)))
          "username" (Some (force_recompute_from_logs (fst st)))).
Proof. unfold load_modal_ip. apply (load_first_call _ (fun self => _) _ (fun self => _)). Qed.

Lemma load_pc_geoip_first_call (st : St) :
  first_call load_pc_geoip st =
  Some (CallGetBqTable (dataset (fst st)) "pc_geoip" (SqlGeoip (dataset (fst st)))
          "username" (Some (force_recompute_from_logs (fst st)))).
Proof. unfold load_pc_geoip. apply (load_first_call _ (fun self => _) _ (fun self => _)). Qed.

(** The third phase starts with the load of pc_last_event. *)
Lemma third_phase_first_call utc (st : St) :
  first_call (compute_third_phase utc) st =
  Some (CallGetBqTable (dataset (fst st)) "pc_last_event"
          (SqlLastEvent (dataset (fst st)) (start_date (fst st)) (end_date (fst st)))
          "username" (Some (force_recompute_from_logs (fst st)))).
Proof.
  unfold compute_third_phase, first_call.
  unfold bind at 1. rewrite log_run. unfold bind at 1. rewrite log_run.
  match goal with
  | |- context [bind load_last_event ?k ?x] => set (st2 := x); set (rest := k)
  end.
  assert (Ht : bq_trace (snd st2) = bq_trace (snd st)).
  { unfold st2. simpl. now destruct (verbose (fst st)). }
  pose proof (load_last_event_first_call st2) as Hc. unfold first_call in Hc.
  assert (Hsame : dataset (fst st2) = dataset (fst st) /\
                  start_date (fst st2) = start_date (fst st) /\
                  end_date (fst st2) = end_date (fst st) /\
                  force_recompute_from_logs (fst st2) = force_recompute_from_logs (fst st))
    by (unfold st2; simpl; auto).
  destruct Hsame as [H1 [H2 [H3 H4]]].
  rewrite H1, H2, H3, H4, Ht in Hc. unfold bind.
  destruct (load_last_event st2) as [[e|[]] st3]; simpl in *; [exact Hc|].
  assert (Hr : steps no_table_listing (rest tt)).
  { unfold rest. steps_tac ltac:(no_listing_prim). }
  destruct (Hr st3) as [new [Hnew _]]. rewrite Hnew.
  rewrite nth_error_app1; [exact Hc|].
  apply nth_error_Some. now rewrite Hc.
Qed.

(** On the days of 2012 to 2014, which the default bounds of the program
    span, the date of an ordinal is a date of the calendar and has that
    ordinal. *)
Lemma ord2ymd_2012_2014 :
  forallb (fun n => let '(y, m, d) := ord2ymd n in
                    (ymd2ord y m d =? n)%Z && (1 <=? m)%Z && (m <=? 12)%Z
                    && (1 <=? d)%Z && (d <=? days_in_month y m)%Z)
    (days_from (ymd2ord 2012 1 1) 1096) = true.
Proof. vm_compute. reflexivity. Qed.

Lemma get_tables_run (ds : string) (st : St) :
  get_tables ds st =
  (inr (table_ids ds (snd st)), (fst st, add_trace (CallGetTables ds) (snd st))).
Proof.
  destruct st as [s w]. unfold get_tables, table_ids, bind, modify_world, get_world, ret.
  simpl. now destruct (od_get String.eqb ds (bq_datasets w)).
Qed.

(** The loop of the check returns when every date has its table. *)
Lemma ensure_loop_complete ds tprefix tabs (dates : list string) (st : St) :
  Forall (fun k => str_in (tprefix ++ "_" ++ k) tabs = true) dates ->
  ensure_loop ds tprefix tabs dates st = (inr tt, st).
Proof.
  induction 1 as [|k rest Hk _ IH]; cbn [ensure_loop]; [reflexivity|].
  cbv zeta. now rewrite Hk.
Qed.

(** It raises at the first date without a table, and names the table. *)
Lemma ensure_loop_missing ds tprefix tabs (pre : list string) k post (st : St) :
  Forall (fun k => str_in (tprefix ++ "_" ++ k) tabs = true) pre ->
  str_in (tprefix ++ "_" ++ k) tabs = false ->
  fst (ensure_loop ds tprefix tabs (pre ++ k :: post) st) =
  inl (RaisedException (missing_table_message ds (tprefix ++ "_" ++ k))).
Proof.
  intros Hpre Hk. induction Hpre as [|k0 pre Hk0 _ IH]; cbn [ensure_loop app]; cbv zeta.
  - rewrite Hk. unfold bind. rewrite log_run. reflexivity.
  - now rewrite Hk0.
Qed.

(** The dates of [daterange]: one for every day from the first to the
    last, in order. *)
Lemma daterange_loop_dates (n : nat) :
  forall fuel k e dates,
    (e - k + 1 = Z.of_nat n)%Z -> (n < fuel)%nat -> (e < max_ordinal)%Z ->
    daterange_loop fuel k e dates = Some (inr (dates ++ map ymd_string (days_from k n))).
Proof.
  induction n as [|n IH]; intros fuel k e dates Hn Hf He.
  - destruct fuel as [|fuel]; [lia|]. simpl.
    destruct (k <=? e)%Z eqn:Ek; [apply Z.leb_le in Ek; lia|].
    now rewrite app_nil_r.
  - destruct fuel as [|fuel]; [lia|]. simpl.
    destruct (k <=? e)%Z eqn:Ek; [|apply Z.leb_gt in Ek; lia].
    destruct (max_ordinal <? k + 1)%Z eqn:Em; [apply Z.ltb_lt in Em; lia|].
    rewrite (IH fuel (k + 1)%Z e) by lia. now rewrite <- app_assoc.
Qed.

Lemma daterange_dates (s e : Z) :
  (s <= e + 1)%Z -> (e < max_ordinal)%Z ->
  daterange s e = inr (map ymd_string (days_from s (Z.to_nat (e - s + 1)))).
Proof.
  intros Hs He. unfold daterange.
  rewrite (daterange_loop_dates (Z.to_nat (e - s + 1))) by lia. reflexivity.
Qed.

(** C1, as the code has it.  The third phase makes no check of the daily
    tables: from every state, what it asks of the remote engine holds no
    listing of the tables of a dataset, and the first thing it asks is the
    load of pc_last_event.  The check is a method of its own that
    no phase calls.  Called for a range of dates that parse, it lists the
    tables of the daily dataset and goes through every day of the range: it
    returns when each day has its table, and at the first day without one
    it raises an exception that names the missing table and the dataset. *)
Theorem third_phase_makes_no_daily_table_check (dsuffix tprefix : string) (st : St)
  (s e : Z) :
  d2dt (start_date (fst st)) = inr s ->
  d2dt (end_date (fst st)) = inr e ->
  (s <= e + 1)%Z -> (e < max_ordinal)%Z ->
  let ds := (dataset (fst st) ++ "_" ++ dsuffix)%string in
  let tabs := table_ids ds (snd st) in
  let dates := map ymd_string (days_from s (Z.to_nat (e - s + 1))) in
  (forall utc,
      no_table_listing st (snd (compute_third_phase utc st)) /\
      exists sql force,
        first_call (compute_third_phase utc) st
        = Some (CallGetBqTable (dataset (fst st)) "pc_last_event" sql "username" force)) /\
  (Forall (fun k => str_in (tprefix ++ "_" ++ k) tabs = true) dates ->
   fst (ensure_all_daily_tables_loaded dsuffix tprefix st) = inr tt) /\
  (forall pre k post,
      dates = pre ++ k :: post ->
      Forall (fun k => str_in (tprefix ++ "_" ++ k) tabs = true) pre ->
      str_in (tprefix ++ "_" ++ k) tabs = false ->
      fst (ensure_all_daily_tables_loaded dsuffix tprefix st) =
      inl (RaisedException (missing_table_message ds (tprefix ++ "_" ++ k)))).
Proof.
  intros Hs He Hse Hmax ds tabs dates.
  assert (Hrun : ensure_all_daily_tables_loaded dsuffix tprefix st =
                 ensure_loop ds tprefix tabs dates
                   (fst st, add_trace (CallGetTables ds) (snd st))).
  { unfold ensure_all_daily_tables_loaded.
    rewrite (bind_step _ _ _ _ _ (eq_refl : get_self st = (inr (fst st), st))).
    rewrite (bind_step _ _ _ _ _ (get_tables_run _ _)).
    unfold bind, lift. simpl. rewrite Hs, He, (daterange_dates s e Hse Hmax). reflexivity. }
  split; [|split].
  - intros utc. split; [apply compute_third_phase_no_listing|].
    rewrite third_phase_first_call. eauto.
  - intros Hall. rewrite Hrun, ensure_loop_complete by exact Hall. reflexivity.
  - intros pre k post Hd Hpre Hk. rewrite Hrun, Hd. now apply ensure_loop_missing.
Qed.

(** The same on the sample dataset, where the daily log table of
    2012-09-06 is missing from a range of 2012-09-05 to 2012-09-07. *)
Lemma third_phase_makes_no_daily_table_check_witness :
  (forall utc,
      no_table_listing ex_st_alice (snd (compute_third_phase utc ex_st_alice)) /\
      exists sql force,
        first_call (compute_third_phase utc) ex_st_alice
        = Some (CallGetBqTable "ds" "pc_last_event" sql "username" force)) /\
  fst (ensure_all_daily_tables_loaded "logs" "tracklog" ex_st_alice) =
    inl (RaisedException
           "Oops, missing needed table tracklog_20120906 from database ds_logs").
Proof.
  destruct (third_phase_makes_no_daily_table_check "logs" "tracklog" ex_st_alice
              734751 734753 eq_refl eq_refl) as [H1 [_ H3]]; [lia | reflexivity |].
  split; [exact H1|].
  apply (H3 ["20120905"] "20120906" ["20120907"]); [reflexivity | | reflexivity].
  repeat constructor.
Defined.

(** C1 as stated fails: on the sample dataset, where the daily log table of
    2012-09-06 is missing from the range of the object, the third phase
    raises nothing: it submits its three aggregate queries and returns. *)
Lemma third_phase_runs_despite_missing_daily_table :
  start_date (fst ex_st_alice) = "2012-09-05" /\
  end_date (fst ex_st_alice) = "2012-09-07" /\
  table_ids "ds_logs" (snd ex_st_alice) = ["tracklog_20120905"; "tracklog_20120907"] /\
  fst (compute_third_phase ex_utc ex_st_alice) = inr tt /\
  bq_trace (snd (snd (compute_third_phase ex_utc ex_st_alice))) =
    [ CallGetBqTable "ds" "pc_last_event" (SqlLastEvent "ds" "2012-09-05" "2012-09-07")
        "username" (Some false);
      QuerySubmitted "ds" "pc_last_event" (SqlLastEvent "ds" "2012-09-05" "2012-09-07");
      CallGetBqTable "ds" "pc_day_totals"
        (SqlDayTotals "MITx/6.SFMx/1T2014" "ds" "2012-09-05" "2012-09-07")
        "username" (Some false);
      QuerySubmitted "ds" "pc_day_totals"
        (SqlDayTotals "MITx/6.SFMx/1T2014" "ds" "2012-09-05" "2012-09-07");
      CallGetBqTable "ds" "pc_modal_ip" (SqlModalIp "ds" "2012-09-05" "2012-09-07")
        "username" (Some false);
      QuerySubmitted "ds" "pc_modal_ip" (SqlModalIp "ds" "2012-09-05" "2012-09-07") ].
Proof. repeat split; vm_compute; reflexivity. Qed.

(** ** The force flag of the loads *)

(** C3.  Five of the six loads hand the force flag of the object to the
    remote loader; [load_nchapters] calls it without the flag.  So with the
    flag set and both tables materialized, loading pc_forum submits a fresh
    query, and loading pc_nchapters reuses the table and submits none. *)
Theorem load_nchapters_drops_force_flag :
  (forall st, exists ds sql key,
      first_call load_nchapters st = Some (CallGetBqTable ds "pc_nchapters" sql key None)) /\
  (forall st,
      let force := Some (force_recompute_from_logs (fst st)) in
      (exists ds sql key,
          first_call load_pc_forum st = Some (CallGetBqTable ds "pc_forum" sql key force)) /\
      (exists ds sql key,
          first_call load_pc_day_totals st
          = Some (CallGetBqTable ds "pc_day_totals" sql key force)) /\
      (exists ds sql key,
          first_call load_last_event st
          = Some (CallGetBqTable ds "pc_last_event" sql key force)) /\
      (exists ds sql key,
          first_call load_modal_ip st = Some (CallGetBqTable ds "pc_modal_ip" sql key force)) /\
      (exists ds sql key,
          first_call load_pc_geoip st = Some (CallGetBqTable ds "pc_geoip" sql key force))) /\
  force_recompute_from_logs ex_self_force = true /\
  bq_trace (snd (snd (load_pc_forum (ex_self_force, ex_world_stored)))) =
    [ CallGetBqTable "ds" "pc_forum" (SqlForum "ds") "user_id" (Some true);
      QuerySubmitted "ds" "pc_forum" (SqlForum "ds") ] /\
  bq_trace (snd (snd (load_nchapters (ex_self_force, ex_world_stored)))) =
    [ CallGetBqTable "ds" "pc_nchapters" (SqlNChapters "ds") "user_id" None;
      TableReused "ds" "pc_nchapters" ].
Proof.
  split; [|split; [|split; [|split]]].
  - intros st. rewrite load_nchapters_first_call. eauto.
  - intros st. simpl.
    rewrite load_pc_forum_first_call, load_pc_day_totals_first_call,
      load_last_event_first_call, load_modal_ip_first_call, load_pc_geoip_first_call.
    repeat split; eauto.
  - reflexivity.
  - vm_compute. reflexivity.
  - vm_compute. reflexivity.
Qed.

(** ** Loading a line-delimited source *)

Lemma load_json_loop_run (fn key : string) (rows : list record) :
  forall cnt data (st : St),
    load_json_loop fn key (map Some rows) cnt data st =
    (inr (keyed_rows key rows data),
     (fst st, add_stdout_lines (missing_key_lines fn key rows cnt) (snd st))).
Proof.
  induction rows as [|jd rest IH]; intros cnt data [s w]; simpl.
  - reflexivity.
  - destruct (rget key jd) as [the_id|].
    + apply IH.
    + unfold bind, modify_world. simpl. apply IH.
Qed.

Lemma openfile_run (fn : string) (st : St) (f : file) :
  od_get path_eqb (course_dir (fst st), fn) (files (snd st)) = Some f ->
  openfile fn st = (inr f, st).
Proof.
  intros Hf. cbv [openfile bind get_self get_world ret]. now rewrite Hf.
Qed.





(** ** The combined standard deviation *)




(** ** The date bounds of a run *)

#[global] Instance same_dates_pre : RelationClasses.PreOrder same_dates.
Proof.
  split; unfold same_dates.
  - intros st. now split.
  - intros a b c [H1 H2] [H3 H4]. split; congruence.
Qed.

Ltac same_dates_prim := intros; split; reflexivity.

Lemma for_each_pcent_same_dates (body : nat -> Comp (record * St) unit) :
  (forall i, body_steps same_dates (body i)) ->
  steps same_dates (for_each_pcent body).
Proof.
  intros Hbody. unfold for_each_pcent.
  apply (steps_bind same_dates); [apply (steps_get_self same_dates)|].
  intros self. apply (steps_for_pctab same_dates).
  - intros i r st. apply (Hbody i (r, st)).
  - intros st t. now split.
Qed.

Lemma log_same_dates (msg : logent) : steps same_dates (log msg).
Proof. unfold log. steps_tac ltac:(same_dates_prim). Qed.

Lemma openfile_same_dates fn : steps same_dates (openfile fn).
Proof. unfold openfile. steps_tac ltac:(same_dates_prim). Qed.

Lemma write_file_same_dates fn f : steps same_dates (write_file fn f).
Proof. unfold write_file. steps_tac ltac:(same_dates_prim). Qed.

Lemma get_bq_table_same_dates ds tn sql key force :
  steps same_dates (get_bq_table ds tn sql key force).
Proof. unfold get_bq_table. steps_tac ltac:(same_dates_prim). Qed.

Lemma getattr_same_dates tn : steps same_dates (getattr tn).
Proof. unfold getattr. steps_tac ltac:(same_dates_prim). Qed.

Lemma setattr_same_dates tn t : steps same_dates (setattr tn t).
Proof. unfold setattr. steps_tac ltac:(same_dates_prim). Qed.

#[global] Hint Resolve log_same_dates openfile_same_dates write_file_same_dates
  get_bq_table_same_dates getattr_same_dates setattr_same_dates : frames.

Lemma load_json_loop_same_dates fn key lines :
  forall cnt data, steps same_dates (load_json_loop fn key lines cnt data).
Proof.
  induction lines as [|line rest IH]; intros cnt data; simpl;
    steps_tac ltac:(same_dates_prim).
Qed.

#[global] Hint Resolve load_json_loop_same_dates : frames.

Lemma load_json_same_dates fn key : steps same_dates (load_json fn key).
Proof. unfold load_json. steps_tac ltac:(same_dates_prim). Qed.

Lemma getonefile_same_dates fns : steps same_dates (getonefile fns).
Proof. induction fns as [|fn rest IH]; simpl; steps_tac ltac:(same_dates_prim). Qed.

#[global] Hint Resolve load_json_same_dates getonefile_same_dates : frames.

Lemma compute_first_phase_same_dates : steps same_dates compute_first_phase.
Proof. unfold compute_first_phase. steps_tac ltac:(same_dates_prim). Qed.

Lemma get_nchapters_same_dates : steps same_dates get_nchapters_from_course_structure.
Proof. unfold get_nchapters_from_course_structure. steps_tac ltac:(same_dates_prim). Qed.

Lemma load_nchapters_same_dates : steps same_dates load_nchapters.
Proof. unfold load_nchapters, log_loading. steps_tac ltac:(same_dates_prim). Qed.

Lemma load_pc_forum_same_dates : steps same_dates load_pc_forum.
Proof. unfold load_pc_forum, log_loading. steps_tac ltac:(same_dates_prim). Qed.

Lemma load_last_event_same_dates : steps same_dates load_last_event.
Proof. unfold load_last_event, log_loading. steps_tac ltac:(same_dates_prim). Qed.

Lemma load_pc_day_totals_same_dates : steps same_dates load_pc_day_totals.
Proof. unfold load_pc_day_totals, log_loading. steps_tac ltac:(same_dates_prim). Qed.

Lemma load_modal_ip_same_dates : steps same_dates load_modal_ip.
Proof. unfold load_modal_ip, log_loading. steps_tac ltac:(same_dates_prim). Qed.

Lemma load_pc_geoip_same_dates : steps same_dates load_pc_geoip.
Proof. unfold load_pc_geoip, log_loading. steps_tac ltac:(same_dates_prim). Qed.

#[global] Hint Resolve compute_first_phase_same_dates get_nchapters_same_dates
  load_nchapters_same_dates load_pc_forum_same_dates load_last_event_same_dates
  load_pc_day_totals_same_dates load_modal_ip_same_dates load_pc_geoip_same_dates
  : frames.

Lemma on_record_loop_same_dates (b : Comp record unit) :
  steps same_dates (for_each_pcent (fun _ => on_record b)).
Proof.
  apply for_each_pcent_same_dates. intros i. apply (body_steps_on_record same_dates).
Qed.

Lemma third_phase_loop_same_dates utc a b c :
  steps same_dates (for_each_pcent (fun _ => third_phase_body utc a b c)).
Proof.
  apply for_each_pcent_same_dates. intros i. unfold third_phase_body. body_steps_tac.
Qed.

#[global] Hint Resolve on_record_loop_same_dates third_phase_loop_same_dates : frames.

Lemma compute_second_phase_same_dates : steps same_dates compute_second_phase.
Proof. unfold compute_second_phase. steps_tac ltac:(same_dates_prim). Qed.

Lemma compute_third_phase_same_dates utc : steps same_dates (compute_third_phase utc).
Proof. unfold compute_third_phase. steps_tac ltac:(same_dates_prim). Qed.

Lemma compute_fourth_phase_same_dates : steps same_dates compute_fourth_phase.
Proof. unfold compute_fourth_phase. steps_tac ltac:(same_dates_prim). Qed.

Lemma append_json_line_same_dates fn line : steps same_dates (append_json_line fn line).
Proof. unfold append_json_line. steps_tac ltac:(same_dates_prim). Qed.

Lemma append_csv_row_same_dates fn row : steps same_dates (append_csv_row fn row).
Proof. unfold append_csv_row. steps_tac ltac:(same_dates_prim). Qed.

#[global] Hint Resolve compute_second_phase_same_dates compute_third_phase_same_dates
  compute_fourth_phase_same_dates append_json_line_same_dates
  append_csv_row_same_dates : frames.

Lemma output_json_loop_same_dates utf8 cs ofnj ds :
  steps same_dates (for_each_pcent (output_json_body utf8 cs ofnj ds)).
Proof.
  apply for_each_pcent_same_dates. intros i. unfold output_json_body.
  apply (body_steps_bind same_dates); [apply (body_steps_on_record same_dates)|].
  intros _. apply (body_steps_bind same_dates); [apply (body_steps_on_record same_dates)|].
  intros pcent. apply (body_steps_bind same_dates).
  - intros rs. unfold lift. simpl. now split.
  - intros line. apply (body_steps_on_self same_dates). auto with frames.
Qed.

Lemma output_csv_loop_same_dates ofn fieldnames todo :
  steps same_dates (output_csv_loop ofn fieldnames todo).
Proof.
  induction todo as [|[key pcent] rest IH]; simpl; steps_tac ltac:(same_dates_prim).
Qed.

#[global] Hint Resolve output_json_loop_same_dates output_csv_loop_same_dates : frames.

Lemma output_table_same_dates utf8 cs : steps same_dates (output_table utf8 cs).
Proof. unfold output_table. steps_tac ltac:(same_dates_prim). Qed.

Lemma upload_to_gs_same_dates fn : steps same_dates (upload_to_gs fn).
Proof. unfold upload_to_gs. steps_tac ltac:(same_dates_prim). Qed.

#[global] Hint Resolve output_table_same_dates upload_to_gs_same_dates : frames.

Lemma upload_to_bigquery_same_dates : steps same_dates upload_to_bigquery.
Proof. unfold upload_to_bigquery. steps_tac ltac:(same_dates_prim). Qed.

#[global] Hint Resolve upload_to_bigquery_same_dates : frames.

Lemma make_all_same_dates utc utf8 cs : steps same_dates (make_all utc utf8 cs).
Proof. unfold make_all. steps_tac ltac:(same_dates_prim). Qed.

Lemma reload_table_same_dates : steps same_dates reload_table.
Proof. unfold reload_table. steps_tac ltac:(same_dates_prim). Qed.

#[global] Hint Resolve reload_table_same_dates : frames.

Lemma redo_second_phase_same_dates utf8 cs : steps same_dates (redo_second_phase utf8 cs).
Proof. unfold redo_second_phase. steps_tac ltac:(same_dates_prim). Qed.

Lemma with_self_inv {A} (self self' : Self) (c : M A) (w w' : World) (a : A) :
  with_self self c w = (inr (a, self'), w') -> c (self, w) = (inr a, (self', w')).
Proof.
  unfold with_self. destruct (c (self, w)) as [[e|a0] [s1 w1]]; [discriminate|].
  intros H. now injection H as -> -> ->.
Qed.

Section Dates.

Variable utc_time_string : pyval -> option string.
Variable utf8_decodable : string -> bool.
Variable check_schema : Z -> schema -> Comp record unit.
Variable find_course_sql_dir : string -> option string -> option string -> string.
Variable gs_path_from_course_id : string -> string -> string.
Variable course_id2dataset : string -> string.

(** The constructor stores the bounds it is given. *)
Lemma PersonCourse_init_dates course_id root date gsbucket force start_ end_
  (w w' : World) (pc : Self) :
  PersonCourse_init find_course_sql_dir gs_path_from_course_id course_id2dataset
    course_id root date gsbucket force start_ end_ w = (inr pc, w') ->
  start_date pc = start_ /\ end_date pc = end_.
Proof.
  unfold PersonCourse_init. intros H.
  apply bind_inr in H. destruct H as [w0 [w1 [_ H]]].
  destruct (negb (str_in _ (directories w0))).
  - apply bind_inr in H. destruct H as [[] [w2 [_ H]]]. discriminate.
  - apply bind_inr in H. destruct H as [[[] s'] [w2 [Hr H]]].
    unfold ret in H. injection H as <- <-. simpl.
    apply with_self_inv in Hr.
    match type of Hr with
    | ?c ?st = _ => assert (Hs : steps same_dates c)
    end.
    { steps_tac ltac:(same_dates_prim). }
    match type of Hr with
    | ?c ?st = _ => specialize (Hs st)
    end.
    rewrite Hr in Hs. exact Hs.
Qed.

(** The object [make_person_course] returns has the bounds it was called
    with, or its own defaults for those left out. *)
Lemma make_person_course_dates course_id basedir datedir options gsbucket
  (start end_ : option string) force (w w' : World) (pc : Self) :
  make_person_course utc_time_string utf8_decodable check_schema find_course_sql_dir
    gs_path_from_course_id course_id2dataset
    course_id basedir datedir options gsbucket start end_ force w = (inr pc, w') ->
  start_date pc = match start with Some s => s | None => default_start end /\
  end_date pc = match end_ with Some s => s | None => default_end end.
Proof.
  unfold make_person_course. intros H.
  apply bind_inr in H. destruct H as [[] [w1 [_ H]]].
  apply bind_inr in H. destruct H as [[] [w2 [_ H]]].
  apply bind_inr in H. destruct H as [[] [w3 [_ H]]].
  apply bind_inr in H. destruct H as [pc0 [w4 [Hinit H]]].
  apply bind_inr in H. destruct H as [[[] pc1] [w5 [Hrun H]]].
  apply bind_inr in H. destruct H as [[] [w6 [_ H]]].
  apply bind_inr in H. destruct H as [[] [w7 [_ H]]].
  unfold ret in H. injection H as <- <-. simpl.
  apply PersonCourse_init_dates in Hinit. destruct Hinit as [<- <-].
  apply with_self_inv in Hrun.
  assert (Hs : same_dates (pc0, w4) (pc1, w5)).
  { destruct (is_substring "redo2" options).
    - pose proof (redo_second_phase_same_dates utf8_decodable check_schema (pc0, w4)) as Hs.
      now rewrite Hrun in Hs.
    - pose proof (make_all_same_dates utc_time_string utf8_decodable check_schema (pc0, w4))
        as Hs.
      now rewrite Hrun in Hs. }
  exact Hs.
Qed.

(** C9, as the code has it.  When the options of the command give no
    start date and no end date, the object on which the pipeline of a
    course has run has start_date 2012-09-05 and end_date 2014-09-21. *)
Theorem person_course_default_dates (cfg : Config) (args : Args) (course : string)
  (w w' : World) (pc : Self) :
  arg_start_date args = None ->
  arg_end_date args = None ->
  person_course_call utc_time_string utf8_decodable check_schema find_course_sql_dir
    gs_path_from_course_id course_id2dataset cfg args course w = (inr pc, w') ->
  start_date pc = "2012-09-05" /\ end_date pc = "2014-09-21".
Proof.
  intros Hs He H. unfold person_course_call in H. rewrite Hs, He in H.
  apply make_person_course_dates in H. exact H.
Qed.

End Dates.

(** C9 as stated fails: run for one course with no date option, on a
    course directory and a remote engine on which the whole pipeline goes
    through, the command ends with an object whose end_date is 2014-09-21,
    not 2013-09-21, and the queries it submitted carry that bound. *)
Lemma person_course_runs_until_2014 :
  exists pc w',
    person_course_call ex_utc ex_utf8 ex_check_schema ex_find_dir ex_gs_path ex_dataset
      ex_config ex_args "MITx/6.SFMx/1T2014" ex_world_plain = (inr pc, w') /\
    start_date pc = "2012-09-05" /\
    end_date pc = "2014-09-21" /\
    end_date pc <> "2013-09-21" /\
    In (QuerySubmitted "ds" "pc_last_event" (SqlLastEvent "ds" "2012-09-05" "2014-09-21"))
      (bq_trace w').
Proof.
  eexists. eexists. split; [vm_compute; reflexivity|].
  split; [reflexivity|]. split; [reflexivity|]. split; [discriminate|].
  vm_compute. tauto.
Qed.

(** The same run, through the theorem. *)
Lemma person_course_default_dates_witness :
  exists pc w',
    person_course_call ex_utc ex_utf8 ex_check_schema ex_find_dir ex_gs_path ex_dataset
      ex_config ex_args "MITx/6.SFMx/1T2014" ex_world_plain = (inr pc, w') /\
    start_date pc = "2012-09-05" /\ end_date pc = "2014-09-21".
Proof.
  eexists. eexists. split; [vm_compute; reflexivity|].
  apply (person_course_default_dates ex_utc ex_utf8 ex_check_schema ex_find_dir ex_gs_path
           ex_dataset ex_config ex_args "MITx/6.SFMx/1T2014" ex_world_plain
           (snd (person_course_call ex_utc ex_utf8 ex_check_schema ex_find_dir ex_gs_path
                   ex_dataset ex_config ex_args "MITx/6.SFMx/1T2014" ex_world_plain)));
    [reflexivity | reflexivity | vm_compute; reflexivity].
Defined.

(** ** Publishing *)

Lemma path_eqb_refl (a : string * string) : path_eqb a a = true.
Proof. unfold path_eqb. now rewrite !String.eqb_refl. Qed.

Lemma path_eqb_sym (a b : string * string) : path_eqb a b = path_eqb b a.
Proof. unfold path_eqb. now rewrite (String.eqb_sym (fst a)), (String.eqb_sym (snd a)). Qed.

Lemma path_eqb_trans (a b c : string * string) :
  path_eqb a b = true -> path_eqb b c = true -> path_eqb a c = true.
Proof.
  unfold path_eqb. rewrite !andb_true_iff, !String.eqb_eq.
  intros [H1 H2] [H3 H4]. split; congruence.
Qed.

Lemma files_get_set_same (k : string * string) (f : file) (fs : list ((string * string) * file)) :
  od_get path_eqb k (od_set path_eqb k f fs) = Some f.
Proof.
  apply od_get_set_same;
    [apply path_eqb_sym | apply path_eqb_trans | apply path_eqb_refl].
Qed.

Lemma files_get_set_other (k k' : string * string) (f : file)
  (fs : list ((string * string) * file)) :
  path_eqb k k' = false -> od_get path_eqb k' (od_set path_eqb k f fs) = od_get path_eqb k' fs.
Proof. apply od_get_set_other; [apply path_eqb_sym | apply path_eqb_trans]. Qed.

Lemma json_csv_paths (dir : string) :
  path_eqb (dir, "person_course.json.gz") (dir, "person_course.csv.gz") = false /\
  path_eqb (dir, "person_course.csv.gz") (dir, "person_course.json.gz") = false.
Proof. unfold path_eqb. simpl. now rewrite String.eqb_refl. Qed.

Lemma write_file_run (fn : string) (f : file) (st : St) :
  write_file fn f st =
  (inr tt, (fst st, set_files (od_set path_eqb (course_dir (fst st), fn) f (files (snd st)))
                      (snd st))).
Proof. reflexivity. Qed.

Lemma log_out_state dir tab jl rows (msg : logent) (st : St) :
  out_state dir tab jl rows st -> out_state dir tab jl rows (snd (log msg st)).
Proof.
  intros H. rewrite log_run. unfold out_state in *. simpl.
  destruct (verbose (fst st)); exact H.
Qed.

Lemma append_json_line_run dir tab jl rows (line : record) (st : St) :
  out_state dir tab jl rows st ->
  exists st',
    append_json_line "person_course.json.gz" line st = (inr tt, st') /\
    out_state dir tab (jl ++ [Some line]) rows st'.
Proof.
  intros [Hd [Ht [Hj Hc]]]. unfold append_json_line.
  rewrite <- Hd in Hj, Hc.
  rewrite (bind_step _ _ _ _ _ (openfile_run _ st _ Hj)), write_file_run.
  eexists. split; [reflexivity|]. unfold out_state. simpl.
  rewrite <- Hd, files_get_set_same, files_get_set_other by apply json_csv_paths.
  auto.
Qed.

Lemma append_csv_row_run dir tab jl rows (row : list string) (st : St) :
  out_state dir tab jl rows st ->
  exists st',
    append_csv_row "person_course.csv.gz" row st = (inr tt, st') /\
    out_state dir tab jl (rows ++ [row]) st'.
Proof.
  intros [Hd [Ht [Hj Hc]]]. unfold append_csv_row.
  rewrite <- Hd in Hj, Hc.
  rewrite (bind_step _ _ _ _ _ (openfile_run _ st _ Hc)), write_file_run.
  eexists. split; [reflexivity|]. unfold out_state. simpl.
  rewrite <- Hd, files_get_set_same, files_get_set_other by apply json_csv_paths.
  auto.
Qed.

Lemma csv_cells_length (fieldnames : list string) (rowdict : record) (row : list string) :
  csv_cells fieldnames rowdict = inr row -> List.length row = List.length fieldnames.
Proof.
  revert row. induction fieldnames as [|f rest IH]; intros row; simpl.
  - intros H. now injection H as <-.
  - destruct (csv_cell (rget f rowdict)) as [e|c]; [discriminate|].
    destruct (csv_cells rest rowdict) as [e|cs]; [discriminate|].
    intros H. injection H as <-. simpl. now rewrite (IH cs eq_refl).
Qed.

Lemma dictwriter_row_length (fieldnames : list string) (rowdict : record) (row : list string) :
  dictwriter_row fieldnames rowdict = inr row -> List.length row = List.length fieldnames.
Proof.
  unfold dictwriter_row. destruct (forallb _ rowdict); [|discriminate].
  apply csv_cells_length.
Qed.

Lemma rget_some_key (f : string) (v : pyval) (r : record) :
  rget f r = Some v -> In f (map fst r).
Proof.
  unfold rget. induction r as [|[k x] rest IH]; simpl; [discriminate|].
  destruct (String.eqb k f) eqn:E.
  - apply String.eqb_eq in E. auto.
  - auto.
Qed.

Lemma od_get_none_not_in {V} (f : string) (d : list (string * V)) :
  od_get String.eqb f d = None -> str_in f (map fst d) = false.
Proof.
  unfold str_in. induction d as [|[k x] rest IH]; simpl; [reflexivity|].
  rewrite (String.eqb_sym f k). destruct (String.eqb k f); [discriminate|].
  exact IH.
Qed.

(** A record with a field outside the field names is refused by the
    writer of the flattened file. *)
Lemma dictwriter_row_extra (ds : schema) (r : record) (f : string) (v : pyval) :
  rget f r = Some v -> od_get String.eqb f ds = None ->
  dictwriter_row (map fst ds) r = inl (ValueError "dict contains fields not in fieldnames").
Proof.
  intros Hr Hd. unfold dictwriter_row.
  apply rget_some_key in Hr. apply od_get_none_not_in in Hd.
  destruct (forallb (fun ent => str_in (fst ent) (map fst ds)) r) eqn:E; [|reflexivity].
  rewrite forallb_forall in E. apply in_map_iff in Hr. destruct Hr as [[k x] [Hk Hin]].
  simpl in Hk. subst k. specialize (E _ Hin). simpl in E. congruence.
Qed.

Section Publish.

Variable utf8_decodable : string -> bool.
Variable check_schema : Z -> schema -> Comp record unit.

(** What the specification says of [check_schema]: it does not raise on a
    record, and it leaves the fields that the schema does not declare as
    they are. *)
Hypothesis check_schema_returns :
  forall cnt ds r, fst (check_schema cnt ds r) = inr tt.
Hypothesis check_schema_passes_through :
  forall cnt ds r g,
    od_get String.eqb g ds = None -> rget g (snd (check_schema cnt ds r)) = rget g r.

Variable dir : string.
Variable ds : schema.

Lemma coerce_from_length (i : nat) (todo : table) :
  List.length (coerce_from check_schema ds i todo) = List.length todo.
Proof.
  revert i. induction todo as [|[k r] rest IH]; intros i; simpl; [reflexivity|].
  now rewrite IH.
Qed.

Lemma coerce_from_nth (todo : table) :
  forall i j key pcent,
    nth_error todo j = Some (key, pcent) ->
    nth_error (coerce_from check_schema ds i todo) j
    = Some (key, snd (check_schema (Z.of_nat (i + j) + 1)%Z ds pcent)).
Proof.
  induction todo as [|[k r] rest IH]; intros i j key pcent H.
  - destruct j; discriminate.
  - destruct j as [|j]; simpl in *.
    + injection H as -> ->. now rewrite Nat.add_0_r.
    + rewrite (IH (S i) j key pcent H).
      replace (S i + j)%nat with (i + S j)%nat by lia. reflexivity.
Qed.

(** The first loop writes one line per record, the record as
    [check_schema] left it. *)
Lemma output_json_loop_run (rows : list (list string)) (todo : table) :
  forall (done : table) (jl : list (option record)) (st : St),
    out_state dir (done ++ todo) jl rows st ->
    (forall j key pcent,
        nth_error todo j = Some (key, pcent) ->
        json_dumps utf8_decodable
          (snd (check_schema (Z.of_nat (List.length done + j) + 1)%Z ds pcent))
        = inr (snd (check_schema (Z.of_nat (List.length done + j) + 1)%Z ds pcent))) ->
    exists st',
      for_pctab (output_json_body utf8_decodable check_schema "person_course.json.gz" ds)
        (List.length done) todo st = (inr tt, st') /\
      out_state dir (done ++ coerce_from check_schema ds (List.length done) todo)
        (jl ++ map (fun ent => Some (snd ent))
                 (coerce_from check_schema ds (List.length done) todo))
        rows st'.
Proof.
  induction todo as [|[key pcent] rest IH]; intros done jl st Hst Hd.
  - exists st. simpl. rewrite !app_nil_r in *. now split.
  - simpl.
    pose proof (check_schema_returns (Z.of_nat (List.length done) + 1)%Z ds pcent) as Hok.
    pose proof (Hd 0%nat key pcent eq_refl) as Hdump. rewrite Nat.add_0_r in Hdump.
    unfold output_json_body at 1. unfold bind at 1. unfold on_record at 1. simpl.
    destruct (check_schema (Z.of_nat (List.length done) + 1)%Z ds pcent) as [res pcent'].
    simpl in Hok, Hdump. subst res. simpl.
    unfold bind at 1. unfold on_record at 1, get_state at 1. simpl.
    unfold bind at 1. unfold lift at 1. rewrite Hdump.
    unfold on_self.
    destruct (append_json_line_run dir (done ++ (key, pcent) :: rest) jl rows pcent' st Hst)
      as [st1 [Hrun Hst1]].
    simpl. rewrite Hrun. simpl.
    assert (Hst2 : out_state dir ((done ++ [(key, pcent')]) ++ rest) (jl ++ [Some pcent']) rows
                     (set_pctab (update_nth (List.length done) (key, pcent') (pctab (fst st1)))
                        (fst st1), snd st1)).
    { destruct Hst1 as [H1 [H2 [H3 H4]]]. unfold out_state. simpl.
      rewrite H2, update_nth_app, <- app_assoc. auto. }
    rewrite <- (length_snoc done (key, pcent')).
    destruct (IH (done ++ [(key, pcent')]) (jl ++ [Some pcent']) _ Hst2) as [st' [Hloop Hst']].
    { intros j k r Hj. rewrite length_snoc.
      replace (S (List.length done) + j)%nat with (List.length done + S j)%nat by lia.
      apply (Hd (S j) k r Hj). }
    exists st'. split; [exact Hloop|].
    rewrite <- !app_assoc in Hst'. exact Hst'.
Qed.

(** The rows of the flattened file have one cell per field name, and the
    second loop raises at the first record the writer refuses, at the
    latest. *)
Lemma output_csv_loop_run (tab : table) (jl : list (option record)) (todo : table) :
  forall (rows : list (list string)) (st : St),
    out_state dir tab jl rows st ->
    exists rows',
      out_state dir tab jl (rows ++ rows')
        (snd (output_csv_loop "person_course.csv.gz" (map fst ds) todo st)) /\
      Forall (fun row => List.length row = List.length ds) rows' /\
      forall j key pcent e,
        nth_error todo j = Some (key, pcent) ->
        dictwriter_row (map fst ds) pcent = inl e ->
        (exists e', fst (output_csv_loop "person_course.csv.gz" (map fst ds) todo st) = inl e')
        /\ (List.length rows' <= j)%nat.
Proof.
  induction todo as [|[key pcent] rest IH]; intros rows st Hst; simpl.
  - exists []. rewrite app_nil_r. split; [exact Hst|]. split; [constructor|].
    intros j k r e Hj. destruct j; discriminate.
  - destruct (dictwriter_row (map fst ds) pcent) as [e|row] eqn:Erow.
    + exists []. rewrite app_nil_r. unfold bind. rewrite log_run. simpl.
      split; [|split; [constructor|]].
      * pose proof (log_out_state dir tab jl rows (LogCsvError pcent) st Hst) as Hl.
        now rewrite log_run in Hl.
      * intros j k r e0 Hj He0. split; [now exists e | simpl; lia].
    + destruct (append_csv_row_run dir tab jl rows row st Hst) as [st1 [Hrun Hst1]].
      unfold bind. rewrite Hrun.
      destruct (IH (rows ++ [row]) st1 Hst1) as [rows' [Hout [Hlen Hraise]]].
      exists (row :: rows'). rewrite <- app_assoc in Hout. split; [exact Hout|].
      split.
      * constructor; [|exact Hlen].
        rewrite (dictwriter_row_length _ _ _ Erow). apply length_map.
      * intros j k r e0 Hj He0. destruct j as [|j]; simpl in Hj.
        -- injection Hj as <- <-. rewrite Erow in He0. discriminate.
        -- destruct (Hraise j k r e0 Hj He0) as [Hex Hle]. split; [exact Hex | simpl; lia].
Qed.

End Publish.

(** C2, as the code has it.  Let [check_schema] be as the specification
    says (it returns on every record and leaves undeclared fields as they
    are), and let every record serialize.  If a record of the store has a
    field that the schema does not declare, the field is in the line
    written for that record to the structured file, with its value; the
    header of the flattened file is the list of the field names of the
    schema; and publishing fails: the writer of the flattened file refuses
    the record, after all the structured lines were written. *)
Theorem output_table_undeclared_field (utf8 : string -> bool)
  (cs : Z -> schema -> Comp record unit) (st : St) (i : nat) (key : pyval)
  (pcent : record) (f : string) (v : pyval) :
  (forall cnt ds r, fst (cs cnt ds r) = inr tt) ->
  (forall cnt ds r g,
      od_get String.eqb g ds = None -> rget g (snd (cs cnt ds r)) = rget g r) ->
  (forall j k r,
      nth_error (pctab (fst st)) j = Some (k, r) ->
      json_dumps utf8 (snd (cs (Z.of_nat j + 1)%Z (the_dict_schema (fst st)) r))
      = inr (snd (cs (Z.of_nat j + 1)%Z (the_dict_schema (fst st)) r))) ->
  nth_error (pctab (fst st)) i = Some (key, pcent) ->
  rget f pcent = Some v ->
  od_get String.eqb f (the_dict_schema (fst st)) = None ->
  undeclared_field_outcome (output_table utf8 cs st) (course_dir (fst st))
    (the_dict_schema (fst st)) (List.length (pctab (fst st))) i f v.
Proof.
  intros Hret Hpass Hdump Hi Hf Hds.
  set (dir := course_dir (fst st)). set (ds := the_dict_schema (fst st)).
  set (tab := pctab (fst st)).
  unfold output_table.
  rewrite (bind_step _ _ _ _ _ (eq_refl : get_self st = (inr (fst st), st))).
  rewrite (bind_step _ _ _ _ _ (write_file_run _ _ _)).
  rewrite (bind_step _ _ _ _ _ (write_file_run _ _ _)).
  match goal with
  | |- undeclared_field_outcome (bind _ _ ?st2) _ _ _ _ _ _ =>
      assert (H2 : out_state dir tab [] [] st2)
  end.
  { unfold out_state. simpl. fold dir.
    rewrite files_get_set_same.
    rewrite files_get_set_other by apply json_csv_paths.
    rewrite files_get_set_same. auto. }
  destruct (append_csv_row_run dir tab [] [] (map fst (the_dict_schema (fst st))) _ H2)
    as [st3 [Hrun3 H3]].
  rewrite (bind_step _ _ _ _ _ Hrun3).
  pose proof (log_out_state dir tab [] ([] ++ [map fst ds])
                (LogText ("Writing output to person_course.csv.gz and person_course.json.gz"))
                st3 H3) as H4.
  unfold bind at 1. rewrite log_run in *.
  match type of H4 with
  | out_state _ _ _ _ (snd (_, ?x)) => set (st4 := x) in *
  end.
  simpl in H4.
  unfold bind at 1. unfold for_each_pcent at 1.
  rewrite (bind_step _ _ _ _ _ (eq_refl : get_self st4 = (inr (fst st4), st4))).
  assert (Htab4 : pctab (fst st4) = tab) by apply H4.
  rewrite Htab4.
  destruct (output_json_loop_run utf8 cs Hret dir (the_dict_schema (fst st))
              ([] ++ [map fst ds]) tab [] [] st4 H4) as [st5 [Hrun5 H5]].
  { intros j k r Hj. apply (Hdump j k r Hj). }
  simpl in Hrun5. rewrite Hrun5.
  rewrite (bind_step _ _ _ _ _ (eq_refl : get_self st5 = (inr (fst st5), st5))).
  simpl in H5.
  assert (Htab5 : pctab (fst st5) = coerce_from cs ds 0 tab) by apply H5.
  rewrite Htab5.
  destruct (output_csv_loop_run dir ds (coerce_from cs ds 0 tab)
              (map (fun ent => Some (snd ent)) (coerce_from cs ds 0 tab))
              (coerce_from cs ds 0 tab) [map fst ds] st5 H5)
    as [rows' [Hout [Hlen Hraise]]].
  pose proof (coerce_from_nth cs ds tab 0 i key pcent Hi) as Hnth. simpl in Hnth.
  assert (Hf' : rget f (snd (cs (Z.of_nat i + 1)%Z ds pcent)) = Some v).
  { rewrite Hpass by exact Hds. exact Hf. }
  destruct (Hraise i key _ _ Hnth (dictwriter_row_extra ds _ f v Hf' Hds)) as [Hex Hle].
  destruct Hout as [_ [_ [Hj Hc]]].
  split; [exact Hex|]. split.
  - exists (map (fun ent => Some (snd ent)) (coerce_from cs ds 0 tab)),
      (snd (cs (Z.of_nat i + 1)%Z ds pcent)).
    split; [exact Hj|]. split; [now rewrite length_map, coerce_from_length|].
    split; [|exact Hf'].
    rewrite nth_error_map, Hnth. reflexivity.
  - exists rows'. split; [exact Hc|]. split; [exact Hlen | exact Hle].
Qed.

Lemma json_dumps_ex (r : record) : json_dumps ex_utf8 r = inr r.
Proof.
  unfold json_dumps.
  assert (H : forallb (fun ent : string * pyval =>
                         match snd ent with PStr s => ex_utf8 s | _ => true end) r = true).
  { induction r as [|[k x] rest IH]; simpl; [reflexivity|]. now destruct x. }
  now rewrite H.
Qed.

(** The same on a store whose one record has the undeclared field zip. *)
Lemma output_table_undeclared_field_witness :
  undeclared_field_outcome (output_table ex_utf8 ex_check_schema ex_st_extra) "dir" ex_schema
    1 0 "zip" (PUni "02139").
Proof.
  apply (output_table_undeclared_field ex_utf8 ex_check_schema ex_st_extra 0 (PUni "alice")
           [("username", PUni "alice"); ("zip", PUni "02139")] "zip" (PUni "02139")).
  - reflexivity.
  - reflexivity.
  - intros j k r _. apply json_dumps_ex.
  - reflexivity.
  - reflexivity.
  - reflexivity.
Defined.

Lemma rget_outside_fieldnames (names : list string) (r : record) (f : string) :
  forallb (fun ent => str_in (fst ent) names) r = true ->
  str_in f names = false ->
  rget f r = None.
Proof.
  intros Hall Hf. unfold rget. induction r as [|[k x] rest IH]; simpl in *; [reflexivity|].
  apply andb_true_iff in Hall. destruct Hall as [Hk Hrest].
  destruct (String.eqb k f) eqn:E.
  - apply String.eqb_eq in E. subst k. congruence.
  - now apply IH.
Qed.

(** Whatever [check_schema] and the decoder of byte strings do: if
    publishing the store whose one record has the undeclared field zip
    returns, the line written for that record has no zip. *)
Lemma publish_keeps_field_or_fails (utf8 : string -> bool)
  (cs : Z -> schema -> Comp record unit) :
  fst (output_table utf8 cs ex_st_extra) = inr tt ->
  exists line,
    od_get path_eqb ("dir", "person_course.json.gz")
      (files (snd (snd (output_table utf8 cs ex_st_extra))))
    = Some (JsonLinesFile [Some line]) /\
    rget "zip" line = None.
Proof.
  unfold output_table, for_each_pcent, bind, get_self, write_file, modify_world,
    append_csv_row, openfile, get_world, ret. simpl.
  unfold output_json_body, bind, on_record, get_state, lift, on_self. simpl.
  destruct (cs 1%Z ex_schema [("username", PUni "alice"); ("zip", PUni "02139")])
    as [[e|[]] r']; simpl; [discriminate|].
  destruct (json_dumps utf8 r') as [e|line] eqn:Ej; simpl; [discriminate|].
  unfold json_dumps in Ej. destruct (forallb _ r') in Ej; [|discriminate].
  injection Ej as <-.
  unfold bind. 
  destruct (dictwriter_row
              ["course_id"; "user_id"; "username"; "registered"; "viewed"; "explored";
               "certified"; "nchapters"] r') as [e|row] eqn:Erow; simpl.
  - unfold log, bind, modify_self, get_self, modify_world, ret. simpl. discriminate.
  - intros _. exists r'. split; [reflexivity|].
    unfold dictwriter_row in Erow.
    destruct (forallb _ r') eqn:Eall in Erow; [|discriminate].
    apply (rget_outside_fieldnames _ _ _ Eall). reflexivity.
Qed.

(** C2 as stated fails on the store whose one record has the undeclared
    field zip.  Whatever [check_schema] does, publishing it cannot both
    return and have zip in the structured line.  With a [check_schema] that
    leaves the record as it is, publishing raises, in the writer of the
    flattened file, once the structured line, zip included, and the header
    have been written. *)
Lemma publish_fails_on_undeclared_field :
  (forall utf8 cs,
      fst (output_table utf8 cs ex_st_extra) = inr tt ->
      exists line,
        od_get path_eqb ("dir", "person_course.json.gz")
          (files (snd (snd (output_table utf8 cs ex_st_extra))))
        = Some (JsonLinesFile [Some line]) /\
        rget "zip" line = None) /\
  fst (output_table ex_utf8 ex_check_schema ex_st_extra)
  = inl (ValueError "dict contains fields not in fieldnames") /\
  od_get path_eqb ("dir", "person_course.json.gz")
    (files (snd (snd (output_table ex_utf8 ex_check_schema ex_st_extra))))
  = Some (JsonLinesFile [Some [("username", PUni "alice"); ("zip", PUni "02139")]]) /\
  od_get path_eqb ("dir", "person_course.csv.gz")
    (files (snd (snd (output_table ex_utf8 ex_check_schema ex_st_extra))))
  = Some (CsvFile [map fst ex_schema]).
Proof.
  split; [exact publish_keeps_field_or_fails|].
  repeat split; vm_compute; reflexivity.
Qed.

(* ------------------------------------------------------------------ *)
(** ** The commands that drive the other modules *)

Section CommandFacts.

Variable outcome : list call -> call -> option exn.
Variable cfg : Config.
Variable tracking : option string.
Variable args : Args.
Variable largs : LogArgs.

Hypothesis no_exit : forall before c, is_exit (outcome before c) = false.

Lemma try_print_do_call_run (c : call) (sh : Shell) :
  try_print (do_call outcome c) sh =
  (inr tt,
   mkShell (calls sh ++ [c])
     (shell_stdout sh ++ match outcome (calls sh) c with
                         | Some e => [PrintedError e]
                         | None => []
                         end)).
Proof.
  unfold try_print, do_call. pose proof (no_exit (calls sh) c) as H.
  destruct (outcome (calls sh) c) as [e|]; simpl.
  - destruct e; try reflexivity. discriminate.
  - now rewrite app_nil_r.
Qed.

Lemma guarded_calls_run (f : string -> call) (l : list string) :
  forall sh,
    for_each l (fun c => try_print (do_call outcome (f c))) sh =
    (inr tt,
     mkShell (calls sh ++ map f l)
       (shell_stdout sh ++ printed_errors outcome (calls sh) (map f l))).
Proof.
  induction l as [|c rest IH]; intro sh; simpl.
  - unfold ret. rewrite !app_nil_r. now destruct sh.
  - unfold bind. rewrite try_print_do_call_run. rewrite IH. simpl.
    rewrite <- !app_assoc. reflexivity.
Qed.

Lemma for_each_calls (body : string -> Comp Shell unit) (g : string -> list call)
  (l : list string) :
  (forall c sh, fst (body c sh) = inr tt /\ calls (snd (body c sh)) = calls sh ++ g c) ->
  forall sh,
    fst (for_each l body sh) = inr tt /\
    calls (snd (for_each l body sh)) = calls sh ++ flat_map g l.
Proof.
  intro Hbody. induction l as [|c rest IH]; intro sh; simpl.
  - now rewrite app_nil_r.
  - unfold bind. destruct (Hbody c sh) as [Hr Hc].
    destruct (body c sh) as [[e|[]] sh1]; simpl in *; [discriminate|].
    destruct (IH sh1) as [Hr1 Hc1]. split; [exact Hr1|].
    rewrite Hc1, Hc, <- app_assoc. reflexivity.
Qed.

End CommandFacts.

Lemma for_each_ext {S A} (l : list A) (b b' : A -> Comp S unit) :
  (forall a st, b a st = b' a st) -> forall st, for_each l b st = for_each l b' st.
Proof.
  intro H. induction l as [|a rest IH]; intro st; simpl; [reflexivity|].
  unfold bind. rewrite H. destruct (b' a st) as [[e|[]] st1]; [reflexivity|apply IH].
Qed.

Ltac no_exit_tac :=
  intros ? c; destruct c; simpl; try reflexivity;
  match goal with |- context [String.eqb ?a ?b] => destruct (String.eqb a b) end;
  reflexivity.

Lemma flat_map_const_length {A B} (l : list A) (l' : list B) :
  List.length (flat_map (fun _ => l') l) = (List.length l * List.length l')%nat.
Proof.
  induction l as [|a rest IH]; simpl; [reflexivity|]. now rewrite length_app, IH.
Qed.

(** X1.  The command load_forum, run without a course argument for n
    courses, rephrases the forum data of every course n times: the step
    that handles one course loops over all the courses of the command.  It
    returns whatever the calls raise (a request to exit apart), and makes
    n * n calls. *)
Theorem load_forum_rephrases_every_course_for_every_course
  (outcome : list call -> call -> option exn) (cfg : Config) (args : Args) (sh : Shell) :
  (forall before c, is_exit (outcome before c) = false) ->
  let ids := get_course_ids cfg args in
  let rephrase := fun c => RephraseForumJsonForCourse c (GS_BUCKET cfg)
                             (basedir_arg cfg args) (datedir_arg cfg args) in
  fst (setup_sql outcome cfg args "load_forum" None sh) = inr tt /\
  calls (snd (setup_sql outcome cfg args "load_forum" None sh)) =
    calls sh ++ flat_map (fun _ => map rephrase ids) ids /\
  List.length (flat_map (fun _ => map rephrase ids) ids)
  = (List.length ids * List.length ids)%nat.
Proof.
  intros Hne ids rephrase.
  assert (H : forall sh0,
             fst (setup_sql outcome cfg args "load_forum" None sh0) = inr tt /\
             calls (snd (setup_sql outcome cfg args "load_forum" None sh0)) =
             calls sh0 ++ flat_map (fun _ => map rephrase ids) ids).
  { intro sh0. unfold setup_sql. apply for_each_calls. intros c sh1.
    unfold setup_sql_course. simpl. unfold bind, ret.
    fold ids. rewrite (guarded_calls_run outcome Hne (fun c => RephraseForumJsonForCourse c _ _ _) ids sh1).
    simpl. auto. }
  destruct (H sh) as [Hr Hc]. split; [exact Hr|]. split; [exact Hc|].
  now rewrite flat_map_const_length, length_map.
Qed.

Lemma load_forum_rephrases_every_course_for_every_course_witness :
  let r := fun c => RephraseForumJsonForCourse c "gs://x-data" None None in
  fst (setup_sql ex_outcome ex_config ex_args3 "load_forum" None (mkShell [] [])) = inr tt /\
  calls (snd (setup_sql ex_outcome ex_config ex_args3 "load_forum" None (mkShell [] []))) =
    [r "A"; r "B"; r "C"; r "A"; r "B"; r "C"; r "A"; r "B"; r "C"] /\
  List.length (flat_map (fun _ : string => map r ["A"; "B"; "C"]) ["A"; "B"; "C"]) = 9%nat.
Proof.
  apply (load_forum_rephrases_every_course_for_every_course ex_outcome ex_config ex_args3
           (mkShell [] [])).
  no_exit_tac.
Defined.

(** X2.  The command sql2bq goes through every course whatever the loads
    raise (a request to exit apart): it returns, it has called the load of
    each course once, in order, and it has printed the error of each load
    that failed. *)
Theorem sql2bq_goes_on_after_a_failure
  (outcome : list call -> call -> option exn) (cfg : Config) (args : Args) (sh : Shell) :
  (forall before c, is_exit (outcome before c) = false) ->
  let loads := map (fun c => LoadSqlForCourse c (GS_BUCKET cfg)
                               (basedir_arg cfg args) (datedir_arg cfg args))
                 (get_course_ids cfg args) in
  setup_sql outcome cfg args "sql2bq" None sh =
  (inr tt,
   mkShell (calls sh ++ loads) (shell_stdout sh ++ printed_errors outcome (calls sh) loads)).
Proof.
  intros Hne loads. unfold setup_sql.
  rewrite (for_each_ext _ _
             (fun c => try_print (do_call outcome
                (LoadSqlForCourse c (GS_BUCKET cfg) (basedir_arg cfg args)
                   (datedir_arg cfg args))))).
  - apply (guarded_calls_run outcome Hne).
  - intros c sh1. unfold setup_sql_course. simpl. unfold bind, ret.
    rewrite (try_print_do_call_run outcome Hne). reflexivity.
Qed.

Lemma sql2bq_goes_on_after_a_failure_witness :
  let l := fun c => LoadSqlForCourse c "gs://x-data" None None in
  setup_sql ex_outcome ex_config ex_args3 "sql2bq" None (mkShell [] []) =
  (inr tt,
   mkShell [l "A"; l "B"; l "C"]
     [PrintedError (IOError "sql"); PrintedError (IOError "sql"); PrintedError (IOError "sql")]).
Proof.
  apply (sql2bq_goes_on_after_a_failure ex_outcome ex_config ex_args3 (mkShell [] [])).
  no_exit_tac.
Defined.

Lemma process_files_run (outcome : list call -> call -> option exn) (f : string -> call)
  (pre : list string) (c : string) (post : list string) (e : exn) :
  (forall before p, In p pre -> outcome before (f p) = None) ->
  forall sh,
    outcome (calls sh ++ map f pre) (f c) = Some e ->
    for_each (pre ++ c :: post) (fun c => do_call outcome (f c)) sh =
    (inl e, mkShell (calls sh ++ map f pre ++ [f c]) (shell_stdout sh)).
Proof.
  induction pre as [|p rest IH]; intros Hpre sh He; simpl in *.
  - unfold bind, do_call. rewrite app_nil_r in He. now rewrite He.
  - unfold bind, do_call at 1. rewrite (Hpre _ p (or_introl eq_refl)).
    rewrite IH.
    + simpl. now rewrite <- app_assoc.
    + intros before q Hq. apply Hpre. now right.
    + simpl. now rewrite <- app_assoc.
Qed.

(** X3.  The command make_uic stops at the first course whose
    user_info_combo cannot be made: the exception leaves the command,
    nothing is printed, and the courses after it are not touched. *)
Theorem make_uic_stops_at_the_first_failure
  (outcome : list call -> call -> option exn) (cfg : Config) (args : Args) (sh : Shell)
  (pre : list string) (c : string) (post : list string) (e : exn) :
  let process := fun c => ProcessFile c (basedir_arg cfg args) (datedir_arg cfg args) in
  get_course_ids cfg args = pre ++ c :: post ->
  (forall before p, In p pre -> outcome before (process p) = None) ->
  outcome (calls sh ++ map process pre) (process c) = Some e ->
  setup_sql outcome cfg args "make_uic" None sh =
  (inl e, mkShell (calls sh ++ map process pre ++ [process c]) (shell_stdout sh)).
Proof.
  intros process Hids Hpre He. unfold setup_sql. rewrite Hids.
  rewrite (for_each_ext _ _ (fun c => do_call outcome (process c))).
  - now apply process_files_run.
  - intros a sh1. unfold setup_sql_course. simpl. unfold bind, ret.
    destruct (do_call outcome _ sh1) as [[x|[]] sh2]; reflexivity.
Qed.

Lemma make_uic_stops_at_the_first_failure_witness :
  setup_sql ex_outcome ex_config ex_args3 "make_uic" None (mkShell [] []) =
  (inl (IOError "B"), mkShell [ProcessFile "A" None None; ProcessFile "B" None None] []).
Proof.
  apply (make_uic_stops_at_the_first_failure ex_outcome ex_config ex_args3 (mkShell [] [])
           ["A"] "B" ["C"] (IOError "B")).
  - reflexivity.
  - intros before p [<-|[]]. reflexivity.
  - reflexivity.
Defined.

(** X4.  The command person_day goes through every course whatever the
    computation of a course raises (a request to exit apart): it returns,
    having called the computation of each course once, in order, with the
    force flag of the command line, and having printed the error of each
    course that failed. *)
Theorem person_day_goes_through_every_course
  (outcome : list call -> call -> option exn) (cfg : Config) (args : Args) (sh : Shell) :
  (forall before c, is_exit (outcome before c) = false) ->
  let runs := map (fun c => ProcessCourse c (force_recompute args))
                (get_course_ids cfg args) in
  person_day_command outcome cfg args sh =
  (inr tt,
   mkShell (calls sh ++ runs) (shell_stdout sh ++ printed_errors outcome (calls sh) runs)).
Proof.
  intros Hne runs. apply (guarded_calls_run outcome Hne).
Qed.

Lemma person_day_goes_through_every_course_witness :
  person_day_command ex_outcome ex_config ex_args3 (mkShell [] []) =
  (inr tt,
   mkShell [ProcessCourse "A" false; ProcessCourse "B" false; ProcessCourse "C" false]
     [PrintedError (ValueError "A")]).
Proof.
  apply (person_day_goes_through_every_course ex_outcome ex_config ex_args3 (mkShell [] [])).
  no_exit_tac.
Defined.

Lemma flat_map_singleton {A B} (g : A -> B) (l : list A) :
  flat_map (fun c => [g c]) l = map g l.
Proof.
  induction l as [|a rest IH]; simpl; congruence.
Qed.

(** X5.  The command daily_logs, when the directory of the logs is known
    and no split fails: it first splits the file given with --tlfn, or,
    when that option is absent, every course of the command taken as the
    name of a tracking log file; then, for each course in order, it
    transfers the logs and loads them, both without verbosity, and goes on
    whatever these two raise (a request to exit apart). *)
Theorem daily_logs_splits_then_transfers
  (outcome : list call -> call -> option exn) (cfg : Config) (tracking : option string)
  (args : Args) (largs : LogArgs) (sh : Shell) (d : string) :
  (forall before c, is_exit (outcome before c) = false) ->
  (forall sh', logs_dir_arg tracking largs sh' = (inr d, sh')) ->
  (forall before f, outcome before (DoFile f d) = None) ->
  let ids := get_course_ids cfg args in
  let splits := match tlfn largs with
                | Some f => [DoFile f d]
                | None => map (fun c => DoFile c d) ids
                end in
  let transfers :=
    flat_map (fun c => [ ProcessDir c (GS_BUCKET cfg) d false;
                         LoadAllDailyLogsForCourse c (GS_BUCKET cfg) false ]) ids in
  fst (daily_logs outcome cfg tracking args largs (StepsStr "daily_logs") None true sh)
  = inr tt /\
  calls (snd (daily_logs outcome cfg tracking args largs (StepsStr "daily_logs") None true sh))
  = calls sh ++ splits ++ transfers.
Proof.
  intros Hne Hdir Hsplit ids splits transfers. subst splits transfers ids.
  set (ids := get_course_ids cfg args).
  assert (Hone : forall c sh1,
             fst (daily_logs_course outcome cfg tracking largs (StepsStr "split") c true sh1)
             = inr tt /\
             calls (snd (daily_logs_course outcome cfg tracking largs (StepsStr "split") c
                           true sh1))
             = calls sh1 ++ [DoFile c d]).
  { intros c sh1. unfold daily_logs_course. simpl. unfold bind, ret.
    rewrite Hdir. unfold do_call. rewrite Hsplit. simpl. auto. }
  assert (Htwo : forall c sh1,
             fst (daily_logs_steps outcome cfg tracking args largs
                    (StepsList ["logs2gs"; "logs2bq"]) (Some c) false sh1) = inr tt /\
             calls (snd (daily_logs_steps outcome cfg tracking args largs
                           (StepsList ["logs2gs"; "logs2bq"]) (Some c) false sh1))
             = calls sh1 ++ [ ProcessDir c (GS_BUCKET cfg) d false;
                              LoadAllDailyLogsForCourse c (GS_BUCKET cfg) false ]).
  { intros c sh1. unfold daily_logs_steps, daily_logs_course. simpl.
    assert (Htp : try_print (d0 <- logs_dir_arg tracking largs ;;
                             do_call outcome (ProcessDir c (GS_BUCKET cfg) d0 false)) sh1
                  = try_print (do_call outcome (ProcessDir c (GS_BUCKET cfg) d false)) sh1).
    { unfold try_print, bind. now rewrite Hdir. }
    rewrite (bind_step _ _ _ _ _ (eq_refl : ret tt sh1 = (inr tt, sh1))).
    rewrite (bind_step _ _ _ _ _
               (eq_trans Htp (try_print_do_call_run outcome Hne _ sh1))).
    rewrite (try_print_do_call_run outcome Hne). simpl.
    rewrite <- app_assoc. auto. }
  unfold daily_logs. change (is_daily_logs (StepsStr "daily_logs")) with true.
  cbv iota. fold ids. unfold bind.
  assert (Hfirst : fst (daily_logs_steps outcome cfg tracking args largs (StepsStr "split")
                          (tlfn largs) true sh) = inr tt /\
                   calls (snd (daily_logs_steps outcome cfg tracking args largs
                                 (StepsStr "split") (tlfn largs) true sh))
                   = calls sh ++ match tlfn largs with
                                 | Some f => [DoFile f d]
                                 | None => map (fun c => DoFile c d) ids
                                 end).
  { unfold daily_logs_steps. fold ids. destruct (tlfn largs) as [f|].
    - apply Hone.
    - destruct (for_each_calls (fun c => daily_logs_course outcome cfg tracking largs
                                           (StepsStr "split") c true)
                  (fun c => [DoFile c d]) ids Hone sh) as [Hr Hc].
      split; [exact Hr|]. rewrite Hc. now rewrite flat_map_singleton. }
  destruct Hfirst as [Hr1 Hc1].
  destruct (daily_logs_steps outcome cfg tracking args largs (StepsStr "split")
              (tlfn largs) true sh) as [[e|[]] sh1]; [simpl in Hr1; discriminate|].
  simpl in Hc1. cbv beta iota.
  destruct (for_each_calls
              (fun c => daily_logs_steps outcome cfg tracking args largs
                          (StepsList ["logs2gs"; "logs2bq"]) (Some c) false)
              _ ids Htwo sh1) as [Hr2 Hc2].
  split; [exact Hr2|]. rewrite Hc2, Hc1, <- app_assoc. reflexivity.
Qed.

Lemma daily_logs_splits_then_transfers_witness :
  fst (daily_logs ex_outcome ex_config (Some "LOGS") ex_args3 ex_largs
         (StepsStr "daily_logs") None true (mkShell [] [])) = inr tt /\
  calls (snd (daily_logs ex_outcome ex_config (Some "LOGS") ex_args3 ex_largs
                (StepsStr "daily_logs") None true (mkShell [] []))) =
  [ DoFile "A" "LOGS"; DoFile "B" "LOGS"; DoFile "C" "LOGS";
    ProcessDir "A" "gs://x-data" "LOGS" false;
    LoadAllDailyLogsForCourse "A" "gs://x-data" false;
    ProcessDir "B" "gs://x-data" "LOGS" false;
    LoadAllDailyLogsForCourse "B" "gs://x-data" false;
    ProcessDir "C" "gs://x-data" "LOGS" false;
    LoadAllDailyLogsForCourse "C" "gs://x-data" false ].
Proof.
  apply (daily_logs_splits_then_transfers ex_outcome ex_config (Some "LOGS") ex_args3 ex_largs
           (mkShell [] []) "LOGS").
  - no_exit_tac.
  - reflexivity.
  - reflexivity.
Defined.

(* ------------------------------------------------------------------ *)
(** ** The local loads and the first phase *)

Lemma copy_field_same (src dst : record) (key : string) (fs : field_source) :
  rget key (copy_field src dst (key, fs)) =
  match source_value src fs with
  | Some v => Some v
  | None => rget key dst
  end.
Proof.
  unfold copy_field, source_value.
  destruct fs as [l|f].
  - destruct (first_present src l); [apply rget_rset_same|reflexivity].
  - destruct (rget f src); [apply rget_rset_same|reflexivity].
Qed.

Lemma copy_field_key_other (src dst : record) (ent : string * field_source) (g : string) :
  fst ent <> g -> rget g (copy_field src dst ent) = rget g dst.
Proof.
  intro H. apply copy_field_other. intro E. apply String.eqb_eq in E. contradiction.
Qed.

Lemma copy_fields_key_other (src : record) (fields : list (string * field_source))
  (g : string) :
  ~ In g (map fst fields) -> forall dst, rget g (copy_fields src dst fields) = rget g dst.
Proof.
  intros H dst. apply copy_fields_other. apply Forall_forall. intros ent Hin E.
  apply String.eqb_eq in E. exfalso. apply H. apply in_map_iff. now exists ent.
Qed.

Lemma copy_fields_each (src : record) (fields : list (string * field_source)) :
  NoDup (map fst fields) ->
  forall dst key fs,
    In (key, fs) fields ->
    rget key (copy_fields src dst fields) =
    match source_value src fs with
    | Some v => Some v
    | None => rget key dst
    end.
Proof.
  induction fields as [|ent rest IH]; intros Hnd dst key fs Hin; [destruct Hin|].
  simpl in Hnd. inversion Hnd as [|x l Hx Hrest]; subst.
  unfold copy_fields. simpl. fold (copy_fields src (copy_field src dst ent) rest).
  destruct Hin as [->|Hin].
  - simpl in Hx. rewrite (copy_fields_key_other src rest key Hx). apply copy_field_same.
  - rewrite (IH Hrest _ key fs Hin).
    rewrite copy_field_key_other; [reflexivity|].
    intro E. apply Hx. rewrite E. apply in_map_iff. now exists (key, fs).
Qed.

(** X6.  [copy_fields], for a table of fields whose destination names are
    distinct: each destination field ends up with the value of its source
    field, for a list of candidates with the value of the first candidate
    the source row has; a destination whose source is absent keeps what it
    had (nothing, if it had nothing); and no other field of the destination
    changes. *)
Theorem copy_fields_takes_the_first_present_source (src dst : record)
  (fields : list (string * field_source)) :
  NoDup (map fst fields) ->
  (forall key fs,
      In (key, fs) fields ->
      rget key (copy_fields src dst fields) =
      match source_value src fs with
      | Some v => Some v
      | None => rget key dst
      end) /\
  (forall g, ~ In g (map fst fields) -> rget g (copy_fields src dst fields) = rget g dst).
Proof.
  intro Hnd. split.
  - intros key fs. now apply copy_fields_each.
  - intros g Hg. now apply copy_fields_key_other.
Qed.

Lemma first_phase_fields_nodup : NoDup (map fst first_phase_fields).
Proof.
  simpl. repeat (constructor; [simpl; intuition discriminate|]). constructor.
Qed.

(** The row of alice has no enrollment_course_id: course_id comes from
    certificate_course_id, and gender, which the row lacks, is not set. *)
Lemma copy_fields_takes_the_first_present_source_witness :
  rget "course_id" (copy_fields ex_alice [] first_phase_fields) = Some (PUni "X") /\
  rget "gender" (copy_fields ex_alice [] first_phase_fields) = None.
Proof.
  assert (Hnd : NoDup (map fst first_phase_fields)).
  { simpl. repeat (constructor; [simpl; intuition discriminate|]). constructor. }
  split.
  - apply (proj1 (copy_fields_takes_the_first_present_source ex_alice [] first_phase_fields
                    Hnd)
             "course_id" (OneOf ["enrollment_course_id"; "certificate_course_id"])).
    simpl. auto.
  - apply (proj1 (copy_fields_takes_the_first_present_source ex_alice [] first_phase_fields
                    Hnd)
             "gender" (Field "profile_gender")).
    simpl. auto 10.
Defined.

Lemma first_phase_record_other (uicent : record) (g : string) :
  g <> "registered" -> g <> "certified" ->
  rget g (first_phase_record uicent) = rget g (copy_fields uicent [] first_phase_fields).
Proof.
  intros Hr Hc. unfold first_phase_record.
  assert (Er : String.eqb "registered" g = false) by (apply String.eqb_neq; congruence).
  assert (Ec : String.eqb "certified" g = false) by (apply String.eqb_neq; congruence).
  destruct (py_in _ _); rewrite !rget_rset_other by assumption; reflexivity.
Qed.

(** X7.  The record that the first phase makes for a row of
    user_info_combo: each of the nine mapped fields is there exactly when
    the row has its source field, with the value of that field (course_id
    from enrollment_course_id, else from certificate_course_id), and the
    record has no field besides these nine, registered and certified. *)
Theorem first_phase_record_has_the_mapped_fields (uicent : record) :
  Forall (fun ent => rget (fst ent) (first_phase_record uicent)
                     = source_value uicent (snd ent)) first_phase_fields /\
  (forall g v,
      rget g (first_phase_record uicent) = Some v ->
      In g (map fst first_phase_fields ++ ["registered"; "certified"])).
Proof.
  split.
  - apply Forall_forall. intros [key fs] Hin. simpl fst. simpl snd.
    assert (Hk : key <> "registered" /\ key <> "certified").
    { simpl in Hin. intuition (try discriminate); inversion H; subst; discriminate. }
    rewrite first_phase_record_other by apply Hk.
    rewrite (copy_fields_each uicent first_phase_fields first_phase_fields_nodup [] key fs Hin).
    now destruct (source_value uicent fs).
  - intros g v Hg.
    destruct (in_dec string_dec g (map fst first_phase_fields ++ ["registered"; "certified"]))
      as [Hin|Hout]; [exact Hin|exfalso].
    rewrite first_phase_record_other in Hg.
    + rewrite copy_fields_key_other in Hg; [discriminate|].
      intro Hin. apply Hout. apply in_or_app. now left.
    + intros ->. apply Hout. apply in_or_app. right. simpl. auto.
    + intros ->. apply Hout. apply in_or_app. right. simpl. auto.
Qed.

Lemma tget_tset (k k' : pyval) (r : record) (t : table) :
  tget k' (tset k r t) = if py_eqb k k' then Some r else tget k' t.
Proof.
  destruct (py_eqb k k') eqn:E.
  - now apply tget_tset_same.
  - now apply tget_tset_other.
Qed.

Lemma keyed_rows_get (key : string) (k : pyval) (rows : list record) :
  forall data,
    tget k (keyed_rows key rows data) =
    match last_keyed key k rows with
    | Some r => Some r
    | None => tget k data
    end.
Proof.
  induction rows as [|jd rest IH]; intro data; simpl; [reflexivity|].
  destruct (rget key jd) as [the_id|].
  - rewrite IH. destruct (last_keyed key k rest); [reflexivity|].
    rewrite tget_tset. now destruct (py_eqb the_id k).
  - rewrite IH. now destruct (last_keyed key k rest).
Qed.

Lemma load_json_run (fn key : string) (rows : list record) (st : St) :
  od_get path_eqb (course_dir (fst st), fn) (files (snd st))
  = Some (JsonLinesFile (map Some rows)) ->
  load_json fn key st =
  (inr (keyed_rows key rows []),
   (fst st, add_stdout_lines (missing_key_lines fn key rows 0) (snd st))).
Proof.
  intro Hf. unfold load_json. rewrite (bind_step _ _ _ _ _ (openfile_run _ _ _ Hf)).
  apply load_json_loop_run.
Qed.

(** X8.  [load_json] on a source whose lines all parse: looking up a key
    in the store it returns gives the last row of the source whose key
    field equals that key in the sense of [==], and nothing when no row has
    such a key field.  So of two rows with the same key the later one is
    kept. *)
Theorem load_json_keeps_the_last_row_of_a_key (fn key : string) (rows : list record)
  (st : St) :
  od_get path_eqb (course_dir (fst st), fn) (files (snd st))
  = Some (JsonLinesFile (map Some rows)) ->
  exists t,
    fst (load_json fn key st) = inr t /\
    forall k, tget k t = last_keyed key k rows.
Proof.
  intro Hf. exists (keyed_rows key rows []). rewrite (load_json_run _ _ _ _ Hf).
  split; [reflexivity|]. intro k. rewrite keyed_rows_get.
  now destruct (last_keyed key k rows).
Qed.

Lemma load_json_keeps_the_last_row_of_a_key_witness :
  exists t,
    fst (load_json "user_info_combo.json.gz" "username" ex_st) = inr t /\
    forall k, tget k t = last_keyed "username" k [ex_alice; ex_bob; ex_nameless].
Proof.
  apply (load_json_keeps_the_last_row_of_a_key "user_info_combo.json.gz" "username"
           [ex_alice; ex_bob; ex_nameless] ex_st).
  reflexivity.
Defined.




Lemma log_ok (msg : logent) (st : St) : log msg st = (inr tt, snd (log msg st)).
Proof.
  now rewrite log_run.
Qed.

Lemma openfile_missing (fn : string) (st : St) :
  od_get path_eqb (course_dir (fst st), fn) (files (snd st)) = None ->
  openfile fn st = (inl (IOError fn), st).
Proof.
  intro H. unfold openfile, bind, get_self, get_world. simpl. rewrite H. now destruct st.
Qed.

(** X10.  Without a user_info_combo file in the course directory the whole
    pipeline stops in its first phase with the error of opening the file:
    two messages were logged, the record store is as it was, and nothing
    was asked of the remote engine and no file was written. *)
Theorem make_all_needs_user_info_combo (utc : pyval -> option string)
  (utf8 : string -> bool) (cs : Z -> schema -> Comp record unit) (st : St) :
  od_get path_eqb (course_dir (fst st), "user_info_combo.json.gz") (files (snd st)) = None ->
  fst (make_all utc utf8 cs st) = inl (IOError "user_info_combo.json.gz") /\
  pctab (fst (snd (make_all utc utf8 cs st))) = pctab (fst st) /\
  logmsg (fst (snd (make_all utc utf8 cs st))) =
    logmsg (fst st) ++ [ LogText (str_repeat "-" 20);
                         LogText "Computing first phase based on user_info_combo" ] /\
  bq_trace (snd (snd (make_all utc utf8 cs st))) = bq_trace (snd st) /\
  files (snd (snd (make_all utc utf8 cs st))) = files (snd st).
Proof.
  intro Hf.
  set (st1 := snd (log (LogText (str_repeat "-" 20)) st)).
  set (st2 := snd (log (LogText "Computing first phase based on user_info_combo") st1)).
  assert (Hdir : course_dir (fst st2) = course_dir (fst st) /\
                 files (snd st2) = files (snd st) /\
                 pctab (fst st2) = pctab (fst st) /\
                 bq_trace (snd st2) = bq_trace (snd st) /\
                 logmsg (fst st2) = logmsg (fst st) ++
                   [ LogText (str_repeat "-" 20);
                     LogText "Computing first phase based on user_info_combo" ]).
  { unfold st2, st1. rewrite !log_run. destruct st as [s w]. simpl.
    rewrite <- app_assoc. destruct (verbose s); simpl; auto. }
  destruct Hdir as [Hd [Hfs [Hp [Ht Hl]]]].
  assert (Hrun : make_all utc utf8 cs st = (inl (IOError "user_info_combo.json.gz"), st2)).
  { unfold make_all. apply bind_inl. unfold compute_first_phase.
    rewrite (bind_step _ _ _ st1 tt (log_ok _ _)).
    rewrite (bind_step _ _ _ st2 tt (log_ok _ _)).
    apply bind_inl. unfold load_json. apply bind_inl. apply openfile_missing.
    now rewrite Hd, Hfs. }
  rewrite Hrun. simpl. auto.
Qed.

Lemma make_all_needs_user_info_combo_witness :
  fst (make_all ex_utc ex_utf8 ex_check_schema ex_st_nofiles)
  = inl (IOError "user_info_combo.json.gz") /\
  pctab (fst (snd (make_all ex_utc ex_utf8 ex_check_schema ex_st_nofiles))) = [] /\
  logmsg (fst (snd (make_all ex_utc ex_utf8 ex_check_schema ex_st_nofiles))) =
    [ LogText "--------------------";
      LogText "Computing first phase based on user_info_combo" ] /\
  bq_trace (snd (snd (make_all ex_utc ex_utf8 ex_check_schema ex_st_nofiles))) = [] /\
  files (snd (snd (make_all ex_utc ex_utf8 ex_check_schema ex_st_nofiles))) = [].
Proof.
  apply (make_all_needs_user_info_combo ex_utc ex_utf8 ex_check_schema ex_st_nofiles).
  reflexivity.
Defined.

(* ------------------------------------------------------------------ *)
(** ** Reloading the store and counting the chapters *)

Lemma reload_encode_inv (f : string) (dline d' : record) :
  reload_encode f dline = inr d' ->
  (forall v, rget f d' = Some v -> exists s, v = PStr s) /\
  (forall g, g <> f -> rget g d' = rget g dline).
Proof.
  unfold reload_encode. destruct (rget f dline) as [v|] eqn:E.
  - destruct (py_encode_utf8 v) as [e|v'] eqn:Ev; [discriminate|].
    intro H. injection H as <-. split.
    + intros x Hx. rewrite rget_rset_same in Hx. injection Hx as <-.
      destruct v; simpl in Ev; try discriminate.
      * injection Ev as <-. eauto.
      * destruct (is_ascii s); [|discriminate]. injection Ev as <-. eauto.
    + intros g Hg. apply rget_rset_other. apply String.eqb_neq. congruence.
  - intro H. injection H as <-. split; [|reflexivity].
    intros v Hv. congruence.
Qed.

Lemma Forall_tset (P : pyval * record -> Prop) (k : pyval) (r : record) (t : table) :
  (forall k', py_eqb k' k = true -> P (k', r)) ->
  Forall P t -> Forall P (tset k r t).
Proof.
  intros Hnew. induction t as [|[k' r'] rest IH]; intro H; simpl.
  - constructor; [|constructor]. apply Hnew. apply py_eqb_refl.
  - inversion H; subst. destruct (py_eqb k' k) eqn:E.
    + constructor; [now apply Hnew|assumption].
    + constructor; [assumption|now apply IH].
Qed.

Lemma reload_loop_inv (lines : list (option record)) :
  forall data t,
    reload_loop lines data = inr t ->
    distinct_keys data -> Forall reloaded_entry data ->
    distinct_keys t /\ Forall reloaded_entry t.
Proof.
  induction lines as [|[dline|] rest IH]; intros data t H Hd Hf; simpl in H.
  - injection H as <-. auto.
  - destruct (rget "username" dline) as [key|] eqn:Eu; [|discriminate].
    destruct (reload_encode "city" dline) as [e|d1] eqn:E1; [discriminate|].
    destruct (reload_encode "countryLabel" d1) as [e|d2] eqn:E2; [discriminate|].
    destruct (reload_encode_inv _ _ _ E1) as [Hc1 Ho1].
    destruct (reload_encode_inv _ _ _ E2) as [Hc2 Ho2].
    apply (IH _ _ H).
    + now apply tset_distinct.
    + apply Forall_tset; [|exact Hf].
      intros k' Hk'. split; simpl.
      * exists key. split; [|exact Hk'].
        rewrite Ho2 by discriminate. rewrite Ho1 by discriminate. exact Eu.
      * intros f v [<-|[<-|[]]] Hv.
        -- rewrite Ho2 in Hv by discriminate. now apply Hc1.
        -- now apply Hc2.
  - discriminate.
Qed.

(** X11.  When [reload_table] returns, the record store is made of the
    lines of person_course.json.gz alone: its keys are distinct, every
    record is stored under its own username, and the city and the
    countryLabel of every record, when it has them, are byte strings. *)
Theorem reload_table_stores_encoded_records (st st' : St) :
  reload_table st = (inr tt, st') ->
  distinct_keys (pctab (fst st')) /\
  Forall (fun ent =>
            (exists u, rget "username" (snd ent) = Some u /\ py_eqb (fst ent) u = true) /\
            text_fields_are_bytes (snd ent))
    (pctab (fst st')).
Proof.
  unfold reload_table. intro H.
  apply bind_inr in H. destruct H as [f [st1 [Hopen H]]].
  destruct f as [lines| |]; try discriminate.
  apply bind_inr in H. destruct H as [data [st2 [Hl H]]].
  apply lift_inv in Hl. destruct Hl as [Hl ->].
  apply bind_inr in H. destruct H as [[] [st3 [Hm H]]].
  unfold modify_self in Hm. injection Hm as <-.
  rewrite log_run in H. injection H as <-. simpl.
  apply (reload_loop_inv lines [] data Hl); simpl; auto.
Qed.

Lemma reload_table_stores_encoded_records_witness :
  distinct_keys (pctab (fst (snd (reload_table ex_st_reload_ok)))) /\
  Forall (fun ent =>
            (exists u, rget "username" (snd ent) = Some u /\ py_eqb (fst ent) u = true) /\
            text_fields_are_bytes (snd ent))
    (pctab (fst (snd (reload_table ex_st_reload_ok)))).
Proof.
  apply (reload_table_stores_encoded_records ex_st_reload_ok).
  reflexivity.
Defined.

Lemma reload_encode_fails (f : string) (dline : record) (v : pyval) (e : exn) :
  rget f dline = Some v -> py_encode_utf8 v = inl e -> reload_encode f dline = inl e.
Proof.
  intros Hv He. unfold reload_encode. now rewrite Hv, He.
Qed.

Lemma reload_loop_unloadable (lines : list (option record)) (dline : record) :
  In (Some dline) lines -> unloadable_line dline ->
  forall data, exists e, reload_loop lines data = inl e.
Proof.
  intros Hin Hbad. induction lines as [|[d|] rest IH]; intro data; simpl.
  - destruct Hin.
  - destruct (rget "username" d) as [key|] eqn:Eu; [|eauto].
    destruct (reload_encode "city" d) as [e|d1] eqn:E1; [eauto|].
    destruct (reload_encode "countryLabel" d1) as [e|d2] eqn:E2; [eauto|].
    destruct Hin as [Heq|Hin]; [|now apply IH].
    injection Heq as ->. exfalso.
    destruct Hbad as [Hu|[f [v [e [Hf [Hv He]]]]]]; [congruence|].
    destruct Hf as [<-|[<-|[]]].
    + rewrite (reload_encode_fails _ _ _ _ Hv He) in E1. discriminate.
    + destruct (reload_encode_inv _ _ _ E1) as [_ Ho1].
      rewrite <- Ho1 in Hv by discriminate.
      rewrite (reload_encode_fails _ _ _ _ Hv He) in E2. discriminate.
  - eauto.
Qed.

(** X12.  [reload_table] takes all the lines or none: when a line of
    person_course.json.gz has no username, or has a city or a countryLabel
    that cannot be encoded (null, for one), it raises, and the object and
    its record store are exactly as they were before the call. *)
Theorem reload_table_takes_all_lines_or_none (st : St) (lines : list (option record))
  (dline : record) :
  od_get path_eqb (course_dir (fst st), "person_course.json.gz") (files (snd st))
  = Some (JsonLinesFile lines) ->
  In (Some dline) lines ->
  unloadable_line dline ->
  exists e, reload_table st = (inl e, st).
Proof.
  intros Hf Hin Hbad. unfold reload_table.
  rewrite (bind_step _ _ _ _ _ (openfile_run _ _ _ Hf)).
  destruct (reload_loop_unloadable lines dline Hin Hbad []) as [e He].
  exists e. unfold bind, lift. now rewrite He.
Qed.

Lemma reload_table_takes_all_lines_or_none_witness :
  exists e, reload_table ex_st_reload = (inl e, ex_st_reload).
Proof.
  apply (reload_table_takes_all_lines_or_none ex_st_reload
           [ Some [("username", PUni "alice"); ("city", PUni "Oslo")];
             Some [("username", PUni "bob"); ("city", PNone)] ]
           [("username", PUni "bob"); ("city", PNone)]).
  - reflexivity.
  - simpl. auto.
  - right. exists "city", PNone, (AttributeError "encode"). simpl. auto.
Defined.

Lemma count_chapters_total (entries : list (string * record)) :
  Forall (fun ent => rmem "category" (snd ent) = true) entries ->
  forall n,
    count_chapters entries n
    = inr (n + Z.of_nat (List.length (filter is_chapter entries)))%Z.
Proof.
  induction 1 as [|[k ent] rest Hc _ IH]; intro n; simpl.
  - f_equal. lia.
  - assert (His : is_chapter (k, ent) =
                  match rget "category" ent with
                  | Some c => py_eqb c (PStr "chapter")
                  | None => false
                  end) by reflexivity.
    rewrite His. unfold rmem, od_mem in Hc. simpl in Hc. unfold rget in *.
    destruct (od_get String.eqb "category" ent) as [c|]; [|discriminate].
    destruct (py_eqb c (PStr "chapter")); rewrite IH; f_equal;
      cbn [List.length]; rewrite ?Nat2Z.inj_succ; lia.
Qed.

Lemma getonefile_run (st : St) (fn : string) (f : file) :
  (fn = "course_structure-prod-analytics.json.gz" \/
   (fn = "course_structure.json" /\
    od_get path_eqb (course_dir (fst st), "course_structure-prod-analytics.json.gz")
      (files (snd st)) = None)) ->
  od_get path_eqb (course_dir (fst st), fn) (files (snd st)) = Some f ->
  getonefile ["course_structure-prod-analytics.json.gz"; "course_structure.json"] st
  = (inr fn, st).
Proof.
  intros Hfn Hf. simpl. unfold bind, get_self, get_world, od_mem. simpl.
  destruct Hfn as [->|[-> Hgz]].
  - rewrite Hf. now destruct st.
  - rewrite Hgz, Hf. now destruct st.
Qed.

(** X13.  [get_nchapters_from_course_structure] reads
    course_structure-prod-analytics.json.gz when the course directory has
    it, whether or not it also has course_structure.json, and
    course_structure.json otherwise.  When every entry of the document has
    a category, it returns the number of entries whose category is chapter,
    and that number is then the nchapters of the object. *)
Theorem get_nchapters_counts_the_chapter_entries (st : St) (fn : string)
  (entries : list (string * record)) :
  (fn = "course_structure-prod-analytics.json.gz" \/
   (fn = "course_structure.json" /\
    od_get path_eqb (course_dir (fst st), "course_structure-prod-analytics.json.gz")
      (files (snd st)) = None)) ->
  od_get path_eqb (course_dir (fst st), fn) (files (snd st)) = Some (StructureFile entries) ->
  Forall (fun ent => rmem "category" (snd ent) = true) entries ->
  fst (get_nchapters_from_course_structure st)
  = inr (Z.of_nat (List.length (filter is_chapter entries))) /\
  nchapters (fst (snd (get_nchapters_from_course_structure st)))
  = Some (Z.of_nat (List.length (filter is_chapter entries))).
Proof.
  intros Hfn Hf Hcat.
  set (n := Z.of_nat (List.length (filter is_chapter entries))).
  assert (Hrun : exists st', get_nchapters_from_course_structure st = (inr n, st')).
  { unfold get_nchapters_from_course_structure.
    rewrite (bind_step _ _ _ _ _ (getonefile_run st fn _ Hfn Hf)).
    rewrite (bind_step _ _ _ _ _ (openfile_run _ _ _ Hf)).
    rewrite (count_chapters_total entries Hcat 0). simpl Z.add. fold n.
    rewrite (bind_step _ _ _ _ _ (eq_refl : lift (inr n) st = (inr n, st))).
    rewrite (bind_step _ _ _ _ _ (eq_refl : get_self st = (inr (fst st), st))).
    rewrite (bind_step _ _ _ _ _ (log_ok _ _)).
    unfold bind, modify_self, ret. eauto. }
  destruct Hrun as [st' Hrun]. rewrite Hrun. simpl. split; [reflexivity|].
  now apply (get_nchapters_inv st st' n).
Qed.

Lemma get_nchapters_counts_the_chapter_entries_witness :
  fst (get_nchapters_from_course_structure ex_st) = inr 10%Z /\
  nchapters (fst (snd (get_nchapters_from_course_structure ex_st))) = Some 10%Z.
Proof.
  apply (get_nchapters_counts_the_chapter_entries ex_st "course_structure.json" ex_structure).
  - right. split; reflexivity.
  - reflexivity.
  - repeat constructor.
Defined.

(* ------------------------------------------------------------------ *)
(** ** The third and the fourth phase on one record *)

Lemma copy_from_bq_table_run (src : table) (u : pyval) (fa : field_arg) (r : record) :
  copy_from_bq_table src u fa None false r =
  (inr tt,
   if is_none (bq_datum src u (source_name fa))
   then r
   else rset (stored_name fa) (bq_datum src u (source_name fa)) r).
Proof.
  unfold copy_from_bq_table.
  destruct fa as [f|f nf]; simpl;
    destruct (is_none (bq_datum src u f)); reflexivity.
Qed.

Lemma copy_from_bq_table_get (src : table) (u : pyval) (fa : field_arg) (r : record) :
  rget (stored_name fa) (snd (copy_from_bq_table src u fa None false r))
  = merged (bq_datum src u (source_name fa)) (rget (stored_name fa) r).
Proof.
  rewrite copy_from_bq_table_run. unfold merged. simpl.
  destruct (is_none _); [reflexivity|apply rget_rset_same].
Qed.

Lemma for_each_copy_other (src : table) (u : pyval) (fields : list field_arg) (g : string) :
  ~ In g (map stored_name fields) ->
  forall r : record,
    rget g (snd (for_each fields (fun fa => copy_from_bq_table src u fa None false) r))
    = rget g r.
Proof.
  intros Hg r. apply for_each_copy_frame. apply Forall_forall. intros fa Hin.
  apply String.eqb_neq. intro E. apply Hg. rewrite <- E. now apply in_map.
Qed.

Lemma for_each_copy_run (src : table) (u : pyval) (fields : list field_arg) (r : record) :
  for_each fields (fun fa => copy_from_bq_table src u fa None false) r =
  (inr tt, snd (for_each fields (fun fa => copy_from_bq_table src u fa None false) r)).
Proof.
  revert r. induction fields as [|fa rest IH]; intro r; simpl; [reflexivity|].
  unfold bind. rewrite copy_from_bq_table_run. rewrite IH. reflexivity.
Qed.

Lemma for_each_copy_get (src : table) (u : pyval) (fields : list field_arg) :
  NoDup (map stored_name fields) ->
  forall (r : record) fa,
    In fa fields ->
    rget (stored_name fa)
      (snd (for_each fields (fun fa => copy_from_bq_table src u fa None false) r))
    = merged (bq_datum src u (source_name fa)) (rget (stored_name fa) r).
Proof.
  induction fields as [|fb rest IH]; intros Hnd r fa Hin; [destruct Hin|].
  simpl in Hnd. inversion Hnd as [|x l Hx Hrest]; subst.
  simpl. unfold bind. rewrite copy_from_bq_table_run.
  set (r1 := if is_none (bq_datum src u (source_name fb)) then r
             else rset (stored_name fb) (bq_datum src u (source_name fb)) r).
  assert (Hr1 : forall fa, rget (stored_name fa) r1 =
                           if String.eqb (stored_name fb) (stored_name fa)
                           then merged (bq_datum src u (source_name fb))
                                  (rget (stored_name fa) r)
                           else rget (stored_name fa) r).
  { intro fc. unfold r1, merged.
    destruct (String.eqb (stored_name fb) (stored_name fc)) eqn:E.
    - apply String.eqb_eq in E. rewrite <- E.
      destruct (is_none _); [reflexivity|apply rget_rset_same].
    - destruct (is_none _); [reflexivity|now apply rget_rset_other]. }
  destruct Hin as [->|Hin].
  - rewrite for_each_copy_other by exact Hx.
    rewrite Hr1, String.eqb_refl. reflexivity.
  - rewrite (IH Hrest r1 fa Hin). rewrite Hr1.
    destruct (String.eqb (stored_name fb) (stored_name fa)) eqn:E; [|reflexivity].
    exfalso. apply String.eqb_eq in E. apply Hx. rewrite E. now apply in_map.
Qed.

Lemma pcd_fields_3_nodup : NoDup (map stored_name pcd_fields_3).
Proof.
  simpl. repeat (constructor; [simpl; intuition discriminate|]). constructor.
Qed.

Lemma on_record_bind {A B} (c : Comp record A) (k : A -> Comp (record * St) B)
  (r : record) (st : St) :
  bind (on_record c) k (r, st) =
  match c r with
  | (inr a, r') => k a (r', st)
  | (inl e, r') => (inl e, (r', st))
  end.
Proof.
  unfold bind, on_record. simpl. now destruct (c r) as [[e|a] r'].
Qed.

Lemma on_record_run {A} (c : Comp record A) (r : record) (st : St) :
  on_record c (r, st) = (fst (c r), (snd (c r), st)).
Proof.
  unfold on_record. simpl. now destruct (c r).
Qed.

Lemma copy_modal_ip_run (src : table) (u : pyval) (r : record) :
  copy_from_bq_table src u (Plain "modal_ip") (Some "ip") false r =
  (inr tt,
   if is_none (bq_datum src u "modal_ip") then r
   else rset "ip" (bq_datum src u "modal_ip") r).
Proof.
  unfold copy_from_bq_table. destruct (is_none (bq_datum src u "modal_ip")); reflexivity.
Qed.

Lemma third_phase_body_run (utc : pyval -> option string)
  (pc_last_event pc_modal_ip pc_day_totals : table) (r : record) (st : St) (u : pyval) :
  rget "username" r = Some u ->
  exists r' st',
    third_phase_body utc pc_last_event pc_modal_ip pc_day_totals (r, st)
    = (inr tt, (r', st')) /\
    rget "last_event" r' =
      (let le := bq_datum pc_last_event u "last_event" in
       if negb (is_none le) && py_truthy le
       then Some (last_event_value utc le)
       else rget "last_event" r) /\
    rget "ip" r' = merged (bq_datum pc_modal_ip u "modal_ip") (rget "ip" r) /\
    Forall (fun fa => rget (stored_name fa) r'
                      = merged (bq_datum pc_day_totals u (source_name fa))
                          (rget (stored_name fa) r)) pcd_fields_3 /\
    (forall g, ~ In g ("last_event" :: "ip" :: map stored_name pcd_fields_3) ->
               rget g r' = rget g r) /\
    (st' = st \/
     st' = snd (log (LogBadLastEvent (bq_datum pc_last_event u "last_event") u) st)).
Proof.
  intro Hu.
  set (le := bq_datum pc_last_event u "last_event").
  set (dip := bq_datum pc_modal_ip u "modal_ip").
  set (r1 := if negb (is_none le) && py_truthy le
             then rset "last_event" (last_event_value utc le) r else r).
  set (r2 := if is_none dip then r1 else rset "ip" dip r1).
  set (r3 := snd (for_each pcd_fields_3
                    (fun fa => copy_from_bq_table pc_day_totals u fa None false) r2)).
  assert (Hstep1 : exists st',
             (if negb (is_none le) && py_truthy le
              then
                le' <- match utc le with
                       | Some s => ret (PStr s)
                       | None => on_self (log (LogBadLastEvent le u)) ;;; ret le
                       end ;;
                on_record (rec_set "last_event" le')
              else ret tt) (r, st) = (inr tt, (r1, st')) /\
             (st' = st \/ st' = snd (log (LogBadLastEvent le u) st))).
  { unfold r1, last_event_value.
    destruct (negb (is_none le) && py_truthy le).
    - destruct (utc le) as [s|].
      + exists st. split; [reflexivity|now left].
      + exists (snd (log (LogBadLastEvent le u) st)). split; [|now right].
        unfold bind, on_self, ret. simpl. rewrite log_run. reflexivity.
    - exists st. split; [reflexivity|now left]. }
  destruct Hstep1 as [st' [Hstep1 Hst']].
  exists r3, st'.
  assert (Hrun : third_phase_body utc pc_last_event pc_modal_ip pc_day_totals (r, st)
                 = (inr tt, (r3, st'))).
  { unfold third_phase_body. rewrite on_record_bind.
    unfold rec_index. rewrite Hu. fold le.
    rewrite (bind_step _ _ _ _ _ Hstep1).
    rewrite on_record_bind, copy_modal_ip_run. fold dip. fold r2.
    rewrite on_record_run, for_each_copy_run. reflexivity. }
  assert (Hother : forall g, ~ In g (map stored_name pcd_fields_3) -> rget g r3 = rget g r2).
  { intros g Hg. unfold r3. now apply for_each_copy_other. }
  assert (H2 : forall g, g <> "ip" -> rget g r2 = rget g r1).
  { intros g Hg. unfold r2. destruct (is_none dip); [reflexivity|].
    apply rget_rset_other. apply String.eqb_neq. congruence. }
  assert (H1 : forall g, g <> "last_event" -> rget g r1 = rget g r).
  { intros g Hg. unfold r1. destruct (negb (is_none le) && py_truthy le); [|reflexivity].
    apply rget_rset_other. apply String.eqb_neq. congruence. }
  split; [exact Hrun|]. split; [|split; [|split; [|split]]].
  - rewrite Hother by (simpl; intuition discriminate).
    rewrite H2 by discriminate. unfold r1. cbv zeta.
    destruct (negb (is_none le) && py_truthy le); [apply rget_rset_same|reflexivity].
  - rewrite Hother by (simpl; intuition discriminate).
    unfold r2, merged. destruct (is_none dip).
    + now rewrite H1 by discriminate.
    + apply rget_rset_same.
  - apply Forall_forall. intros fa Hin. unfold r3.
    rewrite (for_each_copy_get pc_day_totals u pcd_fields_3 pcd_fields_3_nodup r2 fa Hin).
    f_equal.
    assert (Hne : stored_name fa <> "ip" /\ stored_name fa <> "last_event").
    { simpl in Hin. intuition (subst; discriminate). }
    rewrite H2 by apply Hne. now rewrite H1 by apply Hne.
  - intros g Hg. rewrite Hother by (intro; apply Hg; simpl; auto).
    rewrite H2 by (intros ->; apply Hg; simpl; auto).
    apply H1. intros ->. apply Hg. simpl. auto.
  - exact Hst'.
Qed.



Lemma copy_utf_run (src : table) (u : pyval) (f : string) (r : record) :
  copy_from_bq_table src u (Plain f) None true r =
  let d := bq_datum src u f in
  if is_none d then (inr tt, r)
  else match py_encode_utf8 d with
       | inr v => (inr tt, rset f v (rset f d r))
       | inl e => (inl e, rset f d r)
       end.
Proof.
  unfold copy_from_bq_table. cbv zeta.
  destruct (is_none (bq_datum src u f)); [reflexivity|].
  unfold bind, rec_set, modify, rec_index, lift. rewrite rget_rset_same.
  destruct (py_encode_utf8 (bq_datum src u f)); reflexivity.
Qed.

Lemma pcd_fields_4_nodup : NoDup (map stored_name pcd_fields_4).
Proof.
  simpl. repeat (constructor; [simpl; intuition discriminate|]). constructor.
Qed.

Lemma fourth_phase_body_run (pc_geoip : table) (r : record)
  (u : pyval) :
  rget "username" r = Some u ->
  exists res r',
    fourth_phase_body pc_geoip r = (res, r') /\
    Forall (fun fa => rget (stored_name fa) r'
                      = merged (bq_datum pc_geoip u (source_name fa))
                          (rget (stored_name fa) r)) pcd_fields_4 /\
    match encoded (bq_datum pc_geoip u "countryLabel") (rget "countryLabel" r) with
    | inl e =>
        res = inl e /\
        rget "countryLabel" r' = Some (bq_datum pc_geoip u "countryLabel") /\
        rget "city" r' = rget "city" r
    | inr label =>
        rget "countryLabel" r' = label /\
        match encoded (bq_datum pc_geoip u "city") (rget "city" r) with
        | inl e => res = inl e /\ rget "city" r' = Some (bq_datum pc_geoip u "city")
        | inr city => res = inr tt /\ rget "city" r' = city
        end
    end.
Proof.
  intro Hu.
  set (r1 := snd (for_each pcd_fields_4
                    (fun fa => copy_from_bq_table pc_geoip u fa None false) r)).
  assert (H1 : forall g, ~ In g (map stored_name pcd_fields_4) -> rget g r1 = rget g r).
  { intros g Hg. unfold r1. now apply for_each_copy_other. }
  assert (Hf : forall r', (forall g, g <> "countryLabel" -> g <> "city" ->
                                     rget g r' = rget g r1) ->
               Forall (fun fa => rget (stored_name fa) r'
                                 = merged (bq_datum pc_geoip u (source_name fa))
                                     (rget (stored_name fa) r)) pcd_fields_4).
  { intros r' Hr'. apply Forall_forall. intros fa Hin.
    rewrite Hr' by (simpl in Hin; intuition (subst; discriminate)).
    apply (for_each_copy_get pc_geoip u pcd_fields_4 pcd_fields_4_nodup r fa Hin). }
  assert (Hset : forall f g v (x : record), g <> f -> rget g (rset f v x) = rget g x).
  { intros f g v x Hg. apply rget_rset_other. apply String.eqb_neq. congruence. }
  unfold fourth_phase_body. unfold bind at 1. unfold rec_index at 1. rewrite Hu.
  unfold bind at 1. rewrite for_each_copy_run. fold r1.
  unfold bind. rewrite copy_utf_run. cbv zeta. unfold encoded.
  rewrite <- (H1 "countryLabel") by (simpl; intuition discriminate).
  rewrite <- (H1 "city") by (simpl; intuition discriminate).
  destruct (is_none (bq_datum pc_geoip u "countryLabel")).
  - rewrite copy_utf_run. cbv zeta.
    destruct (is_none (bq_datum pc_geoip u "city")).
    + exists (inr tt), r1. split; [reflexivity|]. split; [now apply Hf|]. auto.
    + destruct (py_encode_utf8 (bq_datum pc_geoip u "city")) as [e|v].
      * eexists _, _. split; [reflexivity|]. split.
        -- apply Hf. intros g Hl Hc. now apply Hset.
        -- rewrite Hset by discriminate. rewrite rget_rset_same. auto.
      * eexists _, _. split; [reflexivity|]. split.
        -- apply Hf. intros g Hl Hc. now rewrite !Hset.
        -- rewrite !Hset by discriminate. rewrite rget_rset_same. auto.
  - destruct (py_encode_utf8 (bq_datum pc_geoip u "countryLabel")) as [e|v].
    + eexists _, _. split; [reflexivity|]. split.
      * apply Hf. intros g Hl Hc. now apply Hset.
      * rewrite rget_rset_same. rewrite Hset by discriminate. auto.
    + rewrite copy_utf_run. cbv zeta.
      destruct (is_none (bq_datum pc_geoip u "city")).
      * eexists _, _. split; [reflexivity|]. split.
        -- apply Hf. intros g Hl Hc. now rewrite !Hset.
        -- rewrite rget_rset_same. rewrite !Hset by discriminate. auto.
      * destruct (py_encode_utf8 (bq_datum pc_geoip u "city")) as [e|v2].
        -- eexists _, _. split; [reflexivity|]. split.
           ++ apply Hf. intros g Hl Hc. now rewrite !Hset.
           ++ rewrite Hset by discriminate. rewrite !rget_rset_same. auto.
        -- eexists _, _. split; [reflexivity|]. split.
           ++ apply Hf. intros g Hl Hc. now rewrite !Hset.
           ++ rewrite !(Hset "city" "countryLabel") by discriminate.
              rewrite !rget_rset_same. auto.
Qed.

(** X15.  The fourth phase on a record that has a username.  The country,
    latitude and longitude of the user's geoip row are stored as cc_by_ip,
    latitude and longitude.  Then countryLabel and after it city are
    stored encoded as UTF-8 byte strings; a datum that has no encoding to
    offer (a number, say) makes the phase raise at that field, with the
    datum as it came left in the record.  A field for which the aggregate
    has no row or a null keeps what it had. *)
Theorem fourth_phase_body_encodes_the_text_fields (pc_geoip : table) (r : record)
  (u : pyval) :
  rget "username" r = Some u ->
  exists res r',
    fourth_phase_body pc_geoip r = (res, r') /\
    Forall (fun fa => rget (stored_name fa) r'
                      = merged (bq_datum pc_geoip u (source_name fa))
                          (rget (stored_name fa) r)) pcd_fields_4 /\
    match encoded (bq_datum pc_geoip u "countryLabel") (rget "countryLabel" r) with
    | inl e =>
        res = inl e /\
        rget "countryLabel" r' = Some (bq_datum pc_geoip u "countryLabel") /\
        rget "city" r' = rget "city" r
    | inr label =>
        rget "countryLabel" r' = label /\
        match encoded (bq_datum pc_geoip u "city") (rget "city" r) with
        | inl e => res = inl e /\ rget "city" r' = Some (bq_datum pc_geoip u "city")
        | inr city => res = inr tt /\ rget "city" r' = city
        end
    end.
Proof.
  apply fourth_phase_body_run.
Qed.

(** The city of alice comes out as the bytes Z, C3, BC, r, i, c, h. *)
Lemma fourth_phase_body_encodes_the_text_fields_witness :
  exists res r',
    fourth_phase_body ex_geoip [("username", PUni "alice")] = (res, r') /\
    Forall (fun fa => rget (stored_name fa) r'
                      = merged (bq_datum ex_geoip (PUni "alice") (source_name fa))
                          (rget (stored_name fa) [("username", PUni "alice")]))
      pcd_fields_4 /\
    rget "countryLabel" r' = Some (PStr "Switzerland") /\
    res = inr tt /\
    rget "city" r'
    = Some (PStr ("Z" ++ String (ascii_of_nat 195) (String (ascii_of_nat 188) "rich"))).
Proof.
  apply (fourth_phase_body_encodes_the_text_fields ex_geoip [("username", PUni "alice")]
           (PUni "alice")).
  reflexivity.
Defined.

Lemma forum_fields_nodup : NoDup (map stored_name forum_fields).
Proof.
  simpl. repeat (constructor; [simpl; intuition discriminate|]). constructor.
Qed.

Lemma rget_rset_neq (f g : string) (v : pyval) (r : record) :
  g <> f -> rget g (rset f v r) = rget g r.
Proof.
  intro H. apply rget_rset_other. apply String.eqb_neq. congruence.
Qed.

Lemma second_phase_body_forum (pc_nchapters pc_forum : table)
  (nchapters : Z) (r r' : record) :
  second_phase_body pc_nchapters pc_forum nchapters r = (inr tt, r') ->
  exists v uid,
    rget "user_id" r = Some v /\ py_str v = inr uid /\
    Forall (fun fa => rget (stored_name fa) r'
                      = merged (bq_datum pc_forum (PStr uid) (source_name fa))
                          (rget (stored_name fa) r)) forum_fields /\
    (forall g, ~ In g (["viewed"; "nchapters"; "explored"] ++ map stored_name forum_fields) ->
               rget g r' = rget g r).
Proof.
  unfold second_phase_body. intros H.
  apply bind_inr in H. destruct H as [v [r1 [Hv H]]].
  apply rec_index_inv in Hv. destruct Hv as [-> Hv].
  apply bind_inr in H. destruct H as [uid [r1 [Hu H]]].
  apply lift_inv in Hu. destruct Hu as [Hu ->].
  apply bind_inr in H. destruct H as [[] [r2 [H2 H]]].
  exists v, uid. split; [exact Hv|]. split; [exact Hu|].
  assert (Hr2 : forall g, ~ In g ["viewed"; "nchapters"; "explored"] -> rget g r2 = rget g r).
  { intros g Hg.
    assert (Hv' : g <> "viewed") by (intros ->; apply Hg; simpl; auto).
    assert (Hn' : g <> "nchapters") by (intros ->; apply Hg; simpl; auto).
    assert (He' : g <> "explored") by (intros ->; apply Hg; simpl; auto).
    destruct (tget (PStr uid) pc_nchapters) as [row|].
    - apply bind_inr in H2. destruct H2 as [[] [r3 [H3 H2]]].
      unfold rec_set, modify in H3. injection H3 as <-.
      apply bind_inr in H2. destruct H2 as [cnt [r4 [H4 H2]]].
      unfold row_index in H4. destruct (rget "nchapters" row) as [cnt0|]; [|discriminate].
      unfold ret in H4. injection H4 as -> <-.
      apply bind_inr in H2. destruct H2 as [k [r5 [H5 H2]]].
      apply lift_inv in H5. destruct H5 as [Hk ->].
      apply bind_inr in H2. destruct H2 as [[] [r6 [H6 H2]]].
      unfold rec_set, modify in H6. injection H6 as <-.
      destruct (k >=? nchapters / 2)%Z; unfold rec_set, modify in H2; injection H2 as <-;
        now rewrite !rget_rset_neq.
    - unfold rec_set, modify in H2. injection H2 as <-. now rewrite rget_rset_neq. }
  assert (Hr' : r' = snd (for_each forum_fields
                            (fun fa => copy_from_bq_table pc_forum (PStr uid) fa None false)
                            r2)) by now rewrite H.
  split.
  - apply Forall_forall. intros fa Hin. rewrite Hr'.
    rewrite (for_each_copy_get pc_forum (PStr uid) forum_fields forum_fields_nodup r2 fa Hin).
    f_equal. apply Hr2. simpl in Hin. simpl. intuition (subst; discriminate).
  - intros g Hg. rewrite Hr'. rewrite for_each_copy_other.
    + apply Hr2. intro Hin. apply Hg. apply in_or_app. now left.
    + intro Hin. apply Hg. apply in_or_app. now right.
Qed.

(** X16.  When the second phase returns on a record, each of the six
    forum counts of the user (posts, votes, endorsed, threads, comments,
    pinned) is in the record under its nforum_ name, taken from the row of
    pc_forum whose key is the text of the user_id of the record; a count
    for which the aggregate has no row or a null keeps what it had; and
    besides these six, viewed, nchapters and explored, no field of the
    record changes. *)
Theorem second_phase_body_merges_the_forum_counts (pc_nchapters pc_forum : table)
  (nchapters : Z) (r r' : record) :
  second_phase_body pc_nchapters pc_forum nchapters r = (inr tt, r') ->
  exists v uid,
    rget "user_id" r = Some v /\ py_str v = inr uid /\
    Forall (fun fa => rget (stored_name fa) r'
                      = merged (bq_datum pc_forum (PStr uid) (source_name fa))
                          (rget (stored_name fa) r)) forum_fields /\
    (forall g, ~ In g (["viewed"; "nchapters"; "explored"] ++ map stored_name forum_fields) ->
               rget g r' = rget g r).
Proof.
  apply second_phase_body_forum.
Qed.

Lemma second_phase_body_merges_the_forum_counts_witness :
  exists v uid,
    rget "user_id" [("user_id", PInt 1)] = Some v /\ py_str v = inr uid /\
    Forall (fun fa =>
              rget (stored_name fa)
                (snd (second_phase_body [] [(PUni "1", [("nforum", PUni "3")])] 10
                        [("user_id", PInt 1)]))
              = merged (bq_datum [(PUni "1", [("nforum", PUni "3")])] (PStr uid)
                          (source_name fa))
                  (rget (stored_name fa) [("user_id", PInt 1)])) forum_fields /\
    (forall g, ~ In g (["viewed"; "nchapters"; "explored"] ++ map stored_name forum_fields) ->
               rget g (snd (second_phase_body [] [(PUni "1", [("nforum", PUni "3")])] 10
                              [("user_id", PInt 1)]))
               = rget g [("user_id", PInt 1)]).
Proof.
  apply (second_phase_body_merges_the_forum_counts [] [(PUni "1", [("nforum", PUni "3")])] 10
           [("user_id", PInt 1)]).
  reflexivity.
Defined.

(* ------------------------------------------------------------------ *)
(** ** Publishing, when it goes through *)

Lemma output_json_loop_success (utf8 : string -> bool) (cs : Z -> schema -> Comp record unit)
  (dir : string) (ds : schema) (rows : list (list string)) (todo : table) :
  forall (done : table) (jl : list (option record)) (st st' : St),
    out_state dir (done ++ todo) jl rows st ->
    for_pctab (output_json_body utf8 cs "person_course.json.gz" ds) (List.length done) todo st
    = (inr tt, st') ->
    exists todo',
      List.length todo' = List.length todo /\
      out_state dir (done ++ todo') (jl ++ map (fun ent => Some (snd ent)) todo') rows st'.
Proof.
  induction todo as [|[key pcent] rest IH]; intros done jl st st' Hst Hrun.
  - simpl in Hrun. injection Hrun as <-. exists []. simpl. rewrite !app_nil_r in *. auto.
  - simpl in Hrun.
    unfold output_json_body at 1 in Hrun. unfold bind at 1 in Hrun.
    unfold on_record at 1 in Hrun. simpl in Hrun.
    destruct (cs (Z.of_nat (List.length done) + 1)%Z ds pcent) as [[e|[]] pcent'];
      simpl in Hrun; [discriminate|].
    unfold bind at 1 in Hrun. unfold on_record at 1, get_state at 1 in Hrun. simpl in Hrun.
    unfold bind at 1 in Hrun. unfold lift at 1 in Hrun.
    destruct (json_dumps utf8 pcent') as [e|line] eqn:Ed; [discriminate|].
    assert (line = pcent').
    { unfold json_dumps in Ed. destruct (forallb _ pcent'); [|discriminate]. congruence. }
    subst line. unfold on_self in Hrun.
    destruct (append_json_line_run dir (done ++ (key, pcent) :: rest) jl rows pcent' st Hst)
      as [st1 [Hrun1 Hst1]].
    simpl in Hrun. rewrite Hrun1 in Hrun. simpl in Hrun.
    assert (Hst2 : out_state dir ((done ++ [(key, pcent')]) ++ rest) (jl ++ [Some pcent']) rows
                     (set_pctab (update_nth (List.length done) (key, pcent') (pctab (fst st1)))
                        (fst st1), snd st1)).
    { destruct Hst1 as [H1 [H2 [H3 H4]]]. unfold out_state. simpl.
      rewrite H2, update_nth_app, <- app_assoc. auto. }
    rewrite <- (length_snoc done (key, pcent')) in Hrun.
    destruct (IH (done ++ [(key, pcent')]) (jl ++ [Some pcent']) _ _ Hst2 Hrun)
      as [todo' [Hlen Hst']].
    exists ((key, pcent') :: todo'). split; [simpl; congruence|].
    simpl. rewrite <- !app_assoc in Hst'. exact Hst'.
Qed.

Lemma output_csv_loop_success (dir : string) (names : list string) (tab : table)
  (jl : list (option record)) (todo : table) :
  forall (rows : list (list string)) (st : St),
    out_state dir tab jl rows st ->
    fst (output_csv_loop "person_course.csv.gz" names todo st) = inr tt ->
    exists rows',
      out_state dir tab jl (rows ++ rows')
        (snd (output_csv_loop "person_course.csv.gz" names todo st)) /\
      Forall2 (fun ent row => dictwriter_row names (snd ent) = inr row) todo rows'.
Proof.
  induction todo as [|[key pcent] rest IH]; intros rows st Hst Hok; simpl in *.
  - exists []. rewrite app_nil_r. split; [exact Hst|constructor].
  - destruct (dictwriter_row names pcent) as [e|row] eqn:Erow.
    + unfold bind in Hok. rewrite log_run in Hok. discriminate.
    + destruct (append_csv_row_run dir tab jl rows row st Hst) as [st1 [Hrun Hst1]].
      unfold bind in *. rewrite Hrun in *.
      destruct (IH (rows ++ [row]) st1 Hst1 Hok) as [rows' [Hout Hall]].
      exists (row :: rows'). rewrite <- app_assoc in Hout. split; [exact Hout|].
      constructor; assumption.
Qed.

(** X17.  When [output_table] returns, the two files agree with the record
    store it leaves behind: person_course.json.gz has one line per record,
    in the order of the store, each line the record as it then is (after
    the coercion of the schema check); person_course.csv.gz has the header
    of the schema's field names and then one row per record, in the same
    order, the row the writer makes of that record, with one cell per field
    of the schema; and the store has as many records as before. *)
Theorem output_table_writes_the_store_twice (utf8 : string -> bool)
  (cs : Z -> schema -> Comp record unit) (st : St) :
  fst (output_table utf8 cs st) = inr tt ->
  let st' := snd (output_table utf8 cs st) in
  let names := map fst (the_dict_schema (fst st)) in
  List.length (pctab (fst st')) = List.length (pctab (fst st)) /\
  od_get path_eqb (course_dir (fst st), "person_course.json.gz") (files (snd st'))
  = Some (JsonLinesFile (map (fun ent => Some (snd ent)) (pctab (fst st')))) /\
  exists rows,
    od_get path_eqb (course_dir (fst st), "person_course.csv.gz") (files (snd st'))
    = Some (CsvFile (names :: rows)) /\
    Forall2 (fun ent row => dictwriter_row names (snd ent) = inr row) (pctab (fst st')) rows /\
    Forall (fun row => List.length row = List.length names) rows.
Proof.
  intros Hok st' names. subst st'.
  set (dir := course_dir (fst st)). set (ds := the_dict_schema (fst st)).
  set (tab := pctab (fst st)).
  revert Hok. unfold output_table.
  rewrite (bind_step _ _ _ _ _ (eq_refl : get_self st = (inr (fst st), st))).
  rewrite (bind_step _ _ _ _ _ (write_file_run _ _ _)).
  rewrite (bind_step _ _ _ _ _ (write_file_run _ _ _)).
  match goal with
  | |- fst (bind _ _ ?st2) = _ -> _ => assert (H2 : out_state dir tab [] [] st2)
  end.
  { unfold out_state. simpl. fold dir.
    rewrite files_get_set_same.
    rewrite files_get_set_other by apply json_csv_paths.
    rewrite files_get_set_same. auto. }
  destruct (append_csv_row_run dir tab [] [] (map fst (the_dict_schema (fst st))) _ H2)
    as [st3 [Hrun3 H3]].
  rewrite (bind_step _ _ _ _ _ Hrun3).
  pose proof (log_out_state dir tab [] ([] ++ [map fst ds])
                (LogText ("Writing output to person_course.csv.gz and person_course.json.gz"))
                st3 H3) as H4.
  rewrite (bind_step _ _ _ _ _ (log_ok _ _)).
  match type of H4 with
  | out_state _ _ _ _ ?x => set (st4 := x) in *
  end.
  simpl in H4.
  destruct (for_each_pcent (output_json_body utf8 cs "person_course.json.gz"
                              (the_dict_schema (fst st))) st4) as [[e|[]] st5] eqn:Hloop.
  { rewrite (bind_inl _ _ _ _ _ Hloop). discriminate. }
  rewrite (bind_step _ _ _ _ _ Hloop).
  rewrite (bind_step _ _ _ _ _ (eq_refl : get_self st5 = (inr (fst st5), st5))).
  unfold for_each_pcent in Hloop.
  rewrite (bind_step _ _ _ _ _ (eq_refl : get_self st4 = (inr (fst st4), st4))) in Hloop.
  assert (Htab4 : pctab (fst st4) = tab) by apply H4.
  rewrite Htab4 in Hloop.
  destruct (output_json_loop_success utf8 cs dir ds [map fst ds] tab [] [] st4 st5 H4 Hloop)
    as [tab' [Hlen H5]].
  simpl in H5.
  assert (Htab5 : pctab (fst st5) = tab') by apply H5.
  rewrite Htab5. intro Hok.
  destruct (output_csv_loop_success dir (map fst ds) tab'
              (map (fun ent => Some (snd ent)) tab') tab' [map fst ds] st5 H5 Hok)
    as [rows [Hout Hall]].
  destruct Hout as [_ [Hp [Hj Hc]]].
  unfold names. fold ds. rewrite Hp. split; [exact Hlen|]. split; [exact Hj|].
  exists rows. split; [exact Hc|]. split; [exact Hall|].
  clear - Hall. induction Hall as [|ent row t rs H _ IH]; constructor; [|exact IH].
  rewrite (dictwriter_row_length _ _ _ H). reflexivity.
Qed.

Lemma output_table_writes_the_store_twice_witness :
  let st' := snd (output_table ex_utf8 ex_check_schema ex_st_plain1) in
  List.length (pctab (fst st')) = 1%nat /\
  od_get path_eqb ("dir", "person_course.json.gz") (files (snd st'))
  = Some (JsonLinesFile (map (fun ent => Some (snd ent)) (pctab (fst st')))) /\
  exists rows,
    od_get path_eqb ("dir", "person_course.csv.gz") (files (snd st'))
    = Some (CsvFile (map fst ex_schema :: rows)) /\
    Forall2 (fun ent row => dictwriter_row (map fst ex_schema) (snd ent) = inr row)
      (pctab (fst st')) rows /\
    Forall (fun row => List.length row = List.length (map fst ex_schema)) rows.
Proof.
  apply (output_table_writes_the_store_twice ex_utf8 ex_check_schema ex_st_plain1).
  reflexivity.
Defined.

(* ------------------------------------------------------------------ *)
(** ** What each method can change *)

(** A relation between the state before and the state after, closed under
    the updates listed as hypotheses, holds across every method that makes
    only those updates.  Each lemma below depends on the hypotheses for the
    updates its method makes, and on no other. *)
Section Invariant.

Variable R : St -> St -> Prop.
Context {R_pre : RelationClasses.PreOrder R}.
Variable ok_sql : Sql -> bool.

Hypothesis R_logmsg : forall s w l, R (s, w) (set_logmsg l s, w).
Hypothesis R_pctab : forall s w t, R (s, w) (set_pctab t s, w).
Hypothesis R_attrs : forall s w a, R (s, w) (set_attrs a s, w).
Hypothesis R_uicdat : forall s w t, R (s, w) (set_uicdat t s, w).
Hypothesis R_nchapters : forall s w n, R (s, w) (set_nchapters n s, w).
Hypothesis R_stdout : forall s w l, R (s, w) (s, add_stdout l w).
Hypothesis R_files : forall s w f, R (s, w) (s, set_files f w).
Hypothesis R_store : forall s w ds tn t, R (s, w) (s, store_table ds tn t w).
Hypothesis R_call : forall s w ds tn sql key force,
  ok_sql sql = true -> R (s, w) (s, add_trace (CallGetBqTable ds tn sql key force) w).
Hypothesis R_query : forall s w ds tn sql,
  ok_sql sql = true -> R (s, w) (s, add_trace (QuerySubmitted ds tn sql) w).
Hypothesis R_reused : forall s w ds tn, R (s, w) (s, add_trace (TableReused ds tn) w).
Hypothesis R_cp : forall s w d fn g, R (s, w) (s, add_trace (CallGsutilCp d fn g) w).
Hypothesis R_load : forall s w ds t g, R (s, w) (s, add_trace (CallLoadDataToTable ds t g) w).
Hypothesis R_describe : forall s w ds t d,
  R (s, w) (s, add_trace (CallAddDescription ds t d) w).

Ltac inv_prim :=
  intros;
  first [ apply R_logmsg | apply R_pctab | apply R_attrs | apply R_uicdat
        | apply R_nchapters | apply R_stdout | apply R_files | apply R_store
        | apply R_call; assumption | apply R_query; assumption | apply R_reused
        | apply R_cp | apply R_load | apply R_describe ].

Lemma frame_for_each_pcent (body : nat -> Comp (record * St) unit) :
  (forall i, body_steps R (body i)) -> steps R (for_each_pcent body).
Proof.
  intros Hbody. unfold for_each_pcent.
  apply (steps_bind R); [apply (steps_get_self R)|].
  intros self. apply (steps_for_pctab R).
  - intros i r st. apply (Hbody i (r, st)).
  - intros [s w] t. apply R_pctab.
Qed.

Lemma frame_log (msg : logent) : steps R (log msg).
Proof. unfold log. steps_tac ltac:(inv_prim). Qed.

Lemma frame_openfile fn : steps R (openfile fn).
Proof. unfold openfile. steps_tac ltac:(inv_prim). Qed.

Lemma frame_write_file fn f : steps R (write_file fn f).
Proof. unfold write_file. steps_tac ltac:(inv_prim). Qed.

Lemma frame_getattr tn : steps R (getattr tn).
Proof. unfold getattr. steps_tac ltac:(inv_prim). Qed.

Lemma frame_setattr tn t : steps R (setattr tn t).
Proof. unfold setattr. steps_tac ltac:(inv_prim). Qed.

Lemma frame_get_bq_table ds tn sql key force :
  ok_sql sql = true -> steps R (get_bq_table ds tn sql key force).
Proof. intro Hsql. unfold get_bq_table. steps_tac ltac:(inv_prim). Qed.

#[local] Hint Resolve frame_log frame_openfile frame_write_file frame_getattr
  frame_setattr frame_get_bq_table : frames.

Lemma frame_load_json_loop fn key lines :
  forall cnt data, steps R (load_json_loop fn key lines cnt data).
Proof.
  induction lines as [|line rest IH]; intros cnt data; simpl; steps_tac ltac:(inv_prim).
Qed.

#[local] Hint Resolve frame_load_json_loop : frames.

Lemma frame_load_json fn key : steps R (load_json fn key).
Proof. unfold load_json. steps_tac ltac:(inv_prim). Qed.

Lemma frame_getonefile fns : steps R (getonefile fns).
Proof. induction fns as [|fn rest IH]; simpl; steps_tac ltac:(inv_prim). Qed.

#[local] Hint Resolve frame_load_json frame_getonefile : frames.

Lemma frame_compute_first_phase : steps R compute_first_phase.
Proof. unfold compute_first_phase. steps_tac ltac:(inv_prim). Qed.

Lemma frame_get_nchapters : steps R get_nchapters_from_course_structure.
Proof. unfold get_nchapters_from_course_structure. steps_tac ltac:(inv_prim). Qed.

Lemma frame_reload_table : steps R reload_table.
Proof. unfold reload_table. steps_tac ltac:(inv_prim). Qed.

Lemma frame_load_nchapters :
  (forall ds, ok_sql (SqlNChapters ds) = true) -> steps R load_nchapters.
Proof. intro H. unfold load_nchapters, log_loading. steps_tac ltac:(inv_prim). Qed.

Lemma frame_load_pc_forum :
  (forall ds, ok_sql (SqlForum ds) = true) -> steps R load_pc_forum.
Proof. intro H. unfold load_pc_forum, log_loading. steps_tac ltac:(inv_prim). Qed.

Lemma frame_load_last_event :
  (forall ds s e, ok_sql (SqlLastEvent ds s e) = true) -> steps R load_last_event.
Proof. intro H. unfold load_last_event, log_loading. steps_tac ltac:(inv_prim). Qed.

Lemma frame_load_pc_day_totals :
  (forall c ds s e, ok_sql (SqlDayTotals c ds s e) = true) -> steps R load_pc_day_totals.
Proof. intro H. unfold load_pc_day_totals, log_loading. steps_tac ltac:(inv_prim). Qed.

Lemma frame_load_modal_ip :
  (forall ds s e, ok_sql (SqlModalIp ds s e) = true) -> steps R load_modal_ip.
Proof. intro H. unfold load_modal_ip, log_loading. steps_tac ltac:(inv_prim). Qed.

Lemma frame_load_pc_geoip :
  (forall ds, ok_sql (SqlGeoip ds) = true) -> steps R load_pc_geoip.
Proof. intro H. unfold load_pc_geoip, log_loading. steps_tac ltac:(inv_prim). Qed.

#[local] Hint Resolve frame_compute_first_phase frame_get_nchapters frame_reload_table
  frame_load_nchapters frame_load_pc_forum frame_load_last_event frame_load_pc_day_totals
  frame_load_modal_ip frame_load_pc_geoip : frames.

Lemma frame_on_record_loop (b : Comp record unit) :
  steps R (for_each_pcent (fun _ => on_record b)).
Proof.
  apply frame_for_each_pcent. intros i. apply (body_steps_on_record R).
Qed.

Lemma frame_third_phase_loop utc a b c :
  steps R (for_each_pcent (fun _ => third_phase_body utc a b c)).
Proof.
  apply frame_for_each_pcent. intros i. unfold third_phase_body. body_steps_tac.
Qed.

#[local] Hint Resolve frame_on_record_loop frame_third_phase_loop : frames.

Lemma frame_compute_second_phase :
  (forall ds, ok_sql (SqlNChapters ds) = true) ->
  (forall ds, ok_sql (SqlForum ds) = true) ->
  steps R compute_second_phase.
Proof. intros H1 H2. unfold compute_second_phase. steps_tac ltac:(inv_prim). Qed.

Lemma frame_compute_third_phase utc :
  (forall ds s e, ok_sql (SqlLastEvent ds s e) = true) ->
  (forall c ds s e, ok_sql (SqlDayTotals c ds s e) = true) ->
  (forall ds s e, ok_sql (SqlModalIp ds s e) = true) ->
  steps R (compute_third_phase utc).
Proof. intros H1 H2 H3. unfold compute_third_phase. steps_tac ltac:(inv_prim). Qed.

Lemma frame_compute_fourth_phase :
  (forall ds, ok_sql (SqlGeoip ds) = true) -> steps R compute_fourth_phase.
Proof. intros H1. unfold compute_fourth_phase. steps_tac ltac:(inv_prim). Qed.

Lemma frame_append_json_line fn line : steps R (append_json_line fn line).
Proof. unfold append_json_line. steps_tac ltac:(inv_prim). Qed.

Lemma frame_append_csv_row fn row : steps R (append_csv_row fn row).
Proof. unfold append_csv_row. steps_tac ltac:(inv_prim). Qed.

#[local] Hint Resolve frame_compute_second_phase frame_compute_third_phase
  frame_compute_fourth_phase frame_append_json_line frame_append_csv_row : frames.

Lemma frame_output_json_loop utf8 cs ofnj ds :
  steps R (for_each_pcent (output_json_body utf8 cs ofnj ds)).
Proof.
  apply frame_for_each_pcent. intros i. unfold output_json_body.
  apply (body_steps_bind R); [apply (body_steps_on_record R)|].
  intros _. apply (body_steps_bind R); [apply (body_steps_on_record R)|].
  intros pcent. apply (body_steps_bind R).
  - intros rs. unfold lift. simpl. reflexivity.
  - intros line. apply (body_steps_on_self R). auto with frames.
Qed.

Lemma frame_output_csv_loop ofn fieldnames todo :
  steps R (output_csv_loop ofn fieldnames todo).
Proof.
  induction todo as [|[key pcent] rest IH]; simpl; steps_tac ltac:(inv_prim).
Qed.

#[local] Hint Resolve frame_output_json_loop frame_output_csv_loop : frames.

Lemma frame_output_table utf8 cs : steps R (output_table utf8 cs).
Proof. unfold output_table. steps_tac ltac:(inv_prim). Qed.

Lemma frame_upload_to_gs fn : steps R (upload_to_gs fn).
Proof. unfold upload_to_gs. steps_tac ltac:(inv_prim). Qed.

#[local] Hint Resolve frame_output_table frame_upload_to_gs : frames.

Lemma frame_upload_to_bigquery : steps R upload_to_bigquery.
Proof. unfold upload_to_bigquery. steps_tac ltac:(inv_prim). Qed.

#[local] Hint Resolve frame_upload_to_bigquery : frames.

Lemma frame_redo_second_phase utf8 cs :
  (forall ds, ok_sql (SqlNChapters ds) = true) ->
  (forall ds, ok_sql (SqlForum ds) = true) ->
  steps R (redo_second_phase utf8 cs).
Proof. intros H1 H2. unfold redo_second_phase. steps_tac ltac:(inv_prim). Qed.

Lemma frame_make_all utc utf8 cs :
  (forall sql, ok_sql sql = true) -> steps R (make_all utc utf8 cs).
Proof. intros H. unfold make_all. steps_tac ltac:(inv_prim). Qed.

End Invariant.

#[global] Instance same_nchapters_pre : RelationClasses.PreOrder same_nchapters.
Proof.
  split; unfold same_nchapters.
  - intros st. reflexivity.
  - intros a b c H1 H2. congruence.
Qed.

#[global] Instance same_remote_pre : RelationClasses.PreOrder same_remote.
Proof.
  split; unfold same_remote.
  - intros st. now split.
  - intros a b c [H1 H2] [H3 H4]. split; congruence.
Qed.

#[global] Instance same_files_pre : RelationClasses.PreOrder same_files.
Proof.
  split; unfold same_files.
  - intros st. reflexivity.
  - intros a b c H1 H2. congruence.
Qed.

#[global] Instance no_log_query_pre : RelationClasses.PreOrder no_log_query.
Proof.
  split; unfold no_log_query.
  - intros st. exists []. now rewrite app_nil_r.
  - intros a b c [n1 [H1 F1]] [n2 [H2 F2]]. exists (n1 ++ n2). split.
    + now rewrite H2, H1, app_assoc.
    + now rewrite forallb_app, F1, F2.
Qed.

Ltac no_log_query_prim :=
  intros; unfold no_log_query; simpl;
  first [ exists []; now rewrite app_nil_r
        | eexists; split; [reflexivity | simpl; now rewrite ?andb_true_r, ?negb_true_iff ] ].

Lemma redo_second_phase_no_log_query utf8 cs :
  steps no_log_query (redo_second_phase utf8 cs).
Proof.
  apply (frame_redo_second_phase no_log_query (fun sql => negb (sql_reads_logs sql)));
    try reflexivity; try no_log_query_prim.
  - intros s w ds tn sql key force H. unfold no_log_query. simpl.
    eexists. split; [reflexivity|]. simpl. now rewrite H.
  - intros s w ds tn sql H. unfold no_log_query. simpl.
    eexists. split; [reflexivity|]. simpl. now rewrite H.
Qed.

(** X18.  Re-doing the second phase asks nothing about the tracking logs:
    whatever the state, and whether it returns or raises, none of the calls
    and queries it sends to the remote engine is one of the four whose text
    ranges over the daily tables (last event, number of events, modal IP,
    daily totals). *)
Theorem redo_second_phase_asks_no_log_query (utf8 : string -> bool)
  (cs : Z -> schema -> Comp record unit) (st : St) :
  exists new,
    bq_trace (snd (snd (redo_second_phase utf8 cs st))) = bq_trace (snd st) ++ new /\
    forallb (fun op => negb (is_log_query op)) new = true.
Proof.
  apply redo_second_phase_no_log_query.
Qed.

Ltac same_prim := intros; first [ reflexivity | split; reflexivity ].

(** X19.  The first phase, the reload of the store, the count of the
    chapters and the publishing of the two files work on the course
    directory alone: whatever the state, and whether they return or raise,
    they ask nothing of the remote engine and leave its datasets as they
    were. *)
Theorem local_steps_ask_nothing_of_the_remote_engine (utf8 : string -> bool)
  (cs : Z -> schema -> Comp record unit) (st : St) :
  same_remote st (snd (compute_first_phase st)) /\
  same_remote st (snd (reload_table st)) /\
  same_remote st (snd (get_nchapters_from_course_structure st)) /\
  same_remote st (snd (output_table utf8 cs st)).
Proof.
  split; [|split; [|split]].
  - apply (frame_compute_first_phase same_remote); same_prim.
  - apply (frame_reload_table same_remote); same_prim.
  - apply (frame_get_nchapters same_remote); same_prim.
  - apply (frame_output_table same_remote); same_prim.
Qed.

(** X20.  Only the publishing writes to the course directory: the four
    phases, the reload of the store and the upload leave every file of the
    course directory as it was, whatever the state and whether they return
    or raise. *)
Theorem only_output_table_writes_files (utc : pyval -> option string) (st : St) :
  same_files st (snd (compute_first_phase st)) /\
  same_files st (snd (compute_second_phase st)) /\
  same_files st (snd (compute_third_phase utc st)) /\
  same_files st (snd (compute_fourth_phase st)) /\
  same_files st (snd (reload_table st)) /\
  same_files st (snd (upload_to_bigquery st)).
Proof.
  split; [|split; [|split; [|split; [|split]]]].
  - apply (frame_compute_first_phase same_files); same_prim.
  - apply (frame_compute_second_phase same_files (fun _ => true)); same_prim.
  - apply (frame_compute_third_phase same_files (fun _ => true)); same_prim.
  - apply (frame_compute_fourth_phase same_files (fun _ => true)); same_prim.
  - apply (frame_reload_table same_files); same_prim.
  - apply (frame_upload_to_bigquery same_files); same_prim.
Qed.

(* ------------------------------------------------------------------ *)
(** ** The upload and the entry points *)

Lemma upload_to_gs_run (fn : string) (st : St) :
  upload_to_gs fn st =
  (inr ((gspath (fst st) ++ "/") ++ fn)%string,
   (set_logmsg (logmsg (fst st) ++ [upload_message (fst st) fn]) (fst st),
    add_trace (CallGsutilCp (course_dir (fst st)) fn (gspath (fst st) ++ "/"))
      (if verbose (fst st)
       then add_stdout (PrintedLog (upload_message (fst st) fn)) (snd st)
       else snd st))).
Proof.
  unfold upload_to_gs.
  rewrite (bind_step _ _ _ _ _ (eq_refl : get_self st = (inr (fst st), st))).
  unfold bind. rewrite log_run. reflexivity.
Qed.

Lemma upload_to_bigquery_run (st : St) :
  exists st',
    upload_to_bigquery st =
    (match nchapters (fst st) with
     | Some _ => inr tt
     | None => inl (AttributeError "nchapters")
     end, st') /\
    logmsg (fst st') = logmsg (fst st)
                       ++ [ upload_message (fst st) "person_course.json.gz";
                            upload_message (fst st) "person_course.csv.gz" ] /\
    bq_trace (snd st') =
      bq_trace (snd st) ++ upload_calls (fst st) ++
      match nchapters (fst st) with
      | Some n =>
          [ CallAddDescription (dataset (fst st)) "person_course"
              (logmsg (fst st')
               ++ [ LogText ("Person course for " ++ course_id (fst st)
                             ++ " with nchapters=" ++ str_of_Z n
                             ++ ", start=" ++ start_date (fst st)
                             ++ ", end=" ++ end_date (fst st));
                    LogText ("course SQL directory = " ++ course_dir (fst st));
                    LogStarted (str_repeat "=" 100 ++ "Done at") ]) ]
      | None => []
      end.
Proof.
  unfold upload_to_bigquery.
  rewrite (bind_step _ _ _ _ _ (upload_to_gs_run _ _)).
  rewrite (bind_step _ _ _ _ _ (upload_to_gs_run _ _)).
  destruct st as [s w]. unfold bind, get_self, modify_world, raise. simpl.
  destruct (nchapters s) as [n|]; simpl.
  - eexists. split; [reflexivity|]. simpl. rewrite <- !app_assoc. simpl.
    split; [reflexivity|]. destruct (verbose s); simpl; rewrite <- !app_assoc; reflexivity.
  - eexists. split; [reflexivity|]. simpl. rewrite <- !app_assoc. simpl.
    split; [reflexivity|]. destruct (verbose s); simpl; rewrite <- !app_assoc; reflexivity.
Qed.

(** X21.  [upload_to_bigquery] on an object whose chapters were counted
    returns after four calls, in this order: the copy of
    person_course.json.gz, the copy of person_course.csv.gz, the load of the
    table person_course from the copy of the structured file alone, and the
    writing of the description.  The description is every message the
    object has logged, the two about the copies included, followed by the
    line on the course with nchapters and the date bounds, the course
    directory and the closing line. *)
Theorem upload_to_bigquery_loads_the_json_and_describes (st : St) (n : Z) :
  nchapters (fst st) = Some n ->
  fst (upload_to_bigquery st) = inr tt /\
  bq_trace (snd (snd (upload_to_bigquery st))) =
    bq_trace (snd st) ++ upload_calls (fst st) ++
    [ CallAddDescription (dataset (fst st)) "person_course"
        (logmsg (fst (snd (upload_to_bigquery st)))
         ++ [ LogText ("Person course for " ++ course_id (fst st)
                       ++ " with nchapters=" ++ str_of_Z n
                       ++ ", start=" ++ start_date (fst st)
                       ++ ", end=" ++ end_date (fst st));
              LogText ("course SQL directory = " ++ course_dir (fst st));
              LogStarted (str_repeat "=" 100 ++ "Done at") ]) ] /\
  logmsg (fst (snd (upload_to_bigquery st))) =
    logmsg (fst st) ++ [ upload_message (fst st) "person_course.json.gz";
                         upload_message (fst st) "person_course.csv.gz" ].
Proof.
  intro Hn. destruct (upload_to_bigquery_run st) as [st' [Hrun [Hlog Htrace]]].
  rewrite Hn in Hrun, Htrace. rewrite Hrun. simpl. auto.
Qed.

Lemma upload_to_bigquery_loads_the_json_and_describes_witness :
  fst (upload_to_bigquery (set_nchapters 10 ex_self, ex_world)) = inr tt /\
  bq_trace (snd (snd (upload_to_bigquery (set_nchapters 10 ex_self, ex_world)))) =
    [ CallGsutilCp "dir" "person_course.json.gz" "gs://x-data/6.SFMx/";
      CallGsutilCp "dir" "person_course.csv.gz" "gs://x-data/6.SFMx/";
      CallLoadDataToTable "ds" "person_course" "gs://x-data/6.SFMx/person_course.json.gz";
      CallAddDescription "ds" "person_course"
        (logmsg (fst (snd (upload_to_bigquery (set_nchapters 10 ex_self, ex_world))))
         ++ [ LogText "Person course for MITx/6.SFMx/1T2014 with nchapters=10, start=2012-09-05, end=2012-09-07";
              LogText "course SQL directory = dir";
              LogStarted (str_repeat "=" 100 ++ "Done at") ]) ] /\
  logmsg (fst (snd (upload_to_bigquery (set_nchapters 10 ex_self, ex_world)))) =
    [ upload_message ex_self "person_course.json.gz";
      upload_message ex_self "person_course.csv.gz" ].
Proof.
  apply (upload_to_bigquery_loads_the_json_and_describes
           (set_nchapters 10 ex_self, ex_world) 10%Z).
  reflexivity.
Defined.

Section EntryFacts.

Variable utc_time_string : pyval -> option string.
Variable utf8_decodable : string -> bool.
Variable check_schema : Z -> schema -> Comp record unit.
Variable find_course_sql_dir : string -> option string -> option string -> string.
Variable gs_path_from_course_id : string -> string -> string.
Variable course_id2dataset : string -> string.

(** The three ways [__init__] can end. *)
Lemma PersonCourse_init_run course_id root date gsbucket force start_ end_ (w : World) :
  let dir := find_course_sql_dir course_id root date in
  let ds := course_id2dataset course_id in
  let l1 := LogText ("dataset=" ++ ds) in
  let l2 := LogText (str_repeat "=" 100) in
  let l3 := LogStarted ("Person Course initialized, course_dir=" ++ dir
                        ++ ", dataset=" ++ ds) in
  PersonCourse_init find_course_sql_dir gs_path_from_course_id course_id2dataset
    course_id root date gsbucket force start_ end_ w =
  if negb (str_in dir (directories w))
  then (inl (SystemExit (-1)),
        add_stdout (Printed ("Oops: missing directory " ++ dir ++ "!")) w)
  else
    match schema_file w with
    | inl e =>
        (inl e,
         add_stdout (Printed "Oops!  Failed to load schema file for person course.")
           (add_stdout (PrintedLog l1) w))
    | inr the_schema =>
        (inr (mkSelf course_id dir true force (gs_path_from_course_id course_id gsbucket) ds
                end_ start_ the_schema [] [l1; l2; l3; l2] None None None []),
         add_stdout (PrintedLog l2)
           (add_stdout (PrintedLog l3)
              (add_stdout (PrintedLog l2) (add_stdout (PrintedLog l1) w))))
    end.
Proof.
  cbv zeta. unfold PersonCourse_init.
  rewrite (bind_step _ _ _ _ _ (eq_refl : get_state w = (inr w, w))).
  destruct (negb (str_in _ (directories w))); [reflexivity|].
  unfold bind at 1. unfold with_self.
  rewrite (bind_step _ _ _ _ _ (log_ok _ _)). rewrite log_run. cbn [fst snd verbose].
  unfold bind at 1. unfold get_world at 1. cbn [fst snd schema_file add_stdout].
  destruct (schema_file w) as [e|the_schema].
  - reflexivity.
  - unfold bind at 1. unfold modify_self at 1. cbn [fst snd].
    rewrite (bind_step _ _ _ _ _ (log_ok _ _)). rewrite log_run.
    rewrite (bind_step _ _ _ _ _ (log_ok _ _)). rewrite log_run.
    rewrite log_run. reflexivity.
Qed.


Lemma PersonCourse_init_inv course_id root date gsbucket force start_ end_
  (w w' : World) (pc : Self) :
  PersonCourse_init find_course_sql_dir gs_path_from_course_id course_id2dataset
    course_id root date gsbucket force start_ end_ w = (inr pc, w') ->
  str_in (find_course_sql_dir course_id root date) (directories w) = true /\
  exists the_schema,
    schema_file w = inr the_schema /\
    pc = mkSelf course_id (find_course_sql_dir course_id root date) true force
           (gs_path_from_course_id course_id gsbucket) (course_id2dataset course_id)
           end_ start_ the_schema []
           [ LogText ("dataset=" ++ course_id2dataset course_id);
             LogText (str_repeat "=" 100);
             LogStarted ("Person Course initialized, course_dir="
                         ++ find_course_sql_dir course_id root date
                         ++ ", dataset=" ++ course_id2dataset course_id);
             LogText (str_repeat "=" 100) ]
           None None None [] /\
    bq_trace w' = bq_trace w /\ files w' = files w /\ bq_datasets w' = bq_datasets w.
Proof.
  rewrite PersonCourse_init_run. cbv zeta.
  destruct (str_in _ (directories w)); simpl; [|discriminate].
  destruct (schema_file w) as [e|the_schema]; [discriminate|].
  intro H. injection H as <- <-. split; [reflexivity|].
  exists the_schema. auto.
Qed.

Lemma pc3_steps_raise (st : St) :
  nchapters (fst st) = None ->
  exists e,
    fst ((reload_table ;;;
          compute_third_phase utc_time_string ;;;
          output_table utf8_decodable check_schema ;;;
          upload_to_bigquery) st) = inl e.
Proof.
  intro Hn.
  pose proof (frame_reload_table same_nchapters) as F1.
  pose proof (frame_compute_third_phase same_nchapters (fun _ => true)) as F2.
  pose proof (frame_output_table same_nchapters) as F3.
  destruct (reload_table st) as [[e|[]] st1] eqn:E1;
    [rewrite (bind_inl _ _ _ _ _ E1); simpl; eauto|].
  rewrite (bind_step _ _ _ _ _ E1).
  destruct (compute_third_phase utc_time_string st1) as [[e|[]] st2] eqn:E2;
    [rewrite (bind_inl _ _ _ _ _ E2); simpl; eauto|].
  rewrite (bind_step _ _ _ _ _ E2).
  destruct (output_table utf8_decodable check_schema st2) as [[e|[]] st3] eqn:E3;
    [rewrite (bind_inl _ _ _ _ _ E3); simpl; eauto|].
  rewrite (bind_step _ _ _ _ _ E3).
  assert (H1 : same_nchapters st st1).
  { rewrite <- (f_equal snd E1 : snd (reload_table st) = st1). apply F1; same_prim. }
  assert (H2 : same_nchapters st1 st2).
  { rewrite <- (f_equal snd E2 : snd (compute_third_phase utc_time_string st1) = st2).
    apply F2; same_prim. }
  assert (H3 : same_nchapters st2 st3).
  { rewrite <- (f_equal snd E3 : snd (output_table utf8_decodable check_schema st2) = st3).
    apply F3; same_prim. }
  unfold same_nchapters in *.
  destruct (upload_to_bigquery_run st3) as [st4 [Hrun _]].
  rewrite Hrun. replace (nchapters (fst st3)) with (@None Z) by congruence.
  simpl. eauto.
Qed.

(** X22.  [make_pc3] never runs to its end.  The object it makes has no
    count of the chapters, and neither the reload, nor the third phase, nor
    the publishing sets one; so when these three go through, the upload
    copies the two files and loads the table, and then raises the
    AttributeError of the missing nchapters before any description is
    written. *)
Theorem make_pc3_never_completes (course_id cdir : string) (w : World) :
  (exists e,
      fst (make_pc3 utc_time_string utf8_decodable check_schema find_course_sql_dir
             gs_path_from_course_id course_id2dataset course_id cdir w) = inl e) /\
  (forall pc w1 st3,
      PersonCourse_init find_course_sql_dir gs_path_from_course_id course_id2dataset
        course_id (Some "") (Some "") "gs://x-data" false "2012-01-01" "2014-09-21" w
      = (inr pc, w1) ->
      (reload_table ;;;
       compute_third_phase utc_time_string ;;;
       output_table utf8_decodable check_schema) (pc, w1) = (inr tt, st3) ->
      fst (make_pc3 utc_time_string utf8_decodable check_schema find_course_sql_dir
             gs_path_from_course_id course_id2dataset course_id cdir w)
      = inl (AttributeError "nchapters") /\
      bq_trace (snd (make_pc3 utc_time_string utf8_decodable check_schema find_course_sql_dir
                       gs_path_from_course_id course_id2dataset course_id cdir w))
      = bq_trace (snd st3) ++ upload_calls (fst st3)).
Proof.
  split.
  - unfold make_pc3.
    destruct (PersonCourse_init find_course_sql_dir gs_path_from_course_id
                course_id2dataset course_id (Some "") (Some "") "gs://x-data" false
                "2012-01-01" "2014-09-21" w) as [[e|pc] w1] eqn:Einit.
    { rewrite (bind_inl _ _ _ _ _ Einit). simpl. eauto. }
    rewrite (bind_step _ _ _ _ _ Einit).
    destruct (PersonCourse_init_inv _ _ _ _ _ _ _ _ _ _ Einit) as [_ [sch [_ [Hpc _]]]].
    assert (Hn : nchapters (fst (pc, w1)) = None) by (rewrite Hpc; reflexivity).
    destruct (pc3_steps_raise (pc, w1) Hn) as [e He].
    unfold bind at 1. unfold with_self.
    destruct ((reload_table ;;; compute_third_phase utc_time_string ;;;
               output_table utf8_decodable check_schema ;;; upload_to_bigquery) (pc, w1))
      as [[e'|[]] [s2 w2]]; simpl in *; [eauto|discriminate].
  - intros pc w1 st3 Hinit Hrun.
    destruct (PersonCourse_init_inv _ _ _ _ _ _ _ _ _ _ Hinit) as [_ [sch [_ [Hpc _]]]].
    apply bind_inr in Hrun. destruct Hrun as [[] [st1 [E1 Hrun]]].
    apply bind_inr in Hrun. destruct Hrun as [[] [st2 [E2 E3]]].
    assert (Hn : nchapters (fst st3) = None).
    { pose proof (frame_reload_table same_nchapters) as F1.
      pose proof (frame_compute_third_phase same_nchapters (fun _ => true)) as F2.
      pose proof (frame_output_table same_nchapters) as F3.
      assert (H1 : same_nchapters (pc, w1) st1).
      { rewrite <- (f_equal snd E1 : snd (reload_table (pc, w1)) = st1). apply F1; same_prim. }
      assert (H2 : same_nchapters st1 st2).
      { rewrite <- (f_equal snd E2 : snd (compute_third_phase utc_time_string st1) = st2).
        apply F2; same_prim. }
      assert (H3 : same_nchapters st2 st3).
      { rewrite <- (f_equal snd E3 : snd (output_table utf8_decodable check_schema st2) = st3).
        apply F3; same_prim. }
      unfold same_nchapters in *. simpl in H1. rewrite H3, H2, H1, Hpc. reflexivity. }
    destruct (upload_to_bigquery_run st3) as [st4 [Hup [_ Htr]]].
    rewrite Hn in Hup, Htr. rewrite app_nil_r in Htr.
    assert (Hc : (reload_table ;;; compute_third_phase utc_time_string ;;;
                  output_table utf8_decodable check_schema ;;; upload_to_bigquery) (pc, w1)
                 = (inl (AttributeError "nchapters"), st4)).
    { rewrite (bind_step _ _ _ _ _ E1). rewrite (bind_step _ _ _ _ _ E2).
      rewrite (bind_step _ _ _ _ _ E3). exact Hup. }
    assert (Hm : make_pc3 utc_time_string utf8_decodable check_schema find_course_sql_dir
                   gs_path_from_course_id course_id2dataset course_id cdir w
                 = (inl (AttributeError "nchapters"), snd st4)).
    { unfold make_pc3. rewrite (bind_step _ _ _ _ _ Hinit). apply bind_inl.
      unfold with_self. rewrite Hc. now destruct st4. }
    rewrite Hm. simpl. auto.
Qed.

End EntryFacts.

#[global] Instance same_settings_pre : RelationClasses.PreOrder same_settings.
Proof.
  split; unfold same_settings.
  - intros st. repeat split.
  - intros a b c H1 H2.
    destruct H1 as [? [? [? [? [? [? [? [? ?]]]]]]]].
    destruct H2 as [? [? [? [? [? [? [? [? ?]]]]]]]].
    repeat split; congruence.
Qed.

Ltac same_settings_prim := intros; unfold same_settings; simpl; repeat split.

Lemma make_all_same_settings utc utf8 cs : steps same_settings (make_all utc utf8 cs).
Proof.
  apply (frame_make_all same_settings (fun _ => true)); try same_settings_prim.
Qed.

Section CommandLineFacts.

Variable utc_time_string : pyval -> option string.
Variable utf8_decodable : string -> bool.
Variable check_schema : Z -> schema -> Comp record unit.
Variable find_course_sql_dir : string -> option string -> option string -> string.
Variable gs_path_from_course_id : string -> string -> string.
Variable course_id2dataset : string -> string.

(** X23.  The object on which the pipeline of a course has run to its end
    under the command person_course was made with the settings of the
    command line: the start and end date options when they are given and
    not empty, else 2012-09-05 and 2014-09-21; the force flag of the
    command line; the course directory found from the base and date
    directory options, or from the configuration when an option is absent
    or empty; the bucket of the configuration.  No phase changes these, and
    the chapters of the course were counted. *)
Theorem person_course_call_keeps_the_settings (cfg : Config) (args : Args)
  (course : string) (w w' : World) (pc : Self) :
  person_course_call utc_time_string utf8_decodable check_schema find_course_sql_dir
    gs_path_from_course_id course_id2dataset cfg args course w = (inr pc, w') ->
  start_date pc = or_default (arg_start_date args) "2012-09-05" /\
  end_date pc = or_default (arg_end_date args) "2014-09-21" /\
  force_recompute_from_logs pc = force_recompute args /\
  course_dir pc = find_course_sql_dir course
                    (or_else (course_base_dir args) (COURSE_SQL_BASE_DIR cfg))
                    (or_else (course_date_dir args) (COURSE_SQL_DATE_DIR cfg)) /\
  gspath pc = gs_path_from_course_id course (GS_BUCKET cfg) /\
  dataset pc = course_id2dataset course /\
  exists n, nchapters pc = Some n.
Proof.
  unfold person_course_call, make_person_course. intros H.
  apply bind_inr in H. destruct H as [[] [w1 [_ H]]].
  apply bind_inr in H. destruct H as [[] [w2 [_ H]]].
  apply bind_inr in H. destruct H as [[] [w3 [_ H]]].
  apply bind_inr in H. destruct H as [pc0 [w4 [Hinit H]]].
  apply bind_inr in H. destruct H as [[[] pc1] [w5 [Hrun H]]].
  apply bind_inr in H. destruct H as [[] [w6 [_ H]]].
  apply bind_inr in H. destruct H as [[] [w7 [_ H]]].
  unfold ret in H. injection H as <- <-. cbn [snd].
  destruct (PersonCourse_init_inv _ _ _ _ _ _ _ _ _ _ _ _ _ Hinit) as [_ [sch [_ [Hpc _]]]].
  apply with_self_inv in Hrun.
  change (is_substring "redo2" "") with false in Hrun. cbv iota in Hrun.
  pose proof (make_all_same_settings utc_time_string utf8_decodable check_schema (pc0, w4))
    as Hs.
  rewrite Hrun in Hs. unfold same_settings in Hs. cbn [fst snd] in Hs.
  destruct Hs as [_ [Hd [_ [Hf [Hg [Hds [He [Hst _]]]]]]]].
  rewrite Hst, He, Hf, Hd, Hg, Hds, Hpc. cbn.
  rewrite orb_false_r.
  repeat (split; [reflexivity|]).
  unfold make_all in Hrun.
  apply bind_inr in Hrun. destruct Hrun as [[] [s1 [_ Hrun]]].
  apply bind_inr in Hrun. destruct Hrun as [[] [s2 [_ Hrun]]].
  apply bind_inr in Hrun. destruct Hrun as [[] [s3 [_ Hrun]]].
  apply bind_inr in Hrun. destruct Hrun as [[] [s4 [_ Hrun]]].
  apply bind_inr in Hrun. destruct Hrun as [[] [s5 [_ Hrun]]].
  destruct (upload_to_bigquery_run s5) as [s6 [Hup _]].
  rewrite Hrun in Hup.
  pose proof (frame_upload_to_bigquery same_nchapters) as Fu.
  assert (Hn : same_nchapters s5 (snd (upload_to_bigquery s5))) by (apply Fu; same_prim).
  rewrite Hrun in Hn. unfold same_nchapters in Hn. cbn [fst snd] in Hn. rewrite Hn.
  destruct (nchapters (fst s5)) as [n|]; [eauto|].
  injection Hup as Hup _. discriminate.
Qed.

(** X24.  The command person_course stops at the first course whose
    pipeline raises: either it returns, or the courses before some course
    ran to their end one after the other, the pipeline of that course
    raised, and the command ends there with the same exception, having
    printed it unless it is a request to exit; the courses after it are not
    started. *)
Theorem person_course_command_stops_at_the_first_failure (cfg : Config) (args : Args)
  (w : World) :
  let loop := person_course_loop utc_time_string utf8_decodable check_schema
                find_course_sql_dir gs_path_from_course_id course_id2dataset cfg args in
  let call := person_course_call utc_time_string utf8_decodable check_schema
                find_course_sql_dir gs_path_from_course_id course_id2dataset cfg args in
  fst (loop (get_course_ids cfg args) w) = inr tt \/
  exists e pre c post w0 w1,
    get_course_ids cfg args = pre ++ c :: post /\
    loop pre w = (inr tt, w0) /\
    call c w0 = (inl e, w1) /\
    person_course_command utc_time_string utf8_decodable check_schema
      find_course_sql_dir gs_path_from_course_id course_id2dataset cfg args w
    = (inl e, match e with
              | SystemExit _ => w1
              | _ => add_stdout (PrintedError e) w1
              end).
Proof.
  intros loop call. unfold person_course_command. fold loop.
  generalize (get_course_ids cfg args) as ids. intro ids. revert w.
  induction ids as [|c rest IH]; intro w.
  - left. reflexivity.
  - destruct (call c w) as [[e|pc] w1] eqn:Ecall.
    + right. exists e, [], c, rest, w, w1.
      split; [reflexivity|]. split; [reflexivity|]. split; [exact Ecall|].
      unfold loop. simpl. fold call. rewrite Ecall. now destruct e.
    + assert (Hstep : forall l, loop (c :: l) w = loop l w1).
      { intro l. unfold loop. simpl. fold call. now rewrite Ecall. }
      destruct (IH w1) as [Hok|[e [pre [c' [post [w0 [w2 [Hids [Hpre [Hc Hres]]]]]]]]]].
      * left. now rewrite Hstep.
      * right. exists e, (c :: pre), c', post, w0, w2.
        split; [simpl; now rewrite Hids|]. split; [now rewrite Hstep|].
        split; [exact Hc|]. now rewrite Hstep.
Qed.

(** X25.  A course without its directory ends the command person_course
    with exit code -1: the pipeline of that course prints its two opening
    lines, the note on forcing when the force flag is set, and the line
    about the missing directory, and asks for the exit.  The request is not
    caught by the command, so no error line is printed and, the course being
    the first of the command, no other course is started; nothing was asked
    of the remote engine. *)
Theorem person_course_exits_on_a_missing_directory (cfg : Config) (args : Args)
  (c : string) (rest : list string) (w : World) :
  let dir := find_course_sql_dir c
               (or_else (course_base_dir args) (COURSE_SQL_BASE_DIR cfg))
               (or_else (course_date_dir args) (COURSE_SQL_DATE_DIR cfg)) in
  get_course_ids cfg args = c :: rest ->
  str_in dir (directories w) = false ->
  person_course_command utc_time_string utf8_decodable check_schema
    find_course_sql_dir gs_path_from_course_id course_id2dataset cfg args w =
  (inl (SystemExit (-1)),
   add_stdout_lines
     ([ Printed (str_repeat "-" 77);
        PrintedStarted ("Processing person course for " ++ c) ]
      ++ (if force_recompute args
          then [ Printed "--> Note: Forcing re-querying of person_day results from tracking logs!!! Can be $$$ expensive!!!" ]
          else [])
      ++ [ Printed ("Oops: missing directory " ++ dir ++ "!") ]) w).
Proof.
  intros dir Hids Hdir. unfold person_course_command. rewrite Hids. simpl.
  unfold person_course_call, make_person_course.
  unfold bind at 1. unfold print at 1, modify at 1.
  unfold bind at 1. unfold print at 1, modify at 1.
  change (is_substring "force_recompute" "") with false. rewrite orb_false_r.
  unfold bind at 1.
  destruct (force_recompute args).
  - unfold print at 1, modify at 1. unfold bind at 1.
    rewrite PersonCourse_init_run. cbv zeta. cbn [directories add_stdout]. fold dir.
    rewrite Hdir. reflexivity.
  - unfold ret at 1. unfold bind at 1.
    rewrite PersonCourse_init_run. cbv zeta. cbn [directories add_stdout]. fold dir.
    rewrite Hdir. reflexivity.
Qed.

End CommandLineFacts.

(** Run for the first course of the sample command, whose start date is
    given and whose end date is given as the empty string. *)
Lemma person_course_call_keeps_the_settings_witness :
  let pc := match fst (person_course_call ex_utc ex_utf8 ex_check_schema ex_find_dir
                         ex_gs_path ex_dataset ex_config ex_args2 "MITx/6.SFMx/1T2014"
                         ex_world_plain) with
            | inr pc => pc
            | inl _ => ex_self
            end in
  start_date pc = "2013-01-01" /\
  end_date pc = "2014-09-21" /\
  force_recompute_from_logs pc = false /\
  course_dir pc = "dir" /\
  gspath pc = "gs://x-data/6.SFMx" /\
  dataset pc = "ds" /\
  exists n, nchapters pc = Some n.
Proof.
  apply (person_course_call_keeps_the_settings ex_utc ex_utf8 ex_check_schema ex_find_dir
           ex_gs_path ex_dataset ex_config ex_args2 "MITx/6.SFMx/1T2014" ex_world_plain
           (snd (person_course_call ex_utc ex_utf8 ex_check_schema ex_find_dir
                   ex_gs_path ex_dataset ex_config ex_args2 "MITx/6.SFMx/1T2014"
                   ex_world_plain))).
  vm_compute. reflexivity.
Defined.

(** The second course of the sample command has no directory. *)
Lemma person_course_exits_on_a_missing_directory_witness :
  person_course_command ex_utc ex_utf8 ex_check_schema ex_find_first ex_gs_path ex_dataset
    ex_config
    (mkArgs "person_course" None None None None false true ["MITx/8.01x/2T2014"; "c"])
    ex_world_plain =
  (inl (SystemExit (-1)),
   add_stdout_lines
     [ Printed (str_repeat "-" 77);
       PrintedStarted "Processing person course for MITx/8.01x/2T2014";
       Printed "--> Note: Forcing re-querying of person_day results from tracking logs!!! Can be $$$ expensive!!!";
       Printed "Oops: missing directory nowhere!" ] ex_world_plain).
Proof.
  apply (person_course_exits_on_a_missing_directory ex_utc ex_utf8 ex_check_schema
           ex_find_first ex_gs_path ex_dataset ex_config
           (mkArgs "person_course" None None None None false true ["MITx/8.01x/2T2014"; "c"])
           "MITx/8.01x/2T2014" ["c"] ex_world_plain).
  - reflexivity.
  - reflexivity.
Defined.

(** On the sample, where the reload, the third phase and the publishing go
    through, [make_pc3] ends in the upload. *)
Example make_pc3_on_the_sample :
  fst (make_pc3 ex_utc ex_utf8 ex_check_schema ex_find_dir ex_gs_path ex_dataset
         "MITx/6.SFMx/1T2014" "dir" ex_world_pc3) = inl (AttributeError "nchapters") /\
  List.length (bq_trace (snd (make_pc3 ex_utc ex_utf8 ex_check_schema ex_find_dir ex_gs_path
                                ex_dataset "MITx/6.SFMx/1T2014" "dir" ex_world_pc3)))
  = 9%nat.
Proof.
  vm_compute. split; reflexivity.
Qed.

(* ------------------------------------------------------------------ *)
(** ** The check of the daily tables, at its edges *)

Lemma daterange_empty (s e : Z) : (e < s)%Z -> daterange s e = inr [].
Proof.
  intro H. unfold daterange. simpl.
  destruct (s <=? e)%Z eqn:E; [|reflexivity].
  apply Z.leb_le in E. lia.
Qed.

(** X26.  The check of the daily tables asks for the listing of the
    tables before it reads the dates of the object.  When the start date or
    the end date is not a date in the form year-month-day, it raises the
    error of the parser, the listing having been asked for and nothing else
    done; and when the end date is before the start date, it returns
    without looking for any table, whatever the dataset holds. *)
Theorem ensure_all_daily_tables_loaded_at_the_edges (dsuffix tprefix : string) (st : St) :
  let ds := (dataset (fst st) ++ "_" ++ dsuffix)%string in
  (forall err,
      d2dt (start_date (fst st)) = inl err ->
      ensure_all_daily_tables_loaded dsuffix tprefix st = (inl err, listed ds st)) /\
  (forall s err,
      d2dt (start_date (fst st)) = inr s ->
      d2dt (end_date (fst st)) = inl err ->
      ensure_all_daily_tables_loaded dsuffix tprefix st = (inl err, listed ds st)) /\
  (forall s e,
      d2dt (start_date (fst st)) = inr s ->
      d2dt (end_date (fst st)) = inr e ->
      (e < s)%Z ->
      ensure_all_daily_tables_loaded dsuffix tprefix st = (inr tt, listed ds st)).
Proof.
  intro ds.
  assert (H : ensure_all_daily_tables_loaded dsuffix tprefix st =
              (s <- lift (d2dt (start_date (fst st))) ;;
               e <- lift (d2dt (end_date (fst st))) ;;
               dates <- lift (daterange s e) ;;
               ensure_loop ds tprefix (table_ids ds (snd st)) dates) (listed ds st)).
  { unfold ensure_all_daily_tables_loaded.
    rewrite (bind_step _ _ _ _ _ (eq_refl : get_self st = (inr (fst st), st))).
    fold ds. now rewrite (bind_step _ _ _ _ _ (get_tables_run ds st)). }
  rewrite H. split; [|split].
  - intros err Hs. now rewrite Hs.
  - intros s err Hs He. rewrite Hs, He. reflexivity.
  - intros s e Hs He Hlt. rewrite Hs, He. unfold bind, lift.
    now rewrite (daterange_empty s e Hlt).
Qed.

Lemma ensure_all_daily_tables_loaded_at_the_edges_witness :
  ensure_all_daily_tables_loaded "logs" "tracklog" ex_st_baddate
  = (inl (ValueError "day is out of range for month"), listed "ds_logs" ex_st_baddate) /\
  ensure_all_daily_tables_loaded "logs" "tracklog" ex_st_inverted
  = (inr tt, listed "ds_logs" ex_st_inverted).
Proof.
  split.
  - apply (proj1 (ensure_all_daily_tables_loaded_at_the_edges "logs" "tracklog"
                    ex_st_baddate)).
    reflexivity.
  - apply (proj2 (proj2 (ensure_all_daily_tables_loaded_at_the_edges "logs" "tracklog"
                           ex_st_inverted))
             (ymd2ord 2012 9 7) (ymd2ord 2012 9 5)).
    + reflexivity.
    + reflexivity.
    + reflexivity.
Defined.

(* ------------------------------------------------------------------ *)
(** ** The third phase as a whole *)









(* ------------------------------------------------------------------ *)
(** ** Running a phase again *)

Lemma rset_same (f : string) (v : pyval) (r : record) :
  rget f r = Some v -> rset f v r = r.
Proof.
  unfold rget, rset. induction r as [|[k x] rest IH]; simpl; [discriminate|].
  destruct (String.eqb k f).
  - intro H. now injection H as ->.
  - intro H. now rewrite IH.
Qed.

Lemma rset_rset (f : string) (v d : pyval) (r : record) :
  rset f v (rset f d r) = rset f v r.
Proof.
  unfold rset. induction r as [|[k x] rest IH]; simpl.
  - now rewrite String.eqb_refl.
  - destruct (String.eqb k f) eqn:E; simpl; rewrite E; [reflexivity|now rewrite IH].
Qed.

Lemma merged_some (d : pyval) (old : option pyval) :
  is_none d = false -> merged d old = Some d.
Proof. unfold merged. now intros ->. Qed.

Lemma copy_from_bq_table_again (src : table) (u : pyval) (fa : field_arg) (r : record) :
  rget (stored_name fa) r
  = merged (bq_datum src u (source_name fa)) (rget (stored_name fa) r) ->
  copy_from_bq_table src u fa None false r = (inr tt, r).
Proof.
  intro H. rewrite copy_from_bq_table_run.
  destruct (is_none (bq_datum src u (source_name fa))) eqn:E; [reflexivity|].
  rewrite (merged_some _ _ E) in H. now rewrite (rset_same _ _ _ H).
Qed.

Lemma for_each_copy_again (src : table) (u : pyval) (fields : list field_arg) (r : record) :
  Forall (fun fa => exists old,
                      rget (stored_name fa) r
                      = merged (bq_datum src u (source_name fa)) old) fields ->
  for_each fields (fun fa => copy_from_bq_table src u fa None false) r = (inr tt, r).
Proof.
  induction 1 as [|fa rest [old Hfa] _ IH]; simpl; [reflexivity|].
  unfold bind. rewrite copy_from_bq_table_again; [exact IH|].
  rewrite Hfa. unfold merged. destruct (is_none _); reflexivity.
Qed.

Lemma Forall_merged (src : table) (u : pyval) (fields : list field_arg) (r r' : record) :
  Forall (fun fa => rget (stored_name fa) r'
                    = merged (bq_datum src u (source_name fa)) (rget (stored_name fa) r))
    fields ->
  Forall (fun fa => exists old,
                      rget (stored_name fa) r'
                      = merged (bq_datum src u (source_name fa)) old) fields.
Proof.
  intro H. eapply Forall_impl; [|exact H]. intros fa Hfa. simpl in *. eexists. exact Hfa.
Qed.

Lemma third_phase_body_again (utc : pyval -> option string)
  (pc_last_event pc_modal_ip pc_day_totals : table) (r : record) (st : St) (u : pyval) :
  rget "username" r = Some u ->
  exists r' st' st'',
    third_phase_body utc pc_last_event pc_modal_ip pc_day_totals (r, st)
    = (inr tt, (r', st')) /\
    third_phase_body utc pc_last_event pc_modal_ip pc_day_totals (r', st')
    = (inr tt, (r', st'')).
Proof.
  intro Hu.
  destruct (third_phase_body_run utc pc_last_event pc_modal_ip pc_day_totals r st u Hu)
    as [r' [st' [Hrun [Hle [Hip [Hpcd [Hother _]]]]]]].
  assert (Hu' : rget "username" r' = Some u).
  { rewrite Hother; [exact Hu|]. simpl. intuition discriminate. }
  set (le := bq_datum pc_last_event u "last_event") in *.
  set (dip := bq_datum pc_modal_ip u "modal_ip") in *.
  cbv zeta in Hle.
  assert (Hstep1 : exists st'',
             (if negb (is_none le) && py_truthy le
              then
                le' <- match utc le with
                       | Some s => ret (PStr s)
                       | None => on_self (log (LogBadLastEvent le u)) ;;; ret le
                       end ;;
                on_record (rec_set "last_event" le')
              else ret tt) (r', st') = (inr tt, (r', st''))).
  { destruct (negb (is_none le) && py_truthy le).
    - unfold last_event_value in Hle. destruct (utc le) as [s|].
      + exists st'. unfold bind, ret, on_record, rec_set, modify. simpl.
        now rewrite (rset_same _ _ _ Hle).
      + exists (snd (log (LogBadLastEvent le u) st')).
        unfold bind, on_self, ret, on_record, rec_set, modify. simpl.
        rewrite log_run. simpl. now rewrite (rset_same _ _ _ Hle).
    - exists st'. reflexivity. }
  destruct Hstep1 as [st'' Hstep1].
  exists r', st', st''. split; [exact Hrun|].
  unfold third_phase_body. rewrite on_record_bind.
  unfold rec_index. rewrite Hu'. fold le.
  rewrite (bind_step _ _ _ _ _ Hstep1).
  rewrite on_record_bind, copy_modal_ip_run. fold dip.
  assert (Hip' : (if is_none dip then r' else rset "ip" dip r') = r').
  { unfold merged in Hip. destruct (is_none dip); [reflexivity|].
    now apply rset_same. }
  rewrite Hip'. rewrite on_record_run.
  rewrite (for_each_copy_again pc_day_totals u pcd_fields_3 r'
             (Forall_merged _ _ _ _ _ Hpcd)).
  reflexivity.
Qed.

Lemma copy_utf_again (src : table) (u : pyval) (f : string) (r : record)
  (old : option pyval) :
  encoded (bq_datum src u f) old = inr (rget f r) ->
  copy_from_bq_table src u (Plain f) None true r = (inr tt, r).
Proof.
  unfold encoded. rewrite copy_utf_run. cbv zeta.
  destruct (is_none (bq_datum src u f)); [reflexivity|].
  destruct (py_encode_utf8 (bq_datum src u f)) as [e|v]; [discriminate|].
  intro H. injection H as H. rewrite rset_rset. now rewrite rset_same.
Qed.

Lemma fourth_phase_body_again (pc_geoip : table) (r r' : record) :
  fourth_phase_body pc_geoip r = (inr tt, r') ->
  fourth_phase_body pc_geoip r' = (inr tt, r').
Proof.
  intro Hrun.
  destruct (rget "username" r) as [u|] eqn:Hu.
  2:{ unfold fourth_phase_body, bind, rec_index in Hrun. rewrite Hu in Hrun. discriminate. }
  destruct (fourth_phase_body_run pc_geoip r u Hu) as [res [r1 [Hrun1 [Hpcd Henc]]]].
  rewrite Hrun in Hrun1. injection Hrun1 as <- <-.
  destruct (encoded (bq_datum pc_geoip u "countryLabel") (rget "countryLabel" r))
    as [e|label] eqn:El; [destruct Henc; discriminate|].
  destruct Henc as [Hl Henc].
  destruct (encoded (bq_datum pc_geoip u "city") (rget "city" r))
    as [e|city] eqn:Ec; [destruct Henc; discriminate|].
  destruct Henc as [_ Hc].
  assert (Hu' : rget "username" r' = Some u).
  { clear - Hrun Hu.
    unfold fourth_phase_body in Hrun.
    apply bind_inr in Hrun. destruct Hrun as [u0 [r0 [H0 Hrun]]].
    apply rec_index_inv in H0. destruct H0 as [-> H0].
    apply bind_inr in Hrun. destruct Hrun as [[] [r1 [H1 Hrun]]].
    apply bind_inr in Hrun. destruct Hrun as [[] [r2 [H2 H3]]].
    assert (E1 : rget "username" r1 = rget "username" r).
    { rewrite for_each_copy_run in H1.
      assert (Er1 : r1 = snd (for_each pcd_fields_4
                                (fun fa => copy_from_bq_table pc_geoip u0 fa None false) r))
        by congruence.
      rewrite Er1. apply (for_each_copy_other pc_geoip u0 pcd_fields_4 "username").
      simpl. intuition discriminate. }
    assert (Eutf : forall f x y,
               f <> "username" ->
               copy_from_bq_table pc_geoip u0 (Plain f) None true x = (inr tt, y) ->
               rget "username" y = rget "username" x).
    { intros f x y Hf H. rewrite copy_utf_run in H. cbv zeta in H.
      destruct (is_none (bq_datum pc_geoip u0 f)).
      - now injection H as <-.
      - destruct (py_encode_utf8 (bq_datum pc_geoip u0 f)); [discriminate|].
        injection H as <-. rewrite !rget_rset_neq by congruence. reflexivity. }
    rewrite (Eutf "city" r2 r') by (discriminate || exact H3).
    rewrite (Eutf "countryLabel" r1 r2) by (discriminate || exact H2).
    now rewrite E1. }
  unfold fourth_phase_body. unfold bind at 1. unfold rec_index at 1. rewrite Hu'.
  rewrite (bind_step _ _ _ _ _
             (for_each_copy_again pc_geoip u pcd_fields_4 r' (Forall_merged _ _ _ _ _ Hpcd))).
  rewrite (bind_step _ _ _ _ _
             (copy_utf_again pc_geoip u "countryLabel" r' (rget "countryLabel" r)
                (eq_trans El (f_equal inr (eq_sym Hl))))).
  apply (copy_utf_again pc_geoip u "city" r' (rget "city" r)).
  rewrite Ec. now rewrite Hc.
Qed.

Lemma second_phase_body_again (pc_nchapters pc_forum : table) (nchapters : Z)
  (r r' : record) :
  second_phase_body pc_nchapters pc_forum nchapters r = (inr tt, r') ->
  second_phase_body pc_nchapters pc_forum nchapters r' = (inr tt, r').
Proof.
  intro Hrun.
  destruct (second_phase_body_ok _ _ _ _ _ Hrun) as [v [uid [Hv [Huid Hout]]]].
  destruct (second_phase_body_forum _ _ _ _ _ Hrun) as [v' [uid' [Hv' [Huid' [Hforum Hother]]]]].
  assert (v' = v) by congruence. subst v'.
  assert (uid' = uid) by congruence. subst uid'.
  assert (Hv1 : rget "user_id" r' = Some v).
  { rewrite Hother; [exact Hv|]. simpl. intuition discriminate. }
  unfold second_phase_body.
  unfold bind at 1. unfold rec_index at 1. rewrite Hv1.
  unfold bind at 1. unfold lift at 1. rewrite Huid.
  assert (Hfirst :
            match tget (PStr uid) pc_nchapters with
            | Some row =>
                rec_set "viewed" (PBool true) ;;;
                nv <- row_index "nchapters" row ;;
                n <- lift (py_int nv) ;;
                rec_set "nchapters" (PInt n) ;;;
                if (n >=? nchapters / 2)%Z
                then rec_set "explored" (PBool true)
                else rec_set "explored" (PBool false)
            | None => rec_set "viewed" (PBool false)
            end r' = (inr tt, r')).
  { destruct (tget (PStr uid) pc_nchapters) as [row|].
    - destruct Hout as [cnt [k [Hcnt [Hk [Hvi [Hn He]]]]]].
      unfold bind, rec_set, modify, row_index, lift, ret. rewrite Hcnt, Hk.
      rewrite (rset_same _ _ _ Hvi). rewrite (rset_same _ _ _ Hn).
      destruct (k >=? nchapters / 2)%Z; now rewrite (rset_same _ _ _ He).
    - destruct Hout as [Hvi _]. unfold rec_set, modify.
      now rewrite (rset_same _ _ _ Hvi). }
  rewrite (bind_step _ _ _ _ _ Hfirst).
  apply for_each_copy_again. exact (Forall_merged _ _ _ _ _ Hforum).
Qed.

(** X28.  Running the loop body of the second, third or fourth phase
    again on the record it has enriched, with the same aggregates, returns
    and leaves the record exactly as it is: the enrichment of a record is
    idempotent.  (For the third phase, a last event that does not convert
    is logged again.) *)
Theorem phase_bodies_are_idempotent :
  (forall pc_nchapters pc_forum nchapters r r',
      second_phase_body pc_nchapters pc_forum nchapters r = (inr tt, r') ->
      second_phase_body pc_nchapters pc_forum nchapters r' = (inr tt, r')) /\
  (forall utc pc_last_event pc_modal_ip pc_day_totals r (st : St) u,
      rget "username" r = Some u ->
      exists r' st' st'',
        third_phase_body utc pc_last_event pc_modal_ip pc_day_totals (r, st)
        = (inr tt, (r', st')) /\
        third_phase_body utc pc_last_event pc_modal_ip pc_day_totals (r', st')
        = (inr tt, (r', st''))) /\
  (forall pc_geoip r r',
      fourth_phase_body pc_geoip r = (inr tt, r') ->
      fourth_phase_body pc_geoip r' = (inr tt, r')).
Proof.
  split; [|split].
  - apply second_phase_body_again.
  - apply third_phase_body_again.
  - apply fourth_phase_body_again.
Qed.

(** The three bodies on a record of alice, run twice. *)
Lemma phase_bodies_are_idempotent_witness :
  second_phase_body [] [(PUni "1", [("nforum", PUni "3")])] 10%Z
    (snd (second_phase_body [] [(PUni "1", [("nforum", PUni "3")])] 10%Z [("user_id", PInt 1)]))
  = (inr tt,
     snd (second_phase_body [] [(PUni "1", [("nforum", PUni "3")])] 10%Z [("user_id", PInt 1)]))
  /\
  fourth_phase_body ex_geoip (snd (fourth_phase_body ex_geoip [("username", PUni "alice")]))
  = (inr tt, snd (fourth_phase_body ex_geoip [("username", PUni "alice")])).
Proof.
  split.
  - apply (proj1 phase_bodies_are_idempotent [] [(PUni "1", [("nforum", PUni "3")])] 10%Z
             [("user_id", PInt 1)]).
    reflexivity.
  - apply (proj2 (proj2 phase_bodies_are_idempotent) ex_geoip [("username", PUni "alice")]).
    reflexivity.
Defined.

(* ------------------------------------------------------------------ *)
(** ** Dates and the names of the daily tables *)

(** Every day of the years 1 to 400, a whole cycle of the calendar. *)
Lemma cycle_ok_true : forallb year_ok (seq 1 400) = true.
Proof. vm_compute. reflexivity. Qed.
Lemma cycle_ok_at (y m d : nat) :
  In y (seq 1 400) -> In m (seq 1 12) -> In d (seq 1 31) ->
  round_trip_ok (Z.of_nat y) (Z.of_nat m) (Z.of_nat d) = true.
Proof.
  intros Hy Hm Hd.
  pose proof (proj1 (forallb_forall year_ok (seq 1 400)) cycle_ok_true y Hy) as H1.
  unfold year_ok in H1.
  pose proof (proj1 (forallb_forall (month_ok y) (seq 1 12)) H1 m Hm) as H2.
  unfold month_ok in H2.
  exact (proj1 (forallb_forall _ (seq 1 31)) H2 d Hd).
Qed.
Open Scope Z_scope.

Lemma is_leap_shift (y k : Z) : is_leap (y + 400 * k) = is_leap y.
Proof.
  unfold is_leap.
  replace (y + 400 * k) with (y + (100 * k) * 4) at 1 by ring.
  replace (y + 400 * k) with (y + (4 * k) * 100) at 1 by ring.
  replace (y + 400 * k) with (y + k * 400) by ring.
  now rewrite !Z.mod_add by lia.
Qed.

Lemma days_in_month_shift (y m k : Z) : days_in_month (y + 400 * k) m = days_in_month y m.
Proof. unfold days_in_month. now rewrite is_leap_shift. Qed.

Lemma days_before_year_shift (y k : Z) :
  days_before_year (y + 400 * k) = days_before_year y + 146097 * k.
Proof.
  unfold days_before_year. cbv zeta.
  replace ((y + 400 * k - 1) / 4) with ((y - 1) / 4 + 100 * k).
  2:{ replace (y + 400 * k - 1) with (y - 1 + (100 * k) * 4) by ring.
      now rewrite Z.div_add by lia. }
  replace ((y + 400 * k - 1) / 100) with ((y - 1) / 100 + 4 * k).
  2:{ replace (y + 400 * k - 1) with (y - 1 + (4 * k) * 100) by ring.
      now rewrite Z.div_add by lia. }
  replace ((y + 400 * k - 1) / 400) with ((y - 1) / 400 + k).
  2:{ replace (y + 400 * k - 1) with (y - 1 + k * 400) by ring.
      now rewrite Z.div_add by lia. }
  ring.
Qed.

Lemma ymd2ord_shift (y m d k : Z) :
  ymd2ord (y + 400 * k) m d = ymd2ord y m d + 146097 * k.
Proof.
  unfold ymd2ord, days_before_month.
  rewrite days_before_year_shift, is_leap_shift. ring.
Qed.

Lemma ord2ymd_shift (n k : Z) :
  ord2ymd (n + 146097 * k) =
  let '(y, m, d) := ord2ymd n in (y + 400 * k, m, d).
Proof.
  unfold ord2ymd. cbv zeta.
  replace (n + 146097 * k - 1) with (n - 1 + k * 146097) by ring.
  rewrite Z.div_add by lia. rewrite Z.mod_add by lia.
  set (r := (n - 1) mod 146097).
  set (q := (n - 1) / 146097).
  destruct ((r mod 36524 mod 1461 / 365 =? 4) || (r / 36524 =? 4)).
  - f_equal. f_equal. ring.
  - match goal with
    | |- (if ?c then _ else _) = _ => destruct c
    end; f_equal; f_equal; ring.
Qed.

Lemma cycle_round_trip (y m d : Z) :
  1 <= y <= 400 -> 1 <= m <= 12 -> 1 <= d <= days_in_month y m ->
  ord2ymd (ymd2ord y m d) = (y, m, d).
Proof.
  intros Hy Hm Hd.
  assert (Hd31 : d <= 31).
  { unfold days_in_month in Hd.
    destruct (m =? 2); [destruct (is_leap y)|
      destruct ((m =? 4) || (m =? 6) || (m =? 9) || (m =? 11))%bool]; lia. }
  assert (Hiy : In (Z.to_nat y) (seq 1 400)) by (apply in_seq; lia).
  assert (Him : In (Z.to_nat m) (seq 1 12)) by (apply in_seq; lia).
  assert (Hid : In (Z.to_nat d) (seq 1 31)) by (apply in_seq; lia).
  assert (Ey : Z.of_nat (Z.to_nat y) = y) by (apply Z2Nat.id; lia).
  assert (Em : Z.of_nat (Z.to_nat m) = m) by (apply Z2Nat.id; lia).
  assert (Ed : Z.of_nat (Z.to_nat d) = d) by (apply Z2Nat.id; lia).
  assert (Hle : (d <=? days_in_month y m) = true) by (apply Z.leb_le; lia).
  pose proof (cycle_ok_at (Z.to_nat y) (Z.to_nat m) (Z.to_nat d) Hiy Him Hid) as H.
  rewrite Ey, Em, Ed in H.
  unfold round_trip_ok in H. rewrite Hle in H.
  destruct (ord2ymd (ymd2ord y m d)) as [[y' m'] d'].
  apply andb_true_iff in H. destruct H as [H H3].
  apply andb_true_iff in H. destruct H as [H1 H2].
  apply Z.eqb_eq in H1. apply Z.eqb_eq in H2. apply Z.eqb_eq in H3.
  congruence.
Qed.

(** The ordinal of a day of the calendar converts back to its year, month
    and day, in every year. *)
Lemma ord2ymd_ymd2ord (y m d : Z) :
  1 <= m <= 12 -> 1 <= d <= days_in_month y m ->
  ord2ymd (ymd2ord y m d) = (y, m, d).
Proof.
  intros Hm Hd.
  set (k := (y - 1) / 400). set (y0 := (y - 1) mod 400 + 1).
  assert (Hy : y = y0 + 400 * k).
  { unfold y0, k. pose proof (Z.div_mod (y - 1) 400). lia. }
  assert (Hy0 : 1 <= y0 <= 400).
  { unfold y0. pose proof (Z.mod_pos_bound (y - 1) 400). lia. }
  rewrite Hy in *. rewrite days_in_month_shift in Hd.
  rewrite ymd2ord_shift, ord2ymd_shift.
  now rewrite (cycle_round_trip y0 m d Hy0 Hm Hd).
Qed.

Close Scope Z_scope.
Open Scope Z_scope.

Lemma digit_of_range (c : ascii) (x : Z) : digit_of c = Some x -> 0 <= x <= 9.
Proof.
  unfold digit_of, is_digit. cbv zeta.
  destruct ((48 <=? nat_of_ascii c)%nat && (nat_of_ascii c <=? 57)%nat)%bool eqn:E;
    [|discriminate].
  intro H. injection H as <-.
  apply andb_true_iff in E. destruct E as [E1 E2].
  apply Nat.leb_le in E1. apply Nat.leb_le in E2. lia.
Qed.

Lemma parse_month_range (s : string) (m : Z) : parse_month s = Some m -> 1 <= m <= 12.
Proof.
  unfold parse_month.
  destruct s as [|a [|b [|c r]]]; try discriminate.
  - destruct (digit_of a) as [x|] eqn:Ea; [|discriminate].
    destruct (1 <=? x) eqn:E1; [|discriminate].
    intro H. injection H as <-. apply Z.leb_le in E1.
    pose proof (digit_of_range _ _ Ea). lia.
  - destruct (digit_of a) as [x|]; [|discriminate].
    destruct (digit_of b) as [y|]; [|discriminate].
    destruct ((1 <=? 10 * x + y) && (10 * x + y <=? 12))%bool eqn:E; [|discriminate].
    intro H. replace m with (10 * x + y) by congruence.
    apply andb_true_iff in E. destruct E as [E1 E2].
    apply Z.leb_le in E1. apply Z.leb_le in E2. lia.
Qed.

Lemma parse_day_range (s : string) (d : Z) : parse_day s = Some d -> 1 <= d.
Proof.
  unfold parse_day.
  destruct s as [|a [|b [|c r]]]; try discriminate.
  - destruct (digit_of a) as [x|]; [|discriminate].
    destruct (1 <=? x) eqn:E1; [|discriminate].
    intro H. injection H as <-. now apply Z.leb_le in E1.
  - destruct (digit_of b) as [y|]; [|discriminate].
    destruct (Ascii.eqb a " ").
    + destruct (1 <=? y) eqn:E1; [|discriminate].
      intro H. injection H as <-. now apply Z.leb_le in E1.
    + destruct (digit_of a) as [x|]; [|discriminate].
      destruct ((1 <=? 10 * x + y) && (10 * x + y <=? 31))%bool eqn:E; [|discriminate].
      intro H. replace d with (10 * x + y) by congruence.
      apply andb_true_iff in E. destruct E as [E1 E2]. now apply Z.leb_le in E1.
Qed.

(** X29.  A date that [d2dt] accepts is converted to the day it names, and
    [daterange] names that day by the year, month and day written in the
    date: the datetime converts back to that year, month and day, so the
    name of the daily table looked for is the prefix followed by the year
    on four digits and the month and the day on two digits each. *)
Theorem d2dt_names_the_day_written_in_the_date (date : string) (n : Z) :
  d2dt date = inr n ->
  exists y m d,
    parse_ymd date = Some (y, m, d) /\
    ord2ymd n = (y, m, d) /\
    ymd_string n
    = (zero_pad 4 (str_of_Z y) ++ zero_pad 2 (str_of_Z m) ++ zero_pad 2 (str_of_Z d))%string.
Proof.
  unfold d2dt, parse_ymd.
  destruct (split_dash date) as [[ys rest]|]; [|discriminate].
  destruct (split_dash rest) as [[ms ds]|]; [|discriminate].
  destruct (parse_year ys) as [y|]; [|discriminate].
  destruct (parse_month ms) as [m|] eqn:Em; [|discriminate].
  destruct (parse_day ds) as [d|] eqn:Ed; [|discriminate].
  destruct ((1 <=? y) && (d <=? days_in_month y m))%bool eqn:E; [|discriminate].
  intro H. injection H as <-.
  apply andb_true_iff in E. destruct E as [_ E2]. apply Z.leb_le in E2.
  pose proof (parse_month_range _ _ Em) as Hm.
  pose proof (parse_day_range _ _ Ed) as Hd.
  assert (Hrt : ord2ymd (ymd2ord y m d) = (y, m, d)) by (apply ord2ymd_ymd2ord; lia).
  exists y, m, d. split; [reflexivity|]. split; [exact Hrt|].
  unfold ymd_string. now rewrite Hrt.
Qed.

Lemma d2dt_names_the_day_written_in_the_date_witness :
  exists y m d,
    parse_ymd "2012-9-05" = Some (y, m, d) /\
    ord2ymd (ymd2ord 2012 9 5) = (y, m, d) /\
    ymd_string (ymd2ord 2012 9 5)
    = (zero_pad 4 (str_of_Z y) ++ zero_pad 2 (str_of_Z m) ++ zero_pad 2 (str_of_Z d))%string.
Proof.
  apply (d2dt_names_the_day_written_in_the_date "2012-9-05" (ymd2ord 2012 9 5)).
  reflexivity.
Defined.

Close Scope Z_scope.
